(** * starterkit API: request pipeline, user service and process lifecycle

    A shallow embedding of the Go sources under [api/]:
      - [internal/server/middleware.go]  (the middleware chain),
      - [internal/users/handler.go], [internal/users/service.go],
      - [internal/platform/logger/context.go],
      - [cmd/server/main.go].

    Each Go package is a [Module] of the same name.  The standard library
    and third-party packages the code calls ([errors], [strconv],
    [net/http], [log/slog], [context], [github.com/google/uuid],
    [pgx/pgtype]) are modelled after their documented behaviour, only as
    far as the code above uses them. *)

From Stdlib Require Import ZArith Lia List String Ascii Bool.
From Stdlib.Strings Require Import Byte.
From stdpp Require Import base option list strings pretty gmap.

Local Open Scope string_scope.
Local Open Scope list_scope.
Local Open Scope Z_scope.

Set Default Proof Using "Type".

(* ===================================================================== *)
(** ** Go values shared by all packages                                   *)
(* ===================================================================== *)

(** Go's [int] on the 64-bit targets the service is built for. *)
Definition minInt64 : Z := - 2 ^ 63.
Definition maxInt64 : Z := 2 ^ 63 - 1.

(** The conversion [int32(x)]: two's complement wrap-around. *)
Definition int32 (x : Z) : Z := (x + 2 ^ 31) mod 2 ^ 32 - 2 ^ 31.

(** A function returning [(T, error)]. *)
Inductive Result (E A : Type) : Type :=
| Ok (a : A)
| Err (e : E).
Arguments Ok {E A} a.
Arguments Err {E A} e.

(* --------------------------------------------------------------------- *)
(** *** package errors (with the sentinels the code compares against)     *)
(* --------------------------------------------------------------------- *)

Module errors.

(** Error values: sentinels are compared by identity, [Wrap] is an error
    with an [Unwrap] method (as built by [fmt.Errorf] with [%w]). *)
Inductive error : Type :=
| PgxErrNoRows                      (* pgx.ErrNoRows *)
| UsersErrUserNotFound              (* users.ErrUserNotFound *)
| Other (msg : string)              (* any other leaf error *)
| Wrap (msg : string) (inner : error).

Fixpoint error_eqb (a b : error) : bool :=
  match a, b with
  | PgxErrNoRows, PgxErrNoRows => true
  | UsersErrUserNotFound, UsersErrUserNotFound => true
  | Other m, Other n => String.eqb m n
  | Wrap m x, Wrap n y => String.eqb m n && error_eqb x y
  | _, _ => false
  end.

(** [errors.Is(err, target)]: [err] or any error in its chain equals
    [target]. *)
Fixpoint Is (err target : error) : bool :=
  error_eqb err target ||
  match err with
  | Wrap _ inner => Is inner target
  | _ => false
  end.

(** [err.Error()] *)
Fixpoint Error (e : error) : string :=
  match e with
  | PgxErrNoRows => "no rows in result set"
  | UsersErrUserNotFound => "user not found"
  | Other m => m
  | Wrap m inner => m +:+ ": " +:+ Error inner
  end.

End errors.

Abbreviation error := errors.error.

(* --------------------------------------------------------------------- *)
(** *** package strconv                                                   *)
(* --------------------------------------------------------------------- *)

Module strconv.

Definition digitVal (c : ascii) : option Z :=
  let n := Z.of_N (N_of_ascii c) in
  if (48 <=? n) && (n <=? 57) then Some (n - 48) else None.

Fixpoint parseDigits (cs : list ascii) (acc : Z) : option Z :=
  match cs with
  | [] => Some acc
  | c :: rest =>
      match digitVal c with
      | Some d => parseDigits rest (acc * 10 + d)
      | None => None
      end
  end.

(** [strconv.Atoi]: an optional sign, then at least one decimal digit and
    nothing else; the value must fit [int].  [None] stands for the
    non-nil [*NumError]. *)
Definition Atoi (s : string) : option Z :=
  let cs := list_ascii_of_string s in
  match cs with
  | [] => None
  | c :: rest =>
      let neg := Ascii.eqb c "-"%char in
      let ds := if neg || Ascii.eqb c "+"%char then rest else cs in
      match ds with
      | [] => None
      | _ =>
          match parseDigits ds 0 with
          | Some n =>
              let v := if neg then - n else n in
              if (minInt64 <=? v) && (v <=? maxInt64) then Some v else None
          | None => None
          end
      end
  end.

End strconv.

(* --------------------------------------------------------------------- *)
(** *** hexadecimal text, as [encoding/hex] and [google/uuid] read it     *)
(* --------------------------------------------------------------------- *)

Module hex.

Definition digit (n : N) : ascii :=
  ascii_of_N (if (n <? 10)%N then 48 + n else 87 + n)%N.

(** Lower-case encoding of one byte: two characters. *)
Definition hi (b : byte) : ascii := digit (Byte.to_N b / 16)%N.
Definition lo (b : byte) : ascii := digit (Byte.to_N b mod 16)%N.

Definition encode (bs : list byte) : list ascii :=
  flat_map (fun b => [hi b; lo b]) bs.

(** Value of one hexadecimal character, either case. *)
Definition fromChar (c : ascii) : option N :=
  let n := N_of_ascii c in
  if ((48 <=? n) && (n <=? 57))%N then Some (n - 48)%N
  else if ((97 <=? n) && (n <=? 102))%N then Some (n - 87)%N
  else if ((65 <=? n) && (n <=? 70))%N then Some (n - 55)%N
  else None.

(** [xtob] of google/uuid, and one step of [hex.Decode]. *)
Definition toByte (c1 c2 : ascii) : option byte :=
  match fromChar c1, fromChar c2 with
  | Some h, Some l => Byte.of_N (h * 16 + l)
  | _, _ => None
  end.

(** [hex.DecodeString]: fails on an odd length or a non-hex character. *)
Fixpoint decode (cs : list ascii) : option (list byte) :=
  match cs with
  | [] => Some []
  | [_] => None
  | c1 :: c2 :: rest =>
      match toByte c1 c2, decode rest with
      | Some b, Some bs => Some (b :: bs)
      | _, _ => None
      end
  end.

End hex.

(* --------------------------------------------------------------------- *)
(** *** package github.com/google/uuid                                    *)
(* --------------------------------------------------------------------- *)

Module uuid.

(** [type UUID [16]byte]; the functions below produce and expect sixteen
    bytes. *)
Definition UUID : Type := list byte.

Definition Nil : UUID := repeat x00 16.

Definition dash : ascii := "-"%char.

(** [UUID.String]: xxxxxxxx-xxxx-xxxx-xxxx-xxxxxxxxxxxx *)
Definition String (u : UUID) : string :=
  string_of_list_ascii
    (hex.encode (take 4 u) ++ dash ::
     hex.encode (take 2 (drop 4 u)) ++ dash ::
     hex.encode (take 2 (drop 6 u)) ++ dash ::
     hex.encode (take 2 (drop 8 u)) ++ dash ::
     hex.encode (drop 10 u)).

Definition at_ (cs : list ascii) (i : nat) : ascii := nth i cs zero.

Definition lower (c : ascii) : ascii :=
  let n := N_of_ascii c in
  if ((65 <=? n) && (n <=? 90))%N then ascii_of_N (n + 32) else c.

(** [strings.EqualFold] on ASCII text. *)
Definition EqualFold (a b : list ascii) : bool :=
  bool_decide (map lower a = map lower b).

Definition offsets : list nat :=
  [0; 2; 4; 6; 9; 11; 14; 16; 19; 21; 24; 26; 28; 30; 32; 34]%nat.

Fixpoint bytesAt (cs : list ascii) (xs : list nat) : option UUID :=
  match xs with
  | [] => Some []
  | x :: rest =>
      match hex.toByte (at_ cs x) (at_ cs (S x)), bytesAt cs rest with
      | Some b, Some bs => Some (b :: bs)
      | _, _ => None
      end
  end.

(** The tail of [Parse]: [s] is at least 36 bytes long and must have the
    dashed form. *)
Definition parseDashed (cs : list ascii) : option UUID :=
  if negb (Ascii.eqb (at_ cs 8) dash) || negb (Ascii.eqb (at_ cs 13) dash)
     || negb (Ascii.eqb (at_ cs 18) dash) || negb (Ascii.eqb (at_ cs 23) dash)
  then None
  else bytesAt cs offsets.

(** [uuid.Parse]; [None] stands for a non-nil error. *)
Definition Parse (s : string) : option UUID :=
  let cs := list_ascii_of_string s in
  let n := length cs in
  if (n =? 36)%nat then parseDashed cs
  else if (n =? 36 + 9)%nat then
    if EqualFold (take 9 cs) (list_ascii_of_string "urn:uuid:")
    then parseDashed (drop 9 cs) else None
  else if (n =? 36 + 2)%nat then parseDashed (drop 1 cs)
  else if (n =? 32)%nat then hex.decode cs
  else None.

End uuid.

(* --------------------------------------------------------------------- *)
(** *** package github.com/jackc/pgx/v5/pgtype                            *)
(* --------------------------------------------------------------------- *)

Module pgtype.

Record UUID : Type := mkUUID { Bytes : list byte; Valid : bool }.

Definition zero : UUID := {| Bytes := repeat x00 16; Valid := false |}.

(** [parseUUID]: a 36-character source drops the characters at the four
    dash positions, a 32-character source is taken as is. *)
Definition parseUUID (src : string) : option (list byte) :=
  let cs := list_ascii_of_string src in
  let n := length cs in
  if (n =? 36)%nat then
    hex.decode (take 8 cs ++ take 4 (drop 9 cs) ++ take 4 (drop 14 cs)
                ++ take 4 (drop 19 cs) ++ drop 24 cs)
  else if (n =? 32)%nat then hex.decode cs
  else None.

(** The [Scan] method of [UUID], for a string source. *)
Definition Scan (src : string) : option UUID :=
  match parseUUID src with
  | Some buf => Some {| Bytes := buf; Valid := true |}
  | None => None
  end.

End pgtype.

(* ===================================================================== *)
(** ** Run-time model: panics, logging, contexts, the world               *)
(* ===================================================================== *)

(** The value carried by a panic (Go: [any]).  Since Go 1.21 a panic
    always carries a non-nil value, so [recover()] returns non-nil exactly
    when the goroutine is panicking. *)
Inductive PanicVal : Type :=
| PanicString (s : string)
| PanicError (e : error)
| NilPointerDereference
| InvalidWriteHeaderCode (code : Z).

(* --------------------------------------------------------------------- *)
(** *** package log/slog                                                  *)
(* --------------------------------------------------------------------- *)

Module slog.

Inductive Level : Type := LevelInfo | LevelError.

Inductive Value : Type :=
| StringValue (s : string)
| IntValue (n : Z)
| DurationValue (d : Z)
| ErrorValue (e : error)
| AnyValue (v : PanicVal)
| BytesValue (b : list byte).

Definition Attr : Type := string * Value.

(** A [Logger] value: the attributes fixed by [With].  The handler
    (JSON to stdout at level Info) is the same for every logger of the
    process, so both levels used by the code are enabled. *)
Record Logger : Type := mkLogger { fixed : list Attr }.

(** A record written to the log output. *)
Record Entry : Type := mkEntry {
  level : Level;
  message : string;
  attrs : list Attr
}.

Definition With (l : Logger) (args : list Attr) : Logger :=
  {| fixed := fixed l ++ args |}.

Definition entry (l : Logger) (lv : Level) (msg : string) (args : list Attr)
  : Entry :=
  {| level := lv; message := msg; attrs := fixed l ++ args |}.

(** A [*slog.Logger]; [None] is the nil pointer. *)
Definition Ptr : Type := option Logger.

End slog.

(* --------------------------------------------------------------------- *)
(** *** package go.opentelemetry.io/otel/trace, package context           *)
(* --------------------------------------------------------------------- *)

Module trace.

Record SpanContext : Type := mkSpanContext {
  TraceID : string;
  SpanID : string;
  IsValid : bool
}.

(** The span context of the no-op span. *)
Definition noop : SpanContext :=
  {| TraceID := ""; SpanID := ""; IsValid := false |}.

End trace.

Module context.

(** Context keys.  [server.contextKey] and [logger.contextKey] are
    distinct unexported types, so no other package can build a key equal
    to [RequestIDKey] or [LoggerKey]. *)
Inductive Key : Type :=
| RequestIDKey            (* server.requestIDKey *)
| LoggerKey               (* logger.loggerKey *)
| SpanKey                 (* the key of the trace package *)
| ForeignKey (name : string).

Definition Key_eqb (a b : Key) : bool :=
  match a, b with
  | RequestIDKey, RequestIDKey => true
  | LoggerKey, LoggerKey => true
  | SpanKey, SpanKey => true
  | ForeignKey m, ForeignKey n => String.eqb m n
  | _, _ => false
  end.

(** Values are dynamically typed ([any]). *)
Inductive Val : Type :=
| OfString (s : string)
| OfLogger (l : slog.Ptr)
| OfSpan (sc : trace.SpanContext)
| OfOther (tag : string).

(** A context is the chain of [WithValue] bindings, innermost first. *)
Definition Context : Type := list (Key * Val).

Definition Background : Context := [].

Definition WithValue (ctx : Context) (k : Key) (v : Val) : Context :=
  (k, v) :: ctx.

Fixpoint Value (ctx : Context) (k : Key) : option Val :=
  match ctx with
  | [] => None
  | (k', v) :: parent => if Key_eqb k' k then Some v else Value parent k
  end.

End context.

Definition SpanFromContext (ctx : context.Context) : trace.SpanContext :=
  match context.Value ctx context.SpanKey with
  | Some (context.OfSpan sc) => sc
  | _ => trace.noop
  end.

(* --------------------------------------------------------------------- *)
(** *** package db (generated by sqlc from the queries)                   *)
(* --------------------------------------------------------------------- *)

Module db.

(** Modelled from the spec: the rows of the store's [get_by_id] and
    [list_paginated] queries (the generated package is not among the
    sources), with the fields of the resource entity that the service
    reads.  Timestamps are instants in nanoseconds. *)
Record GetUserByIDRow : Type := mkRow {
  ID : pgtype.UUID;
  Email : string;
  Name : string;
  CreatedAt : Z;
  UpdatedAt : Z
}.

Definition ListUsersRow : Type := GetUserByIDRow.

(** Modelled from the spec: the pagination parameters of
    [list_paginated], the two [int32] fields the service fills in. *)
Record ListUsersParams : Type := mkParams { Limit : Z; Offset : Z }.

(** A call that reached the store. *)
Inductive Call : Type :=
| CallGetUserByID (id : pgtype.UUID)
| CallListUsers (arg : ListUsersParams).

End db.

(* --------------------------------------------------------------------- *)
(** *** the world a request runs in                                       *)
(* --------------------------------------------------------------------- *)

(** Everything outside the request that the code reads or writes: the log
    output, the calls received by the store, the clock, the process-wide
    default logger and the source of random identifiers. *)
Record World : Type := mkWorld {
  logs : list slog.Entry;          (* oldest first *)
  storeCalls : list db.Call;       (* oldest first *)
  now : Z;
  slogDefault : slog.Logger;       (* slog.Default(), never nil *)
  entropy : nat -> uuid.UUID;      (* the n-th result of uuid.New() *)
  drawn : nat
}.

Definition emit (e : slog.Entry) (σ : World) : World :=
  {| logs := logs σ ++ [e]; storeCalls := storeCalls σ; now := now σ;
     slogDefault := slogDefault σ; entropy := entropy σ; drawn := drawn σ |}.

Definition recordCall (c : db.Call) (σ : World) : World :=
  {| logs := logs σ; storeCalls := storeCalls σ ++ [c]; now := now σ;
     slogDefault := slogDefault σ; entropy := entropy σ; drawn := drawn σ |}.

Definition elapse (d : Z) (σ : World) : World :=
  {| logs := logs σ; storeCalls := storeCalls σ; now := now σ + d;
     slogDefault := slogDefault σ; entropy := entropy σ; drawn := drawn σ |}.

(** [uuid.New()]: the next identifier of the supply.  (It panics only
    when the random source of the system fails, which is left out.) *)
Definition uuid_New (σ : World) : uuid.UUID * World :=
  (entropy σ (drawn σ),
   {| logs := logs σ; storeCalls := storeCalls σ; now := now σ;
      slogDefault := slogDefault σ; entropy := entropy σ;
      drawn := S (drawn σ) |}).

(** How a call ends: it returns, or it is panicking. *)
Inductive Outcome (A : Type) : Type :=
| Return (a : A)
| Panicking (v : PanicVal).
Arguments Return {A} a.
Arguments Panicking {A} v.

(** Logging through a [*slog.Logger]: a nil receiver is dereferenced. *)
Definition logVia (p : slog.Ptr) (lv : slog.Level) (msg : string)
    (args : list slog.Attr) (σ : World) : World * Outcome unit :=
  match p with
  | Some l => (emit (slog.entry l lv msg args) σ, Return tt)
  | None => (σ, Panicking NilPointerDereference)
  end.

(* --------------------------------------------------------------------- *)
(** *** package starterkit/internal/platform/logger                       *)
(* --------------------------------------------------------------------- *)

Module logger.

(** [WithContext] adds a logger to the context. *)
Definition WithContext (ctx : context.Context) (logger : slog.Ptr)
  : context.Context :=
  context.WithValue ctx context.LoggerKey (context.OfLogger logger).

(** [FromContext] extracts the logger from the context: the type
    assertion to [*slog.Logger] succeeds for any stored pointer, nil
    included. *)
Definition FromContext (σ : World) (ctx : context.Context) : slog.Ptr :=
  match context.Value ctx context.LoggerKey with
  | Some (context.OfLogger logger) => logger
  | _ => Some (slogDefault σ)
  end.

End logger.

(* ===================================================================== *)
(** ** package net/http                                                   *)
(* ===================================================================== *)

(** Line feed, as written by [fmt.Fprintln] and [json.Encoder.Encode]. *)
Definition nl : string := String (ascii_of_nat 10) EmptyString.

(** A text between double quotes. *)
Definition q (s : string) : string :=
  String (ascii_of_nat 34) (s +:+ String (ascii_of_nat 34) EmptyString).

Module http.

Definition MethodOptions : string := "OPTIONS".
Definition StatusOK : Z := 200.
Definition StatusNoContent : Z := 204.
Definition StatusNotModified : Z := 304.
Definition StatusSwitchingProtocols : Z := 101.
Definition StatusBadRequest : Z := 400.
Definition StatusNotFound : Z := 404.
Definition StatusInternalServerError : Z := 500.

Definition ErrBodyNotAllowed : error :=
  errors.Other "http: request method or response status code does not allow body".

(** [http.Header] and [url.Values] are [map[string][]string]; header
    names stand for their canonical form. *)
Definition Get (h : gmap string (list string)) (key : string) : string :=
  match h !! key with
  | Some (v :: _) => v
  | _ => ""
  end.

Definition Set_ (key value : string) (h : gmap string (list string))
  : gmap string (list string) :=
  <[key := [value]]> h.

Record Request : Type := mkRequest {
  Method : string;
  URLPath : string;                          (* r.URL.Path *)
  URLQuery : gmap string (list string);      (* r.URL.Query() *)
  RemoteAddr : string;
  Header : gmap string (list string);
  pathValues : gmap string string;           (* wildcards matched by the mux *)
  Context : context.Context                  (* r.Context() *)
}.

Definition WithContext (r : Request) (ctx : context.Context) : Request :=
  {| Method := Method r; URLPath := URLPath r; URLQuery := URLQuery r;
     RemoteAddr := RemoteAddr r; Header := Header r;
     pathValues := pathValues r; Context := ctx |}.

Definition PathValue (r : Request) (name : string) : string :=
  default "" (pathValues r !! name).

(** The response of the server for one request, as the client sees it
    being built. *)
Record response : Type := mkResponse {
  handlerHeader : gmap string (list string); (* the map behind Header() *)
  wroteHeader : bool;
  status : Z;
  sentHeader : gmap string (list string);    (* sent with the status line *)
  interim : list Z;                          (* 1xx responses sent *)
  body : string
}.

(** A response nothing has been written to. *)
Definition newResponse : response :=
  {| handlerHeader := ∅; wroteHeader := false; status := 0;
     sentHeader := ∅; interim := []; body := "" |}.

Definition bodyAllowedForStatus (st : Z) : bool :=
  if (100 <=? st) && (st <=? 199) then false
  else if st =? StatusNoContent then false
  else if st =? StatusNotModified then false
  else true.

Definition response_SetHeader (key value : string) (u : response) : response :=
  {| handlerHeader := Set_ key value (handlerHeader u);
     wroteHeader := wroteHeader u; status := status u;
     sentHeader := sentHeader u; interim := interim u; body := body u |}.

(** [WriteHeader] of the server's response: a second call is ignored
    (the server only logs that it is superfluous), a code outside
    100..999 panics, a 1xx code other than 101 sends an interim response
    and leaves the final status open; otherwise the status line and a
    snapshot of the header map are sent. *)
Definition response_WriteHeader (code : Z) (u : response)
  : response * Outcome unit :=
  if wroteHeader u then (u, Return tt)
  else if (code <? 100) || (999 <? code) then
    (u, Panicking (InvalidWriteHeaderCode code))
  else if (100 <=? code) && (code <=? 199)
          && negb (code =? StatusSwitchingProtocols) then
    ({| handlerHeader := handlerHeader u; wroteHeader := false;
        status := status u; sentHeader := sentHeader u;
        interim := interim u ++ [code]; body := body u |}, Return tt)
  else
    ({| handlerHeader := handlerHeader u; wroteHeader := true;
        status := code; sentHeader := handlerHeader u;
        interim := interim u; body := body u |}, Return tt).

(** [Write]: triggers [WriteHeader(http.StatusOK)] when no header has
    been written, then sends the data if the status allows a body. *)
Definition response_Write (data : string) (u : response)
  : response * (Z * option error) :=
  let u1 := if wroteHeader u then u
            else fst (response_WriteHeader StatusOK u) in
  if String.eqb data "" then (u1, (0, None))
  else if negb (bodyAllowedForStatus (status u1)) then
    (u1, (0, Some ErrBodyNotAllowed))
  else
    ({| handlerHeader := handlerHeader u1; wroteHeader := wroteHeader u1;
        status := status u1; sentHeader := sentHeader u1;
        interim := interim u1; body := body u1 +:+ data |},
     (Z.of_nat (String.length data), None)).

(** When the handler returns, the server sends the header with status
    200 if nothing was written. *)
Definition finish (u : response) : response :=
  if wroteHeader u then u else fst (response_WriteHeader StatusOK u).

(** The interface [http.ResponseWriter]. *)
Class ResponseWriter (W : Type) : Type := {
  SetHeader : string -> string -> W -> W;     (* w.Header().Set(k, v) *)
  WriteHeader : Z -> W -> W * Outcome unit;
  Write : string -> W -> W * (Z * option error)
}.

#[global] Instance response_ResponseWriter : ResponseWriter response := {
  SetHeader := response_SetHeader;
  WriteHeader := response_WriteHeader;
  Write := response_Write
}.

(** Code that runs against a response writer of type [W] in the world:
    it returns a value or is panicking. *)
Definition M (W A : Type) : Type := W -> World -> W * World * Outcome A.

#[global] Instance M_ret {W} : MRet (M W) :=
  fun A a w σ => (w, σ, Return a).

#[global] Instance M_bind {W} : MBind (M W) :=
  fun A B k m w σ =>
    match m w σ with
    | (w', σ', Return a) => k a w' σ'
    | (w', σ', Panicking v) => (w', σ', Panicking v)
    end.

Definition setHeader {W} `{ResponseWriter W} (key value : string) : M W unit :=
  fun w σ => (SetHeader key value w, σ, Return tt).

Definition writeHeader {W} `{ResponseWriter W} (code : Z) : M W unit :=
  fun w σ => let (w', o) := WriteHeader code w in (w', σ, o).

Definition write {W} `{ResponseWriter W} (data : string)
  : M W (Z * option error) :=
  fun w σ => let (w', r) := Write data w in (w', σ, Return r).

Definition panic {W A} (v : PanicVal) : M W A :=
  fun w σ => (w, σ, Panicking v).

Definition inWorld {W} (f : World -> World) : M W unit :=
  fun w σ => (w, f σ, Return tt).

Definition logWith {W} (p : slog.Ptr) (lv : slog.Level) (msg : string)
    (args : list slog.Attr) : M W unit :=
  fun w σ => let (σ', o) := logVia p lv msg args σ in (w, σ', o).

(** [http.Error]: a plain-text reply with the given status.  (Later Go
    releases also delete [Content-Length] and a few caching headers,
    none of which this code sets.) *)
Definition Error {W} `{ResponseWriter W} (err : string) (code : Z) : M W unit :=
  setHeader "Content-Type" "text/plain; charset=utf-8";;
  setHeader "X-Content-Type-Options" "nosniff";;
  writeHeader code;;
  write (err +:+ nl);;
  mret tt.

(** The interface [http.Handler] ([ServeHTTP(w, r)]), for any response
    writer. *)
Definition Handler : Type :=
  forall W : Type, ResponseWriter W -> Request -> M W unit.

(** One request served by the connection loop: a fresh response, the
    handler, then [finish].  A panic leaving the handler is recovered by
    the server, which aborts the response and closes the connection. *)
Definition serve (h : Handler) (r : Request) (σ : World)
  : option response * World :=
  match h response _ r newResponse σ with
  | (u, σ', Return _) => (Some (finish u), σ')
  | (_, σ', Panicking _) => (None, σ')
  end.

Fixpoint serveAll (h : Handler) (rs : list Request) (σ : World)
  : list (option response) * World :=
  match rs with
  | [] => ([], σ)
  | r :: rest =>
      let (o, σ1) := serve h r σ in
      let (os, σ2) := serveAll h rest σ1 in
      (o :: os, σ2)
  end.

End http.

(* --------------------------------------------------------------------- *)
(** *** what an arbitrary handler may do                                  *)
(* --------------------------------------------------------------------- *)

(** The middleware wraps any [http.Handler].  An arbitrary inner handler
    is described by what it does to its response writer and to the world,
    in order; it may finish by panicking. *)
Module script.

Inductive Action : Type :=
| SetHeader (key value : string)
| WriteHeader (code : Z)
| Write (data : string)
| LogError (l : slog.Logger) (msg : string) (args : list slog.Attr)
| Query (c : db.Call)
| Elapse (d : Z)
| Panic (v : PanicVal).

Definition step {W} `{http.ResponseWriter W} (a : Action) : http.M W unit :=
  match a with
  | SetHeader k v => http.setHeader k v
  | WriteHeader code => http.writeHeader code
  | Write data => http.write data;; mret tt
  | LogError l msg args => http.logWith (Some l) slog.LevelError msg args
  | Query c => http.inWorld (recordCall c)
  | Elapse d => http.inWorld (elapse d)
  | Panic v => http.panic v
  end.

Fixpoint run {W} `{http.ResponseWriter W} (acts : list Action)
  : http.M W unit :=
  match acts with
  | [] => mret tt
  | a :: rest => step a;; run rest
  end.

(** The handler that, for a request in a world, behaves as [f] says. *)
Definition handler (f : http.Request -> World -> list Action) : http.Handler :=
  fun W RW r w σ => run (f r σ) w σ.

End script.

(* ===================================================================== *)
(** ** package starterkit/internal/config                                 *)
(* ===================================================================== *)

Module config.

Record ServiceConfig : Type := { Name : string; Version : string }.
Record ServerConfig : Type := { Address : string; ShutdownTimeout : Z }.
Record TelemetryConfig : Type := { Enabled : bool }.

Record Config : Type := {
  Service : ServiceConfig;
  Server : ServerConfig;
  Telemetry : TelemetryConfig
}.

End config.

(* ===================================================================== *)
(** ** package starterkit/internal/users                                  *)
(* ===================================================================== *)

Module users.

Definition ErrUserNotFound : error := errors.UsersErrUserNotFound.

(** Modelled from the spec: the resource entity as the service builds it
    (the declaration of [User] is not among the sources); a soft-deleted
    row never reaches the service, so there is no [deleted_at]. *)
Record User : Type := mkUser {
  ID : uuid.UUID;
  Email : string;
  Name : string;
  CreatedAt : Z;
  UpdatedAt : Z
}.

(** What the handlers hand to the JSON encoder. *)
Inductive Payload : Type :=
| OfUser (user : User)                                (* *User *)
| OfError (message : string)                          (* {"error": message} *)
| OfList (users : list User) (limit offset : Z).      (* users, limit, offset *)

(** The interface [Querier]: the store. *)
Module Querier.
Record t : Type := {
  GetUserByID : pgtype.UUID -> Result error db.GetUserByIDRow;
  ListUsers : db.ListUsersParams -> Result error (list db.ListUsersRow)
}.
End Querier.

(** The interface [ServiceInterface]. *)
Module ServiceInterface.
Record t : Type := {
  GetUserByID : context.Context -> uuid.UUID -> World -> Result error User * World;
  ListUsers : context.Context -> Z -> Z -> World -> Result error (list User) * World
}.
End ServiceInterface.

Definition toUser (dbUser : db.GetUserByIDRow) : User :=
  let userID :=
    if pgtype.Valid (db.ID dbUser) then pgtype.Bytes (db.ID dbUser)
    else uuid.Nil in
  {| ID := userID; Email := db.Email dbUser; Name := db.Name dbUser;
     CreatedAt := db.CreatedAt dbUser; UpdatedAt := db.UpdatedAt dbUser |}.

Module Service.

Record t : Type := { queries : Querier.t }.

Definition GetUserByID (s : t) (ctx : context.Context) (id : uuid.UUID)
    (σ : World) : Result error User * World :=
  (* Convert uuid.UUID to pgtype.UUID *)
  match pgtype.Scan (uuid.String id) with
  | None => (Err (errors.Other "cannot parse UUID"), σ)
  | Some pgID =>
      let σ := recordCall (db.CallGetUserByID pgID) σ in
      match Querier.GetUserByID (queries s) pgID with
      | Err err =>
          if errors.Is err errors.PgxErrNoRows
          then (Err ErrUserNotFound, σ)
          else (Err err, σ)
      | Ok dbUser => (Ok (toUser dbUser), σ)
      end
  end.

Definition ListUsers (s : t) (ctx : context.Context) (limit offset : Z)
    (σ : World) : Result error (list User) * World :=
  (* Set default limit if not provided *)
  let limit := if limit <=? 0 then 20 else limit in
  let limit := if 100 <? limit then 100 (* Max limit *) else limit in
  let offset := if offset <? 0 then 0 else offset in
  let arg := {| db.Limit := int32 limit; db.Offset := int32 offset |} in
  let σ := recordCall (db.CallListUsers arg) σ in
  match Querier.ListUsers (queries s) arg with
  | Err err => (Err err, σ)
  | Ok dbUsers => (Ok (map toUser dbUsers), σ)
  end.

(** [*Service] implements [ServiceInterface]. *)
Definition asInterface (s : t) : ServiceInterface.t :=
  {| ServiceInterface.GetUserByID := GetUserByID s;
     ServiceInterface.ListUsers := ListUsers s |}.

End Service.

Definition NewService (queries : Querier.t) : Service.t :=
  {| Service.queries := queries |}.

Record Handler : Type := {
  service : ServiceInterface.t;
  logger : slog.Logger
}.

Definition NewHandler (service : ServiceInterface.t) (logger : slog.Logger)
  : Handler :=
  {| service := service; logger := logger |}.

Section Handlers.

(** [json.Marshal] on the payloads above: the encoded text, or the
    error of a value that has no JSON form (a timestamp outside the
    years 0..9999). *)
Variable Marshal : Payload -> Result error string.

(** A call into the service layer. *)
Definition call {W A} (f : World -> A * World) : http.M W A :=
  fun w σ => let (a, σ') := f σ in (w, σ', Return a).

Definition respondWithJSON {W} `{http.ResponseWriter W}
    (h : Handler) (code : Z) (payload : Payload) : http.M W unit :=
  http.setHeader "Content-Type" "application/json";;
  http.writeHeader code;;
  (* json.NewEncoder(w).Encode(payload) *)
  match Marshal payload with
  | Err err =>
      http.logWith (Some (logger h)) slog.LevelError
        "failed to encode response" [("error", slog.ErrorValue err)]
  | Ok text =>
      '(_, werr) ← http.write (text +:+ nl);
      match werr with
      | Some err =>
          http.logWith (Some (logger h)) slog.LevelError
            "failed to encode response" [("error", slog.ErrorValue err)]
      | None => mret tt
      end
  end.

Definition respondWithError {W} `{http.ResponseWriter W}
    (h : Handler) (code : Z) (message : string) : http.M W unit :=
  respondWithJSON h code (OfError message).

Definition HandleGetUser (h : Handler) : http.Handler := fun W _ r =>
  (* Extract user ID from URL path *)
  let idStr := http.PathValue r "id" in
  if String.eqb idStr "" then
    respondWithError h http.StatusBadRequest "user ID is required"
  else
    (* Parse UUID *)
    match uuid.Parse idStr with
    | None =>
        respondWithError h http.StatusBadRequest "invalid user ID format"
    | Some userID =>
        (* Get user from service *)
        res ← call (ServiceInterface.GetUserByID (service h)
                      (http.Context r) userID);
        match res with
        | Err err =>
            if errors.Is err ErrUserNotFound then
              respondWithError h http.StatusNotFound "user not found"
            else
              http.logWith (Some (logger h)) slog.LevelError
                "failed to get user"
                [("error", slog.ErrorValue err);
                 ("user_id", slog.BytesValue userID)];;
              respondWithError h http.StatusInternalServerError
                "internal server error"
        | Ok user =>
            (* Respond with user *)
            respondWithJSON h http.StatusOK (OfUser user)
        end
    end.

Definition HandleListUsers (h : Handler) : http.Handler := fun W _ r =>
  (* Parse query parameters *)
  let limitStr := http.Get (http.URLQuery r) "limit" in
  let offsetStr := http.Get (http.URLQuery r) "offset" in
  let withLimit (k : Z -> http.M W unit) : http.M W unit :=
    if String.eqb limitStr "" then k 20 (* default *)
    else match strconv.Atoi limitStr with
         | Some parsedLimit =>
             if parsedLimit <? 0 then
               respondWithError h http.StatusBadRequest "invalid limit parameter"
             else k parsedLimit
         | None =>
             respondWithError h http.StatusBadRequest "invalid limit parameter"
         end in
  let withOffset (k : Z -> http.M W unit) : http.M W unit :=
    if String.eqb offsetStr "" then k 0 (* default *)
    else match strconv.Atoi offsetStr with
         | Some parsedOffset =>
             if parsedOffset <? 0 then
               respondWithError h http.StatusBadRequest "invalid offset parameter"
             else k parsedOffset
         | None =>
             respondWithError h http.StatusBadRequest "invalid offset parameter"
         end in
  withLimit (fun limit =>
  withOffset (fun offset =>
    (* Get users from service *)
    res ← call (ServiceInterface.ListUsers (service h)
                  (http.Context r) limit offset);
    match res with
    | Err err =>
        http.logWith (Some (logger h)) slog.LevelError
          "failed to list users" [("error", slog.ErrorValue err)];;
        respondWithError h http.StatusInternalServerError
          "internal server error"
    | Ok users =>
        (* Respond with users *)
        respondWithJSON h http.StatusOK (OfList users limit offset)
    end)).

End Handlers.

End users.

(* ===================================================================== *)
(** ** package starterkit/internal/server                                 *)
(* ===================================================================== *)

Module server.

(** [Server] (without the [*http.Server] it owns).  [main] builds it with
    the logger it has just created, so [logger] is never nil. *)
Record Server : Type := {
  config : config.Config;
  logger : slog.Logger;
  queries : users.Querier.t;
  userHandler : users.Handler
}.

Definition New (cfg : config.Config) (logger : slog.Logger)
    (queries : users.Querier.t) : Server :=
  (* Create services *)
  let userService := users.NewService queries in
  (* Create handlers *)
  let userHandler :=
    users.NewHandler (users.Service.asInterface userService) logger in
  {| config := cfg; logger := logger; queries := queries;
     userHandler := userHandler |}.

(** [responseWriter] wraps [http.ResponseWriter] to capture status code
    and bytes written. *)
Record responseWriter (W : Type) : Type := mkResponseWriter {
  ResponseWriter : W;
  statusCode : Z;
  bytesWritten : Z
}.
Arguments mkResponseWriter {W} _ _ _.
Arguments ResponseWriter {W} _.
Arguments statusCode {W} _.
Arguments bytesWritten {W} _.

Section Wrapper.
Context {W : Type} `{http.ResponseWriter W}.

(** [Header] is promoted from the embedded writer. *)
Definition responseWriter_SetHeader (key value : string)
    (rw : responseWriter W) : responseWriter W :=
  {| ResponseWriter := http.SetHeader key value (ResponseWriter rw);
     statusCode := statusCode rw; bytesWritten := bytesWritten rw |}.

Definition responseWriter_WriteHeader (code : Z) (rw : responseWriter W)
  : responseWriter W * Outcome unit :=
  (* rw.statusCode = code *)
  let (w', o) := http.WriteHeader code (ResponseWriter rw) in
  ({| ResponseWriter := w'; statusCode := code;
      bytesWritten := bytesWritten rw |}, o).

Definition responseWriter_Write (b : string) (rw : responseWriter W)
  : responseWriter W * (Z * option error) :=
  let '(w', (n, err)) := http.Write b (ResponseWriter rw) in
  ({| ResponseWriter := w'; statusCode := statusCode rw;
      bytesWritten := bytesWritten rw + n |}, (n, err)).

#[global] Instance responseWriter_ResponseWriter
  : http.ResponseWriter (responseWriter W) := {
  http.SetHeader := responseWriter_SetHeader;
  http.WriteHeader := responseWriter_WriteHeader;
  http.Write := responseWriter_Write
}.
End Wrapper.

(** [corsMiddleware] adds CORS headers to responses. *)
Definition corsMiddleware (s : Server) (next : http.Handler) : http.Handler :=
  fun W _ r =>
    (* Set CORS headers *)
    http.setHeader "Access-Control-Allow-Origin" "*";;
    http.setHeader "Access-Control-Allow-Methods"
      "GET, POST, PUT, DELETE, OPTIONS";;
    http.setHeader "Access-Control-Allow-Headers"
      "Content-Type, X-User-Email, X-Request-ID";;
    http.setHeader "Access-Control-Max-Age" "3600";;
    (* Handle preflight requests *)
    if String.eqb (http.Method r) http.MethodOptions then
      http.writeHeader http.StatusNoContent
    else
      next W _ r.

(** [requestIDMiddleware] adds a unique request ID to the context. *)
Definition requestIDMiddleware (s : Server) (next : http.Handler)
  : http.Handler :=
  fun W _ r w σ =>
    let requestID := http.Get (http.Header r) "X-Request-ID" in
    let '(requestID, σ) :=
      if String.eqb requestID "" then
        let (u, σ') := uuid_New σ in (uuid.String u, σ')
      else (requestID, σ) in
    (* Add to response header *)
    (http.setHeader "X-Request-ID" requestID;;
     (* Add to context *)
     let ctx := context.WithValue (http.Context r) context.RequestIDKey
                  (context.OfString requestID) in
     next W _ (http.WithContext r ctx)) w σ.

(** [loggingMiddleware] logs HTTP requests and adds logger to context. *)
Definition loggingMiddleware (s : Server) (next : http.Handler)
  : http.Handler :=
  fun W _ r w σ =>
    let start := now σ in
    (* Get request ID from context *)
    let requestID :=
      match context.Value (http.Context r) context.RequestIDKey with
      | Some (context.OfString id) => id
      | _ => ""
      end in
    (* Extract trace context if telemetry is enabled *)
    let '(traceID, spanID) :=
      if config.Enabled (config.Telemetry (config s)) then
        let span := SpanFromContext (http.Context r) in
        if trace.IsValid span then (trace.TraceID span, trace.SpanID span)
        else ("", "")
      else ("", "") in
    (* Create request-specific logger *)
    let requestLogger :=
      slog.With (logger s)
        [("request_id", slog.StringValue requestID);
         ("method", slog.StringValue (http.Method r));
         ("path", slog.StringValue (http.URLPath r));
         ("remote_addr", slog.StringValue (http.RemoteAddr r))] in
    let requestLogger :=
      if String.eqb traceID "" then requestLogger
      else slog.With requestLogger
             [("trace_id", slog.StringValue traceID);
              ("span_id", slog.StringValue spanID)] in
    (* Add logger to context *)
    let ctx := logger.WithContext (http.Context r) (Some requestLogger) in
    (* Wrap response writer to capture status code *)
    let wrapped :=
      {| ResponseWriter := w; statusCode := http.StatusOK;
         bytesWritten := 0 |} in
    (* Call next handler *)
    match next (responseWriter W) _ (http.WithContext r ctx) wrapped σ with
    | (wrapped, σ, Return _) =>
        (* Log request completion *)
        (ResponseWriter wrapped,
         emit (slog.entry requestLogger slog.LevelInfo "request completed"
                 [("status", slog.IntValue (statusCode wrapped));
                  ("duration", slog.DurationValue (now σ - start));
                  ("bytes", slog.IntValue (bytesWritten wrapped))]) σ,
         Return tt)
    | (wrapped, σ, Panicking v) =>
        (ResponseWriter wrapped, σ, Panicking v)
    end.

(** [recoveryMiddleware] recovers from panics and returns 500. *)
Definition recoveryMiddleware (s : Server) (next : http.Handler)
  : http.Handler :=
  fun W _ r w σ =>
    match next W _ r w σ with
    | (w, σ, Return _) => (w, σ, Return tt)
    | (w, σ, Panicking err) =>
        (* the deferred function, with [recover()] returning [err] *)
        let reqLogger := logger.FromContext σ (http.Context r) in
        (http.logWith reqLogger slog.LevelError "panic recovered"
           [("error", slog.AnyValue err);
            ("stack", slog.StringValue "stack trace would go here")];;
         http.Error "Internal Server Error" http.StatusInternalServerError)
          w σ
    end.

(** [applyMiddleware] wraps the handler with all middleware. *)
Definition applyMiddleware (s : Server) (h : http.Handler) : http.Handler :=
  (* Apply middleware in reverse order (innermost first) *)
  let h := recoveryMiddleware s h in
  let h := loggingMiddleware s h in
  let h := requestIDMiddleware s h in
  let h := corsMiddleware s h in
  h.

(** [handleHealthCheck] returns a simple health check handler. *)
Definition handleHealthCheck (s : Server) : http.Handler :=
  fun W _ r =>
    http.setHeader "Content-Type" "application/json";;
    http.writeHeader http.StatusOK;;
    (* fmt.Fprintf(w, `{"status":"healthy","service":"%s","version":"%s"}`, ...) *)
    http.write ("{" +:+ q "status" +:+ ":" +:+ q "healthy" +:+ ","
                +:+ q "service" +:+ ":"
                +:+ q (config.Name (config.Service (config s))) +:+ ","
                +:+ q "version" +:+ ":"
                +:+ q (config.Version (config.Service (config s))) +:+ "}");;
    mret tt.

End server.

(* ===================================================================== *)
(** ** package main (cmd/server) and telemetry.Init's shutdown function   *)
(* ===================================================================== *)

Module main.

Definition second : Z := 1000000000.

(** What the process does, as seen from outside, in order. *)
Inductive Event : Type :=
| SetDefault                          (* slog.SetDefault(logger) *)
| Log (lv : slog.Level) (msg : string)
| ConfigLoad                          (* config.Load() *)
| TelemetryInit                       (* telemetry.Init(...) *)
| DatabaseConnect                     (* database.Connect(cfg.Database) *)
| GoStart (address : string)          (* the goroutine running srv.Start() *)
| AwaitSignal                         (* <-quit: SIGINT or SIGTERM arrived *)
| ServerShutdown (timeout : Z)        (* srv.Shutdown(ctx), ctx under timeout *)
| Cancel                              (* cancel() of the drain context *)
| PoolClose                           (* dbPool.Close() *)
| TracerShutdown (timeout : Z)        (* tp.Shutdown(shutdownCtx) *)
| Exit (code : Z).                    (* the process ends with this status *)

(** The answers of the collaborators during one run of the process. *)
Record Env : Type := {
  configLoad : Result error config.Config;
  telemetryInit : option error;       (* nil, or the error of Init *)
  databaseConnect : option error;
  shutdownResult : option error       (* nil when the drain ended in time,
                                         the context's error otherwise *)
}.

(** The calls a [defer] statement has registered. *)
Inductive Deferred : Type :=
| DeferShutdown        (* defer shutdown() *)
| DeferPoolClose       (* defer dbPool.Close() *)
| DeferCancel.         (* defer cancel() *)

Record State : Type := {
  trace : list Event;                 (* oldest first *)
  deferred : list Deferred            (* last registered first *)
}.

(** [main] goes on, or [os.Exit] has ended the process. *)
Inductive Flow (A : Type) : Type :=
| Next (a : A)
| Exited (code : Z).
Arguments Next {A} a.
Arguments Exited {A} code.

Definition P (A : Type) : Type := State -> State * Flow A.

#[global] Instance P_ret : MRet P := fun A a st => (st, Next a).

#[global] Instance P_bind : MBind P :=
  fun A B k m st =>
    match m st with
    | (st', Next a) => k a st'
    | (st', Exited code) => (st', Exited code)
    end.

Definition event (e : Event) : P unit :=
  fun st => ({| trace := trace st ++ [e]; deferred := deferred st |}, Next tt).

Definition defer (d : Deferred) : P unit :=
  fun st => ({| trace := trace st; deferred := d :: deferred st |}, Next tt).

(** [os.Exit(code)]: the program terminates immediately; deferred
    functions are not run. *)
Definition osExit {A} (code : Z) : P A :=
  fun st => ({| trace := trace st ++ [Exit code]; deferred := deferred st |},
             Exited code).

(** The function [telemetry.Init] returns: the tracer provider is shut
    down under a timeout of its own. *)
Definition shutdown : Event := TracerShutdown (5 * second).

Definition runDeferred (d : Deferred) : Event :=
  match d with
  | DeferShutdown => shutdown
  | DeferPoolClose => PoolClose
  | DeferCancel => Cancel
  end.

Definition body (env : Env) : P unit :=
  (* Initialize structured logger *)
  event SetDefault;;
  (* Load configuration *)
  event ConfigLoad;;
  cfg ← match configLoad env with
        | Err _ =>
            event (Log slog.LevelError "failed to load configuration");;
            osExit 1
        | Ok cfg => mret cfg
        end;
  (* Initialize telemetry *)
  event TelemetryInit;;
  match telemetryInit env with
  | Some _ =>
      event (Log slog.LevelError "failed to initialize telemetry");;
      osExit 1
  | None => mret tt
  end;;
  defer DeferShutdown;;
  (* Initialize database connection *)
  event DatabaseConnect;;
  match databaseConnect env with
  | Some _ =>
      event (Log slog.LevelError "failed to connect to database");;
      osExit 1
  | None => mret tt
  end;;
  defer DeferPoolClose;;
  (* Start server in a goroutine *)
  event (GoStart (config.Address (config.Server cfg)));;
  (* Wait for interrupt signal to gracefully shutdown the server *)
  event AwaitSignal;;
  event (Log slog.LevelInfo "shutting down server...");;
  (* Graceful shutdown with timeout *)
  defer DeferCancel;;
  event (ServerShutdown (30 * second));;
  match shutdownResult env with
  | Some _ =>
      event (Log slog.LevelError "server forced to shutdown");;
      osExit 1
  | None => mret tt
  end;;
  event (Log slog.LevelInfo "server exited").

(** A run of [main]: when the body returns, the deferred calls run, last
    registered first, and the process ends with status 0. *)
Definition main (env : Env) : list Event :=
  match body env {| trace := []; deferred := [] |} with
  | (st, Next _) => trace st ++ map runDeferred (deferred st) ++ [Exit 0]
  | (st, Exited _) => trace st
  end.

End main.

(* ===================================================================== *)
(** ** The rest of the packages                                           *)
(* ===================================================================== *)

(* --------------------------------------------------------------------- *)
(** *** package starterkit/internal/server: RequestIDFromContext          *)
(* --------------------------------------------------------------------- *)

(** [RequestIDFromContext] extracts the request ID from context: the
    value under the server's key when it is a string, the empty string
    otherwise. *)
Definition RequestIDFromContext (ctx : context.Context) : string :=
  match context.Value ctx context.RequestIDKey with
  | Some (context.OfString id) => id
  | _ => ""
  end.

(* --------------------------------------------------------------------- *)
(** *** package os: the environment                                       *)
(* --------------------------------------------------------------------- *)

Module os.

(** The environment of the process. *)
Definition Environ : Type := gmap string string.

(** [Getenv]: the value of the variable, empty when it is not set. *)
Definition Getenv (env : Environ) (key : string) : string :=
  default "" (env !! key).

End os.

(* --------------------------------------------------------------------- *)
(** *** package starterkit/internal/config: Load and its helpers          *)
(* --------------------------------------------------------------------- *)

(** The configuration as [Load] builds it, with every field of the Go
    structs ([config.Config] above keeps the fields the server reads). *)
Module configuration.

Definition minute : Z := 60 * main.second.

Record ServerConfig : Type := {
  Address : string;
  ReadTimeout : Z;
  WriteTimeout : Z;
  IdleTimeout : Z;
  ShutdownTimeout : Z
}.

Record DatabaseConfig : Type := {
  Host : string;
  Port : string;
  User : string;
  Password : string;
  Database_ : string;                        (* the field Database *)
  SSLMode : string;
  MaxOpenConns : Z;
  MaxIdleConns : Z;
  ConnMaxLifetime : Z;
  ConnMaxIdleTime : Z
}.

Record TelemetryConfig : Type := {
  OTLPEndpoint : string;
  Enabled : bool
}.

Record Config : Type := {
  Service : config.ServiceConfig;
  Server : ServerConfig;
  Database : DatabaseConfig;
  Telemetry : TelemetryConfig
}.

(** [DSN] returns the PostgreSQL connection string. *)
Definition DSN (c : DatabaseConfig) : string :=
  "host=" +:+ Host c +:+ " port=" +:+ Port c +:+ " user=" +:+ User c
  +:+ " password=" +:+ Password c +:+ " dbname=" +:+ Database_ c
  +:+ " sslmode=" +:+ SSLMode c.

Section Load.

(** [fmt.Sscanf(value, "%d", &intValue)]: the integer read, when the
    error is nil. *)
Variable Sscanf_d : string -> option Z.

(** [time.ParseDuration]: the duration in nanoseconds, when the error is
    nil. *)
Variable ParseDuration : string -> option Z.

(** [godotenv.Load()]: the environment once the file is read, and the
    error. *)
Variable godotenv_Load : os.Environ -> os.Environ * option error.

(** [os.IsNotExist]. *)
Variable IsNotExist : error -> bool.

Definition getEnv (env : os.Environ) (key defaultValue : string) : string :=
  let value := os.Getenv env key in
  if negb (String.eqb value "") then value else defaultValue.

Definition getIntEnv (env : os.Environ) (key : string) (defaultValue : Z) : Z :=
  let value := os.Getenv env key in
  if negb (String.eqb value "") then
    match Sscanf_d value with
    | Some intValue => intValue
    | None => defaultValue
    end
  else defaultValue.

Definition getBoolEnv (env : os.Environ) (key : string) (defaultValue : bool)
  : bool :=
  let value := os.Getenv env key in
  if negb (String.eqb value "") then
    String.eqb value "true" || String.eqb value "1" || String.eqb value "yes"
  else defaultValue.

Definition getDuration (env : os.Environ) (key : string) (defaultValue : Z) : Z :=
  let value := os.Getenv env key in
  if negb (String.eqb value "") then
    match ParseDuration value with
    | Some duration => duration
    | None => defaultValue
    end
  else defaultValue.

(** [Load] reads configuration from environment variables. *)
Definition Load (env : os.Environ) : Result error Config :=
  (* Load .env file if it exists *)
  let (env, loadErr) := godotenv_Load env in
  let failure :=
    match loadErr with
    | Some err =>
        (* It's ok if .env doesn't exist in production *)
        if negb (IsNotExist err)
        then Some (errors.Wrap "error loading .env file" err)
        else None
    | None => None
    end in
  match failure with
  | Some err => Err err
  | None =>
      Ok {| Service :=
              {| config.Name := getEnv env "SERVICE_NAME" "starterkit";
                 config.Version := getEnv env "SERVICE_VERSION" "1.0.0" |};
            Server :=
              {| Address := getEnv env "SERVER_ADDRESS" ":8080";
                 ReadTimeout :=
                   getDuration env "SERVER_READ_TIMEOUT" (15 * main.second);
                 WriteTimeout :=
                   getDuration env "SERVER_WRITE_TIMEOUT" (15 * main.second);
                 IdleTimeout :=
                   getDuration env "SERVER_IDLE_TIMEOUT" (60 * main.second);
                 ShutdownTimeout :=
                   getDuration env "SERVER_SHUTDOWN_TIMEOUT" (30 * main.second) |};
            Database :=
              {| Host := getEnv env "DB_HOST" "localhost";
                 Port := getEnv env "DB_PORT" "5432";
                 User := getEnv env "DB_USER" "postgres";
                 Password := getEnv env "DB_PASSWORD" "";
                 Database_ := getEnv env "DB_NAME" "starterkit";
                 SSLMode := getEnv env "DB_SSLMODE" "disable";
                 MaxOpenConns := getIntEnv env "DB_MAX_OPEN_CONNS" 25;
                 MaxIdleConns := getIntEnv env "DB_MAX_IDLE_CONNS" 5;
                 ConnMaxLifetime :=
                   getDuration env "DB_CONN_MAX_LIFETIME" (5 * minute);
                 ConnMaxIdleTime :=
                   getDuration env "DB_CONN_MAX_IDLE_TIME" (1 * minute) |};
            Telemetry :=
              {| OTLPEndpoint :=
                   getEnv env "OTEL_EXPORTER_OTLP_ENDPOINT" "localhost:4317";
                 Enabled := getBoolEnv env "TELEMETRY_ENABLED" true |} |}
  end.

End Load.

End configuration.

(* ===================================================================== *)
(** ** Vocabulary of the properties                                       *)
(* ===================================================================== *)

(** The completion record of the logging stage. *)
Definition isCompletion (e : slog.Entry) : bool :=
  match slog.level e with
  | slog.LevelInfo => String.eqb (slog.message e) "request completed"
  | slog.LevelError => false
  end.

Definition completions (l : list slog.Entry) : list slog.Entry :=
  List.filter isCompletion l.

(** The completion record the logging stage writes for a request logger,
    a status, a duration and a byte count. *)
Definition completion (l : slog.Logger) (st d n : Z) : slog.Entry :=
  slog.entry l slog.LevelInfo "request completed"
    [("status", slog.IntValue st); ("duration", slog.DurationValue d);
     ("bytes", slog.IntValue n)].

(** The record the recovery stage writes for a recovered value. *)
Definition panicRecord (l : slog.Logger) (v : PanicVal) : slog.Entry :=
  slog.entry l slog.LevelError "panic recovered"
    [("error", slog.AnyValue v);
     ("stack", slog.StringValue "stack trace would go here")].

(** How [response_WriteHeader] classifies a status code. *)
Definition invalidCode (code : Z) : bool := (code <? 100) || (999 <? code).

Definition informational (code : Z) : bool :=
  (100 <=? code) && (code <=? 199) && negb (code =? http.StatusSwitchingProtocols).

(** A status code that ends the header: 101 or 200..999. *)
Definition finalCode (code : Z) : bool :=
  (code =? 101) || ((200 <=? code) && (code <=? 999)).

(** [disciplined started acts]: the behaviour sets the status at most once,
    with a final code and before any body is written, and does not panic
    once the response has started ([started] tells whether it already has). *)
Fixpoint disciplined (started : bool) (acts : list script.Action) : bool :=
  match acts with
  | [] => true
  | script.WriteHeader code :: rest =>
      negb started && finalCode code && disciplined true rest
  | script.Write _ :: rest => disciplined true rest
  | script.Panic _ :: _ => negb started
  | _ :: rest => disciplined started rest
  end.

(** The behaviour sets the response header [key] itself. *)
Definition setsHeader (key : string) (acts : list script.Action) : bool :=
  existsb (fun a => match a with
                    | script.SetHeader k _ => String.eqb k key
                    | _ => false
                    end) acts.

(** Where a behaviour leads on the server's response: whether the
    response has started when the behaviour ends, and the value it panics
    with, if it does ([started] tells whether the response had started
    before). *)
Fixpoint unfolds (started : bool) (acts : list script.Action)
  : bool * option PanicVal :=
  match acts with
  | [] => (started, None)
  | script.WriteHeader code :: rest =>
      if started then unfolds true rest
      else if invalidCode code then (false, Some (InvalidWriteHeaderCode code))
      else if informational code then unfolds false rest
      else unfolds true rest
  | script.Write _ :: rest => unfolds true rest
  | script.Panic v :: _ => (started, Some v)
  | _ :: rest => unfolds started rest
  end.

Definition raised {A} (o : Outcome A) : option PanicVal :=
  match o with
  | Return _ => None
  | Panicking v => Some v
  end.

(** What an action does to the world. *)
Definition effect (a : script.Action) (σ : World) : World :=
  match a with
  | script.LogError l msg args => emit (slog.entry l slog.LevelError msg args) σ
  | script.Query c => recordCall c σ
  | script.Elapse d => elapse d σ
  | _ => σ
  end.

(** The captured status agrees with the status the client gets. *)
Definition synced (rw : server.responseWriter http.response) : Prop :=
  if http.wroteHeader (server.ResponseWriter rw)
  then http.status (server.ResponseWriter rw) = server.statusCode rw
  else server.statusCode rw = http.StatusOK.

(** The response header [key] is [value], in the handler's map and, once
    the header is sent, in what was sent. *)
Definition pinned (key value : string) (u : http.response) : Prop :=
  http.handlerHeader u !! key = Some [value]
  /\ (http.wroteHeader u = true -> http.sentHeader u !! key = Some [value]).

(** The correlation identifier of a request: its X-Request-ID header when
    that is not empty, the next generated identifier otherwise. *)
Definition correlationID (r : http.Request) (σ : World) : string :=
  let requestID := http.Get (http.Header r) "X-Request-ID" in
  if String.eqb requestID "" then uuid.String (entropy σ (drawn σ)) else requestID.

(** The world once the identifier is assigned. *)
Definition afterID (r : http.Request) (σ : World) : World :=
  if String.eqb (http.Get (http.Header r) "X-Request-ID") "" then snd (uuid_New σ)
  else σ.

(** The response once the origin-policy stage has set its headers. *)
Definition corsHeaders (u : http.response) : http.response :=
  http.response_SetHeader "Access-Control-Max-Age" "3600"
    (http.response_SetHeader "Access-Control-Allow-Headers"
       "Content-Type, X-User-Email, X-Request-ID"
       (http.response_SetHeader "Access-Control-Allow-Methods"
          "GET, POST, PUT, DELETE, OPTIONS"
          (http.response_SetHeader "Access-Control-Allow-Origin" "*" u))).

(** The response as the logging stage receives it. *)
Definition greeted (rid : string) (u : http.response) : http.response :=
  http.response_SetHeader "X-Request-ID" rid (corsHeaders u).

(** The answer to a pre-flight request. *)
Definition preflightReply : http.response :=
  fst (http.response_WriteHeader http.StatusNoContent (corsHeaders http.newResponse)).

(** The logger of a request with correlation identifier [rid]. *)
Definition requestLogger (s : server.Server) (r : http.Request) (rid : string)
  : slog.Logger :=
  let l := slog.With (server.logger s)
             [("request_id", slog.StringValue rid);
              ("method", slog.StringValue (http.Method r));
              ("path", slog.StringValue (http.URLPath r));
              ("remote_addr", slog.StringValue (http.RemoteAddr r))] in
  let span := SpanFromContext (http.Context r) in
  if config.Enabled (config.Telemetry (server.config s)) && trace.IsValid span
     && negb (String.eqb (trace.TraceID span) "")
  then slog.With l [("trace_id", slog.StringValue (trace.TraceID span));
                    ("span_id", slog.StringValue (trace.SpanID span))]
  else l.

(** The request as the inner handler receives it: the context carries the
    correlation identifier and the request logger. *)
Definition innerRequest (s : server.Server) (r : http.Request) (rid : string)
  : http.Request :=
  http.WithContext r
    (logger.WithContext
       (context.WithValue (http.Context r) context.RequestIDKey (context.OfString rid))
       (Some (requestLogger s r rid))).

(** The wrapper the logging stage puts around a response. *)
Definition wrap (u : http.response) : server.responseWriter http.response :=
  {| server.ResponseWriter := u; server.statusCode := http.StatusOK;
     server.bytesWritten := 0 |}.

(** A pagination parameter as [HandleListUsers] reads it from the query:
    the default when absent, the number when it parses and is not
    negative, nothing (a 400) otherwise. *)
Definition queryInt (s : string) (dflt : Z) : option Z :=
  if String.eqb s "" then Some dflt
  else match strconv.Atoi s with
       | Some n => if n <? 0 then None else Some n
       | None => None
       end.

(** The limit and the offset the service applies to a request for
    [limit] and [offset]. *)
Definition appliedLimit (limit : Z) : Z :=
  if limit <=? 0 then 20 else if 100 <? limit then 100 else limit.

Definition appliedOffset (offset : Z) : Z :=
  int32 (if offset <? 0 then 0 else offset).

(** No binding of the context holds a nil logger. *)
Definition noNilLogger (ctx : context.Context) : bool :=
  forallb (fun kv => match snd kv with
                     | context.OfLogger None => false
                     | _ => true
                     end) ctx.

(** The response after [respondWithJSON] on a response [u] nothing was
    written to: the status, the JSON content type, and the encoded payload
    followed by a line feed (nothing when the payload cannot be encoded). *)
Definition jsonReply (Marshal : users.Payload -> Result error string)
    (u : http.response) (code : Z) (payload : users.Payload) : http.response :=
  {| http.handlerHeader :=
       http.Set_ "Content-Type" "application/json" (http.handlerHeader u);
     http.wroteHeader := true;
     http.status := code;
     http.sentHeader :=
       http.Set_ "Content-Type" "application/json" (http.handlerHeader u);
     http.interim := http.interim u;
     http.body := http.body u +:+ match Marshal payload with
                                  | Ok text => text +:+ nl
                                  | Err _ => ""
                                  end |}.

(** The world after [respondWithJSON]: an encoding failure is logged. *)
Definition encodeLog (Marshal : users.Payload -> Result error string)
    (h : users.Handler) (payload : users.Payload) (σ : World) : World :=
  match Marshal payload with
  | Ok _ => σ
  | Err err =>
      emit (slog.entry (users.logger h) slog.LevelError
              "failed to encode response" [("error", slog.ErrorValue err)]) σ
  end.

(** What [respondWithJSON] does, as a behaviour. *)
Definition jsonScript (Marshal : users.Payload -> Result error string)
    (lg : slog.Logger) (code : Z) (payload : users.Payload) : list script.Action :=
  [script.SetHeader "Content-Type" "application/json"; script.WriteHeader code]
  ++ match Marshal payload with
     | Ok text => [script.Write (text +:+ nl)]
     | Err err =>
         [script.LogError lg "failed to encode response"
            [("error", slog.ErrorValue err)]]
     end.

(** What [HandleGetUser] does for a request, over the service on the
    store [s]. *)
Definition getUserScript (Marshal : users.Payload -> Result error string)
    (s : users.Service.t) (lg : slog.Logger) (r : http.Request)
  : list script.Action :=
  let idStr := http.PathValue r "id" in
  if String.eqb idStr "" then
    jsonScript Marshal lg 400 (users.OfError "user ID is required")
  else
    match uuid.Parse idStr with
    | None => jsonScript Marshal lg 400 (users.OfError "invalid user ID format")
    | Some userID =>
        let pgID := {| pgtype.Bytes := userID; pgtype.Valid := true |} in
        script.Query (db.CallGetUserByID pgID) ::
        match users.Querier.GetUserByID (users.Service.queries s) pgID with
        | Ok dbUser => jsonScript Marshal lg 200 (users.OfUser (users.toUser dbUser))
        | Err err =>
            if errors.Is err errors.PgxErrNoRows
               || errors.Is err users.ErrUserNotFound
            then jsonScript Marshal lg 404 (users.OfError "user not found")
            else
              script.LogError lg "failed to get user"
                [("error", slog.ErrorValue err); ("user_id", slog.BytesValue userID)]
              :: jsonScript Marshal lg 500 (users.OfError "internal server error")
        end
    end.

(** What [HandleListUsers] does for a request, over the service on the
    store [s]. *)
Definition listUsersScript (Marshal : users.Payload -> Result error string)
    (s : users.Service.t) (lg : slog.Logger) (r : http.Request)
  : list script.Action :=
  match queryInt (http.Get (http.URLQuery r) "limit") 20 with
  | None => jsonScript Marshal lg 400 (users.OfError "invalid limit parameter")
  | Some limit =>
      match queryInt (http.Get (http.URLQuery r) "offset") 0 with
      | None => jsonScript Marshal lg 400 (users.OfError "invalid offset parameter")
      | Some offset =>
          let arg := {| db.Limit := appliedLimit limit;
                        db.Offset := appliedOffset offset |} in
          script.Query (db.CallListUsers arg) ::
          match users.Querier.ListUsers (users.Service.queries s) arg with
          | Ok rows =>
              jsonScript Marshal lg 200
                (users.OfList (map users.toUser rows) limit offset)
          | Err err =>
              script.LogError lg "failed to list users"
                [("error", slog.ErrorValue err)]
              :: jsonScript Marshal lg 500 (users.OfError "internal server error")
          end
      end
  end.

(** What [handleHealthCheck] does. *)
Definition healthScript (s : server.Server) : list script.Action :=
  [script.SetHeader "Content-Type" "application/json";
   script.WriteHeader http.StatusOK;
   script.Write ("{" +:+ q "status" +:+ ":" +:+ q "healthy" +:+ ","
                 +:+ q "service" +:+ ":"
                 +:+ q (config.Name (config.Service (server.config s))) +:+ ","
                 +:+ q "version" +:+ ":"
                 +:+ q (config.Version (config.Service (server.config s))) +:+ "}")].

(** A run of the process in which every collaborator answers and
    [srv.Shutdown] returns [res]. *)
Definition runWithShutdown (cfg : config.Config) (res : option error)
  : list main.Event :=
  main.main {| main.configLoad := Ok cfg; main.telemetryInit := None;
               main.databaseConnect := None; main.shutdownResult := res |}.

(* --------------------------------------------------------------------- *)
(** *** concrete values, for the examples                                 *)
(* --------------------------------------------------------------------- *)

Module sample.

Definition cfg : config.Config :=
  {| config.Service := {| config.Name := "starterkit"; config.Version := "1.0.0" |};
     config.Server := {| config.Address := ":8080";
                         config.ShutdownTimeout := 30 * main.second |};
     config.Telemetry := {| config.Enabled := false |} |}.

Definition base : slog.Logger := {| slog.fixed := [] |}.

(** A store with no users. *)
Definition emptyStore : users.Querier.t :=
  {| users.Querier.GetUserByID := fun _ => Err errors.PgxErrNoRows;
     users.Querier.ListUsers := fun _ => Ok [] |}.

(** A store whose connection is broken. *)
Definition brokenStore : users.Querier.t :=
  {| users.Querier.GetUserByID := fun _ => Err (errors.Other "connection refused");
     users.Querier.ListUsers := fun _ => Err (errors.Other "connection refused") |}.

Definition srv : server.Server := server.New cfg base emptyStore.

Definition world : World :=
  {| logs := []; storeCalls := []; now := 0; slogDefault := base;
     entropy := fun _ => uuid.Nil; drawn := 0 |}.

(** An encoder for the payloads that is enough to tell them apart. *)
Definition Marshal (p : users.Payload) : Result error string :=
  match p with
  | users.OfError m => Ok ("{" +:+ q "error" +:+ ":" +:+ q m +:+ "}")
  | users.OfUser u => Ok ("{" +:+ q "id" +:+ ":" +:+ q (uuid.String (users.ID u)) +:+ "}")
  | users.OfList _ limit offset =>
      if (limit <? 0) || (offset <? 0) then Err (errors.Other "negative")
      else Ok ("{" +:+ q "limit" +:+ ":" +:+ pretty (Z.to_N limit) +:+ ","
               +:+ q "offset" +:+ ":" +:+ pretty (Z.to_N offset) +:+ "}")
  end.

Definition request (method path : string) (query header : gmap string (list string))
    (values : gmap string string) : http.Request :=
  {| http.Method := method; http.URLPath := path; http.URLQuery := query;
     http.RemoteAddr := "192.0.2.1:4711"; http.Header := header;
     http.pathValues := values; http.Context := context.Background |}.

(** GET /api/v1/users?limit=500&offset=-5 *)
Definition scenarioC : http.Request :=
  request "GET" "/api/v1/users" {[ "limit" := ["500"]; "offset" := ["-5"] ]} ∅ ∅.

(** GET /api/v1/users?limit=500 *)
Definition bigLimit : http.Request :=
  request "GET" "/api/v1/users" {[ "limit" := ["500"] ]} ∅ ∅.

(** GET /api/v1/users/not-a-uuid *)
Definition scenarioA : http.Request :=
  request "GET" "/api/v1/users/not-a-uuid" ∅ ∅ {[ "id" := "not-a-uuid" ]}.

(** GET /api/v1/users/123e4567-e89b-12d3-a456-426614174000 *)
Definition scenarioB : http.Request :=
  request "GET" "/api/v1/users/123e4567-e89b-12d3-a456-426614174000" ∅ ∅
    {[ "id" := "123e4567-e89b-12d3-a456-426614174000" ]}.

(** The identifier of scenario B, as bytes. *)
Definition id : uuid.UUID :=
  [x12; x3e; x45; x67; xe8; x9b; x12; xd3; xa4; x56; x42; x66; x14; x17; x40; x00].

(** OPTIONS /api/v1/users, without a correlation identifier. *)
Definition preflightBare : http.Request :=
  request "OPTIONS" "/api/v1/users" ∅ ∅ ∅.

(** OPTIONS /api/v1/users, with a correlation identifier. *)
Definition preflight : http.Request :=
  request "OPTIONS" "/api/v1/users" ∅ {[ "X-Request-ID" := ["abc"] ]} ∅.

(** GET /health with an empty X-Request-ID header. *)
Definition emptyID : http.Request :=
  request "GET" "/health" ∅ {[ "X-Request-ID" := [""] ]} ∅.

(** GET /health with a correlation identifier. *)
Definition withID : http.Request :=
  request "GET" "/health" ∅ {[ "X-Request-ID" := ["abc"] ]} ∅.

(** A handler that panics before writing anything. *)
Definition crash (r : http.Request) (σ : World) : list script.Action :=
  [script.Panic (PanicString "boom")].

(** A handler that panics after it has sent a 200 and some data. *)
Definition lateCrash (r : http.Request) (σ : World) : list script.Action :=
  [script.WriteHeader 200; script.Write "partial"; script.Panic (PanicString "boom")].

(** A handler that answers 200 with a body. *)
Definition hello (r : http.Request) (σ : World) : list script.Action :=
  [script.SetHeader "Content-Type" "text/plain"; script.WriteHeader 200;
   script.Write "hello"].

(** The collaborators all answer, and the drain ends in time. *)
Definition cleanRun : main.Env :=
  {| main.configLoad := Ok cfg; main.telemetryInit := None;
     main.databaseConnect := None; main.shutdownResult := None |}.

(** The drain timeout elapses with a request still in flight. *)
Definition drainTimeout : main.Env :=
  {| main.configLoad := Ok cfg; main.telemetryInit := None;
     main.databaseConnect := None;
     main.shutdownResult := Some (errors.Other "context deadline exceeded") |}.

End sample.


(* --------------------------------------------------------------------- *)
(** *** vocabulary of the further properties                              *)
(* --------------------------------------------------------------------- *)

(** The body [handleHealthCheck] writes. *)
Definition healthBody (s : server.Server) : string :=
  "{" +:+ q "status" +:+ ":" +:+ q "healthy" +:+ ","
  +:+ q "service" +:+ ":"
  +:+ q (config.Name (config.Service (server.config s))) +:+ ","
  +:+ q "version" +:+ ":"
  +:+ q (config.Version (config.Service (server.config s))) +:+ "}".

(** The process starts serving: the configuration loads, telemetry
    initializes and the database connects. *)
Definition startsServing (env : main.Env) : bool :=
  match main.configLoad env, main.telemetryInit env, main.databaseConnect env with
  | Ok _, None, None => true
  | _, _, _ => false
  end.

(* --------------------------------------------------------------------- *)
(** *** more concrete values, for the examples                            *)
(* --------------------------------------------------------------------- *)

Module cases.

(** What [sample.hello] leaves of the response of the chain for
    [sample.withID]. *)
Definition helloReply : http.response :=
  {| http.handlerHeader :=
       http.Set_ "Content-Type" "text/plain"
         (http.handlerHeader (greeted "abc" http.newResponse));
     http.wroteHeader := true; http.status := 200;
     http.sentHeader :=
       http.Set_ "Content-Type" "text/plain"
         (http.handlerHeader (greeted "abc" http.newResponse));
     http.interim := []; http.body := "hello" |}.

(** What [sample.lateCrash] leaves of it when it panics. *)
Definition partialReply : http.response :=
  {| http.handlerHeader := http.handlerHeader (greeted "abc" http.newResponse);
     http.wroteHeader := true; http.status := 200;
     http.sentHeader := http.handlerHeader (greeted "abc" http.newResponse);
     http.interim := []; http.body := "partial" |}.

(** A row of the store. *)
Definition alice : db.GetUserByIDRow :=
  {| db.ID := {| pgtype.Bytes := sample.id; pgtype.Valid := true |};
     db.Email := "alice@example.com"; db.Name := "Alice";
     db.CreatedAt := 0; db.UpdatedAt := 0 |}.

(** A store that holds this row only. *)
Definition oneUser : users.Querier.t :=
  {| users.Querier.GetUserByID := fun id =>
       if bool_decide (map Byte.to_nat (pgtype.Bytes id) = map Byte.to_nat sample.id)
       then Ok alice else Err errors.PgxErrNoRows;
     users.Querier.ListUsers := fun _ => Ok [alice] |}.

(** An environment with two variables set, and one set to nothing. *)
Definition vars : os.Environ :=
  {[ "SERVER_ADDRESS" := ":9090"; "TELEMETRY_ENABLED" := "false";
     "DB_HOST" := "" ]}.

(** No [.env] file: [godotenv.Load] leaves the environment as it is and
    returns the error of the missing file. *)
Definition noFile (env : os.Environ) : os.Environ * option error :=
  (env, Some (errors.Other "open .env: no such file or directory")).

(** A [.env] file that cannot be read. *)
Definition badFile (env : os.Environ) : os.Environ * option error :=
  (env, Some (errors.Other "open .env: permission denied")).

Definition IsNotExist (err : error) : bool :=
  errors.error_eqb err (errors.Other "open .env: no such file or directory").

(** No value is read as a number or as a duration. *)
Definition unreadable (value : string) : option Z := None.

(** A handler that sends early hints and returns. *)
Definition earlyHints (r : http.Request) (σ : World) : list script.Action :=
  [script.WriteHeader 103].

(** The configuration loads and telemetry initializes, but the database
    does not connect. *)
Definition databaseDown : main.Env :=
  {| main.configLoad := Ok sample.cfg; main.telemetryInit := None;
     main.databaseConnect := Some (errors.Other "connection refused");
     main.shutdownResult := None |}.

End cases.

(* ===================================================================== *)
(** ** Properties                                                         *)
(* ===================================================================== *)

(* --------------------------------------------------------------------- *)
(** *** pagination bounds (service layer)                                 *)
(* --------------------------------------------------------------------- *)

Lemma int32_small (x : Z) : - 2 ^ 31 <= x < 2 ^ 31 -> int32 x = x.
Proof.
  intros Hx. unfold int32.
  rewrite Z.mod_small by lia. lia.
Qed.

(** The parameters [Service.ListUsers] hands to the store. *)
Lemma ListUsers_call (s : users.Service.t) (ctx : context.Context)
    (limit offset : Z) (σ : World) :
  let arg := {| db.Limit := appliedLimit limit;
                db.Offset := appliedOffset offset |} in
  users.Service.ListUsers s ctx limit offset σ =
    (match users.Querier.ListUsers (users.Service.queries s) arg with
     | Err err => Err err
     | Ok dbUsers => Ok (map users.toUser dbUsers)
     end,
     recordCall (db.CallListUsers arg) σ).
Proof.
  cbv zeta. unfold users.Service.ListUsers, appliedLimit, appliedOffset.
  assert (Hl : int32 (if 100 <? (if limit <=? 0 then 20 else limit) then 100
                      else if limit <=? 0 then 20 else limit)
               = if limit <=? 0 then 20 else if 100 <? limit then 100 else limit).
  { destruct (limit <=? 0) eqn:E1.
    - cbn. reflexivity.
    - destruct (100 <? limit) eqn:E2; [reflexivity|].
      apply int32_small. lia. }
  rewrite Hl.
  destruct (users.Querier.ListUsers _ _); reflexivity.
Qed.

(* --------------------------------------------------------------------- *)
(** *** the logger of a context                                           *)
(* --------------------------------------------------------------------- *)

Lemma FromContext_noNil (σ : World) (ctx : context.Context) :
  noNilLogger ctx = true -> is_Some (logger.FromContext σ ctx).
Proof.
  unfold logger.FromContext.
  induction ctx as [|[k v] ctx IH]; cbn; [eauto|].
  intros Hn. apply andb_true_iff in Hn as [Hv Hn].
  destruct (context.Key_eqb k context.LoggerKey); [|auto].
  destruct v as [| [l|] | |]; cbn in *; eauto; discriminate.
Qed.

(** C10, the input on which it fails: [WithContext] stores a nil logger
    as it stores any other, and [FromContext] returns it. *)
Example FromContext_returns_stored_nil :
  logger.FromContext sample.world
    (logger.WithContext context.Background None) = None.
Proof. reflexivity. Qed.

Lemma Error_returns (u : http.response) (σ : World) :
  exists u', http.Error "Internal Server Error" 500 u σ = (u', σ, Return tt).
Proof.
  unfold http.Error, mbind, http.M_bind, http.setHeader, http.writeHeader,
         http.write, mret, http.M_ret.
  cbn. unfold http.response_WriteHeader. cbn.
  destruct (http.wroteHeader u); cbn;
    destruct (http.response_Write _ _) as [u' [n err]]; eauto.
Qed.

(** C10 as amended.  [FromContext] returns the logger last stored by
    [WithContext], whatever was bound under other keys since; without
    one it returns the process-wide default logger; the result is
    non-nil whenever no nil logger was stored.  So the recovery stage,
    run on a request whose context holds no nil logger (one that never
    passed through the logging stage, for instance), logs the recovered
    value through that logger, the default one when none is stored, and
    returns. *)
Theorem FromContext_stored_or_default :
  forall (σ : World) (ctx : context.Context),
    (forall p, logger.FromContext σ (logger.WithContext ctx p) = p)
    /\ (forall k v, k <> context.LoggerKey ->
          logger.FromContext σ (context.WithValue ctx k v)
          = logger.FromContext σ ctx)
    /\ logger.FromContext σ context.Background = Some (slogDefault σ)
    /\ (context.Value ctx context.LoggerKey = None ->
          logger.FromContext σ ctx = Some (slogDefault σ))
    /\ (noNilLogger ctx = true -> is_Some (logger.FromContext σ ctx))
    /\ (forall (s : server.Server) (next : http.Handler) (r : http.Request)
               (u u2 : http.response) (σ0 : World) (v : PanicVal),
          http.Context r = ctx ->
          next http.response _ r u σ0 = (u2, σ, Panicking v) ->
          noNilLogger ctx = true ->
          exists l u',
            logger.FromContext σ ctx = Some l
            /\ server.recoveryMiddleware s next http.response _ r u σ0
               = (u', emit (panicRecord l v) σ, Return tt)).
Proof.
  intros σ ctx. repeat split.
  - intros k v Hk. unfold logger.FromContext, context.WithValue. cbn.
    destruct k; try reflexivity. contradiction.
  - intros Hv. unfold logger.FromContext. rewrite Hv. reflexivity.
  - apply FromContext_noNil.
  - intros s next r u u2 σ0 v Hctx Hnext Hn.
    destruct (FromContext_noNil σ ctx Hn) as [l Hl].
    destruct (Error_returns u2 (emit (panicRecord l v) σ)) as [u' HE].
    exists l, u'. split; [exact Hl|].
    unfold server.recoveryMiddleware. rewrite Hnext, Hctx, Hl.
    unfold mbind, http.M_bind, http.logWith. cbn [logVia].
    exact HE.
Qed.

(** The recovery stage on its own, for a context that never saw the
    logging stage: the recovered value goes to the default logger. *)
Example recovery_logs_through_default :
  exists u',
    server.recoveryMiddleware sample.srv (script.handler sample.crash)
      http.response _ sample.withID http.newResponse sample.world
    = (u', emit (panicRecord sample.base (PanicString "boom")) sample.world,
       Return tt)
    /\ http.status u' = 500.
Proof. eexists. split; reflexivity. Qed.

(* --------------------------------------------------------------------- *)
(** *** the process: shutdown paths                                       *)
(* --------------------------------------------------------------------- *)

(** When the drain ends in time, [main] returns: the deferred calls run
    (the drain context, the pool, then the tracer provider under its own
    five seconds) and the process ends with status 0. *)
Lemma main_clean_shutdown (cfg : config.Config) :
  exists before,
    runWithShutdown cfg None
    = before ++ [main.ServerShutdown (30 * main.second);
                 main.Log slog.LevelInfo "server exited";
                 main.Cancel; main.PoolClose;
                 main.TracerShutdown (5 * main.second); main.Exit 0].
Proof.
  exists [main.SetDefault; main.ConfigLoad; main.TelemetryInit;
          main.DatabaseConnect;
          main.GoStart (config.Address (config.Server cfg));
          main.AwaitSignal;
          main.Log slog.LevelInfo "shutting down server..."].
  reflexivity.
Qed.

(** C9, the path on which the code fails it: when [srv.Shutdown] returns
    an error (the drain timeout elapsed), [main] calls [os.Exit(1)]; the
    process ends at once and the deferred tracer shutdown never runs. *)
Theorem main_forced_shutdown_skips_hooks :
  forall (cfg : config.Config) (err : error),
    (exists before,
       runWithShutdown cfg (Some err)
       = before ++ [main.ServerShutdown (30 * main.second);
                    main.Log slog.LevelError "server forced to shutdown";
                    main.Exit 1])
    /\ ~ In main.shutdown (runWithShutdown cfg (Some err))
    /\ ~ In main.PoolClose (runWithShutdown cfg (Some err)).
Proof.
  intros cfg err. split; [|split].
  - exists [main.SetDefault; main.ConfigLoad; main.TelemetryInit;
            main.DatabaseConnect;
            main.GoStart (config.Address (config.Server cfg));
            main.AwaitSignal;
            main.Log slog.LevelInfo "shutting down server..."].
    reflexivity.
  - cbv -[Z.mul main.second]. intuition discriminate.
  - cbv -[Z.mul main.second]. intuition discriminate.
Qed.

(** The two shutdown paths, run. *)
Example main_runs :
  main.main sample.cleanRun
  = [main.SetDefault; main.ConfigLoad; main.TelemetryInit; main.DatabaseConnect;
     main.GoStart ":8080"; main.AwaitSignal;
     main.Log slog.LevelInfo "shutting down server...";
     main.ServerShutdown (30 * main.second);
     main.Log slog.LevelInfo "server exited";
     main.Cancel; main.PoolClose; main.TracerShutdown (5 * main.second);
     main.Exit 0]
  /\ main.main sample.drainTimeout
     = [main.SetDefault; main.ConfigLoad; main.TelemetryInit; main.DatabaseConnect;
        main.GoStart ":8080"; main.AwaitSignal;
        main.Log slog.LevelInfo "shutting down server...";
        main.ServerShutdown (30 * main.second);
        main.Log slog.LevelError "server forced to shutdown";
        main.Exit 1].
Proof. split; reflexivity. Qed.

(* --------------------------------------------------------------------- *)
(** *** identifiers: parsing, printing and the store's form               *)
(* --------------------------------------------------------------------- *)

Lemma toByte_hi_lo (b : byte) : hex.toByte (hex.hi b) (hex.lo b) = Some b.
Proof. destruct b; vm_compute; reflexivity. Qed.

Lemma bytesAt_length cs xs bs : uuid.bytesAt cs xs = Some bs -> length bs = length xs.
Proof.
  revert bs. induction xs as [|x xs IH]; cbn; intros bs H.
  - now inversion H.
  - destruct (hex.toByte _ _); [|discriminate].
    destruct (uuid.bytesAt cs xs); [|discriminate].
    inversion H; subst. cbn. f_equal. now apply IH.
Qed.

Lemma decode_length cs : forall bs, hex.decode cs = Some bs -> length cs = (2 * length bs)%nat.
Proof.
  induction cs as [cs IH] using (induction_ltof1 _ (@length ascii)).
  unfold ltof in IH. intros bs H.
  destruct cs as [|c1 [|c2 rest]]; cbn in H.
  - inversion H. reflexivity.
  - discriminate.
  - destruct (hex.toByte c1 c2); [|discriminate].
    destruct (hex.decode rest) as [bs'|] eqn:E; [|discriminate].
    inversion H; subst. cbn. rewrite (IH rest) with (bs := bs'); [lia | cbn; lia | assumption].
Qed.

Lemma Parse_length s id : uuid.Parse s = Some id -> length id = 16%nat.
Proof.
  unfold uuid.Parse, uuid.parseDashed.
  repeat case_match; try discriminate; intros Hp;
    try (apply bytesAt_length in Hp; exact Hp).
  apply decode_length in Hp.
  match goal with E : (_ =? 32)%nat = true |- _ => apply Nat.eqb_eq in E; lia end.
Qed.

Lemma Scan_String (id : uuid.UUID) :
  length id = 16%nat ->
  pgtype.Scan (uuid.String id) = Some {| pgtype.Bytes := id; pgtype.Valid := true |}.
Proof.
  intros Hlen.
  do 16 (destruct id as [|? id]; [discriminate Hlen|]).
  destruct id; [clear Hlen | discriminate Hlen].
  unfold pgtype.Scan, pgtype.parseUUID, uuid.String.
  rewrite list_ascii_of_string_of_list_ascii.
  cbn -[hex.hi hex.lo hex.toByte].
  rewrite !toByte_hi_lo. reflexivity.
Qed.

(* --------------------------------------------------------------------- *)
(** *** the user handlers, case by case                                   *)
(* --------------------------------------------------------------------- *)

Lemma append_nl_nonempty (text : string) : String.eqb (text +:+ nl) "" = false.
Proof. destruct text; reflexivity. Qed.

Lemma append_empty_r (s : string) : s +:+ "" = s.
Proof.
  induction s as [|c s IH]; [reflexivity|].
  change (String c s +:+ "") with (String c (s +:+ "")). now rewrite IH.
Qed.

Lemma respondWithJSON_fresh Marshal h code payload (u : http.response) σ :
  http.wroteHeader u = false -> finalCode code = true ->
  http.bodyAllowedForStatus code = true ->
  users.respondWithJSON Marshal h code payload u σ
  = (jsonReply Marshal u code payload, encodeLog Marshal h payload σ, Return tt).
Proof.
  intros Hw Hc Hb.
  unfold users.respondWithJSON, jsonReply, encodeLog.
  unfold mbind, http.M_bind, http.setHeader, http.writeHeader, http.write. cbn.
  unfold http.response_WriteHeader. cbn. rewrite Hw.
  unfold finalCode in Hc. unfold http.StatusSwitchingProtocols.
  assert (H1 : (code <? 100) || (999 <? code) = false) by lia.
  assert (H2 : (100 <=? code) && (code <=? 199) && negb (code =? 101) = false) by lia.
  rewrite H1, H2.
  destruct (Marshal payload) as [text|err].
  - unfold http.response_Write. cbn. rewrite append_nl_nonempty, Hb. cbn.
    reflexivity.
  - cbn. rewrite append_empty_r. reflexivity.
Qed.

Ltac respond :=
  unfold users.respondWithError;
  rewrite respondWithJSON_fresh by reflexivity.

(** What [HandleGetUser] answers, case by case. *)
Lemma HandleGetUser_serve Marshal (h : users.Handler) (r : http.Request) (σ : World) :
  http.serve (users.HandleGetUser Marshal h) r σ =
  let idStr := http.PathValue r "id" in
  if String.eqb idStr "" then
    (Some (jsonReply Marshal http.newResponse 400 (users.OfError "user ID is required")),
     encodeLog Marshal h (users.OfError "user ID is required") σ)
  else
    match uuid.Parse idStr with
    | None =>
        (Some (jsonReply Marshal http.newResponse 400 (users.OfError "invalid user ID format")),
         encodeLog Marshal h (users.OfError "invalid user ID format") σ)
    | Some userID =>
        let (res, σ1) :=
          users.ServiceInterface.GetUserByID (users.service h) (http.Context r) userID σ in
        match res with
        | Ok user =>
            (Some (jsonReply Marshal http.newResponse 200 (users.OfUser user)),
             encodeLog Marshal h (users.OfUser user) σ1)
        | Err err =>
            if errors.Is err users.ErrUserNotFound then
              (Some (jsonReply Marshal http.newResponse 404 (users.OfError "user not found")),
               encodeLog Marshal h (users.OfError "user not found") σ1)
            else
              (Some (jsonReply Marshal http.newResponse 500
                       (users.OfError "internal server error")),
               encodeLog Marshal h (users.OfError "internal server error")
                 (emit (slog.entry (users.logger h) slog.LevelError "failed to get user"
                          [("error", slog.ErrorValue err);
                           ("user_id", slog.BytesValue userID)]) σ1))
        end
    end.
Proof.
  cbv zeta. unfold http.serve, users.HandleGetUser.
  destruct (String.eqb (http.PathValue r "id") "").
  { respond. reflexivity. }
  destruct (uuid.Parse (http.PathValue r "id")) as [userID|].
  2:{ respond. reflexivity. }
  unfold mbind, http.M_bind, users.call.
  destruct (users.ServiceInterface.GetUserByID _ _ _ _) as [[user|err] σ1].
  { unfold http.StatusOK. rewrite respondWithJSON_fresh by reflexivity. reflexivity. }
  destruct (errors.Is err users.ErrUserNotFound).
  { respond. reflexivity. }
  unfold http.logWith. cbn [logVia].
  respond. reflexivity.
Qed.

Lemma HandleListUsers_serve Marshal (h : users.Handler) (r : http.Request) (σ : World) :
  http.serve (users.HandleListUsers Marshal h) r σ =
  match queryInt (http.Get (http.URLQuery r) "limit") 20 with
  | None =>
      (Some (jsonReply Marshal http.newResponse 400 (users.OfError "invalid limit parameter")),
       encodeLog Marshal h (users.OfError "invalid limit parameter") σ)
  | Some limit =>
      match queryInt (http.Get (http.URLQuery r) "offset") 0 with
      | None =>
          (Some (jsonReply Marshal http.newResponse 400
                   (users.OfError "invalid offset parameter")),
           encodeLog Marshal h (users.OfError "invalid offset parameter") σ)
      | Some offset =>
          let (res, σ1) :=
            users.ServiceInterface.ListUsers (users.service h) (http.Context r)
              limit offset σ in
          match res with
          | Ok us =>
              (Some (jsonReply Marshal http.newResponse 200 (users.OfList us limit offset)),
               encodeLog Marshal h (users.OfList us limit offset) σ1)
          | Err err =>
              (Some (jsonReply Marshal http.newResponse 500
                       (users.OfError "internal server error")),
               encodeLog Marshal h (users.OfError "internal server error")
                 (emit (slog.entry (users.logger h) slog.LevelError "failed to list users"
                          [("error", slog.ErrorValue err)]) σ1))
          end
      end
  end.
Proof.
  unfold http.serve, users.HandleListUsers, queryInt.
  repeat first
    [ match goal with
      | |- context [match strconv.Atoi ?s with _ => _ end] =>
          destruct (strconv.Atoi s)
      end
    | match goal with
      | |- context [if ?b then _ else _] => destruct b
      end ];
    try (respond; reflexivity);
    (unfold mbind, http.M_bind, users.call;
     destruct (users.ServiceInterface.ListUsers _ _ _ _ _) as [[us|err] σ1];
     [ unfold http.StatusOK; rewrite respondWithJSON_fresh by reflexivity; reflexivity
     | unfold http.logWith; cbn [logVia]; respond; reflexivity ]).
Qed.

Lemma storeCalls_encodeLog Marshal h payload σ :
  storeCalls (encodeLog Marshal h payload σ) = storeCalls σ.
Proof. unfold encodeLog. destruct (Marshal payload); reflexivity. Qed.

(* --------------------------------------------------------------------- *)
(** *** GET /api/v1/users/{id}                                            *)
(* --------------------------------------------------------------------- *)

(** C8.  A request whose id is not a valid identifier is answered by the
    handler alone: status 400, a JSON body carrying an error message, no
    call to the store; the answer is the same whatever service is behind
    the handler, since the service is not invoked. *)
Theorem HandleGetUser_rejects_malformed_id :
  forall (Marshal : users.Payload -> Result error string) (h : users.Handler)
         (r : http.Request) (σ : World),
    uuid.Parse (http.PathValue r "id") = None ->
    (exists (message : string) (u : http.response) (σ' : World),
       http.serve (users.HandleGetUser Marshal h) r σ = (Some u, σ')
       /\ u = jsonReply Marshal http.newResponse http.StatusBadRequest
                (users.OfError message)
       /\ http.status u = 400
       /\ message <> ""
       /\ storeCalls σ' = storeCalls σ)
    /\ (forall service' : users.ServiceInterface.t,
          http.serve (users.HandleGetUser Marshal
                        (users.NewHandler service' (users.logger h))) r σ
          = http.serve (users.HandleGetUser Marshal h) r σ).
Proof.
  intros Marshal h r σ Hp. split.
  - rewrite HandleGetUser_serve. cbv zeta. rewrite Hp.
    destruct (String.eqb (http.PathValue r "id") "");
      (do 3 eexists; split; [reflexivity|]);
      (split; [reflexivity|]); (split; [reflexivity|]);
      (split; [discriminate | apply storeCalls_encodeLog]).
  - intros service'. rewrite !HandleGetUser_serve. cbv zeta. rewrite Hp.
    destruct (String.eqb (http.PathValue r "id") ""); reflexivity.
Qed.

(** C8 on scenario A: GET /api/v1/users/not-a-uuid. *)
Lemma HandleGetUser_rejects_malformed_id_scenarioA :
  uuid.Parse (http.PathValue sample.scenarioA "id") = None
  /\ (exists (message : string) (u : http.response) (σ' : World),
        http.serve (users.HandleGetUser sample.Marshal (server.userHandler sample.srv))
          sample.scenarioA sample.world = (Some u, σ')
        /\ u = jsonReply sample.Marshal http.newResponse http.StatusBadRequest
                 (users.OfError message)
        /\ http.status u = 400
        /\ message <> ""
        /\ storeCalls σ' = storeCalls sample.world).
Proof.
  split; [vm_compute; reflexivity|].
  apply (HandleGetUser_rejects_malformed_id sample.Marshal
           (server.userHandler sample.srv) sample.scenarioA sample.world).
  vm_compute. reflexivity.
Defined.

(** What [Service.GetUserByID] does with a well-formed identifier: one
    call to the store, whose answer it translates. *)
Lemma GetUserByID_call (s : users.Service.t) (ctx : context.Context)
    (id : uuid.UUID) (σ : World) :
  length id = 16%nat ->
  let pgID := {| pgtype.Bytes := id; pgtype.Valid := true |} in
  users.Service.GetUserByID s ctx id σ =
    (match users.Querier.GetUserByID (users.Service.queries s) pgID with
     | Err err =>
         if errors.Is err errors.PgxErrNoRows then Err users.ErrUserNotFound
         else Err err
     | Ok dbUser => Ok (users.toUser dbUser)
     end,
     recordCall (db.CallGetUserByID pgID) σ).
Proof.
  intros Hlen. cbv zeta. unfold users.Service.GetUserByID.
  rewrite Scan_String by assumption.
  destruct (users.Querier.GetUserByID _ _) as [dbUser|err]; [reflexivity|].
  destruct (errors.Is err errors.PgxErrNoRows); reflexivity.
Qed.

(** C3.  For a valid identifier the service asks the store once.  When
    the store reports no rows the service returns [ErrUserNotFound]; any
    other store error is returned unchanged.  The handler answers 404 to
    [ErrUserNotFound] and, to every other service error, 500 with one
    fixed message that does not depend on the error (the error itself is
    only logged). *)
Theorem GetUserByID_not_found_vs_failure :
  forall (Marshal : users.Payload -> Result error string)
         (s : users.Service.t) (h : users.Handler)
         (r : http.Request) (id : uuid.UUID) (σ : World),
    uuid.Parse (http.PathValue r "id") = Some id ->
    let pgID := {| pgtype.Bytes := id; pgtype.Valid := true |} in
    let res := users.Service.GetUserByID s (http.Context r) id σ in
    storeCalls (snd res) = storeCalls σ ++ [db.CallGetUserByID pgID]
    /\ (forall err,
          users.Querier.GetUserByID (users.Service.queries s) pgID = Err err ->
          errors.Is err errors.PgxErrNoRows = true ->
          fst res = Err users.ErrUserNotFound)
    /\ (forall err,
          users.Querier.GetUserByID (users.Service.queries s) pgID = Err err ->
          errors.Is err errors.PgxErrNoRows = false ->
          fst res = Err err)
    /\ (forall err σ1,
          users.ServiceInterface.GetUserByID (users.service h) (http.Context r) id σ
            = (Err err, σ1) ->
          errors.Is err users.ErrUserNotFound = true ->
          exists σ',
            http.serve (users.HandleGetUser Marshal h) r σ
            = (Some (jsonReply Marshal http.newResponse http.StatusNotFound
                       (users.OfError "user not found")), σ'))
    /\ (forall err σ1,
          users.ServiceInterface.GetUserByID (users.service h) (http.Context r) id σ
            = (Err err, σ1) ->
          errors.Is err users.ErrUserNotFound = false ->
          exists σ',
            http.serve (users.HandleGetUser Marshal h) r σ
            = (Some (jsonReply Marshal http.newResponse
                       http.StatusInternalServerError
                       (users.OfError "internal server error")), σ')
            /\ In (slog.entry (users.logger h) slog.LevelError "failed to get user"
                     [("error", slog.ErrorValue err);
                      ("user_id", slog.BytesValue id)]) (logs σ')).
Proof.
  intros Marshal s h r id σ Hp. cbv zeta.
  pose proof (Parse_length _ _ Hp) as Hlen.
  assert (Hne : String.eqb (http.PathValue r "id") "" = false).
  { destruct (String.eqb_spec (http.PathValue r "id") "") as [E|]; [|reflexivity].
    rewrite E in Hp. discriminate Hp. }
  rewrite GetUserByID_call by assumption. cbn [fst snd recordCall storeCalls].
  split; [reflexivity|].
  split. { intros err -> ->. reflexivity. }
  split. { intros err -> ->. reflexivity. }
  split.
  - intros err σ1 Hs Hi. rewrite HandleGetUser_serve. cbv zeta.
    rewrite Hne, Hp, Hs, Hi. eexists. reflexivity.
  - intros err σ1 Hs Hi. rewrite HandleGetUser_serve. cbv zeta.
    rewrite Hne, Hp, Hs, Hi. eexists. split; [reflexivity|].
    unfold encodeLog. destruct (Marshal _); cbn; rewrite ?in_app_iff; cbn; auto.
Qed.

(** C3 on scenario B: a valid identifier the store has no row for. *)
Lemma GetUserByID_not_found_scenarioB :
  uuid.Parse (http.PathValue sample.scenarioB "id") = Some sample.id
  /\ fst (users.Service.GetUserByID (users.NewService sample.emptyStore)
            (http.Context sample.scenarioB) sample.id sample.world)
     = Err users.ErrUserNotFound
  /\ exists σ',
       http.serve (users.HandleGetUser sample.Marshal (server.userHandler sample.srv))
         sample.scenarioB sample.world
       = (Some (jsonReply sample.Marshal http.newResponse http.StatusNotFound
                  (users.OfError "user not found")), σ').
Proof.
  split; [vm_compute; reflexivity|].
  destruct (GetUserByID_not_found_vs_failure sample.Marshal
              (users.NewService sample.emptyStore) (server.userHandler sample.srv)
              sample.scenarioB sample.id sample.world)
    as (_ & Hnf & _ & H404 & _).
  { vm_compute. reflexivity. }
  split.
  - apply (Hnf errors.PgxErrNoRows); reflexivity.
  - apply (H404 errors.UsersErrUserNotFound
             (recordCall (db.CallGetUserByID
                            {| pgtype.Bytes := sample.id; pgtype.Valid := true |})
                sample.world)).
    + vm_compute. reflexivity.
    + reflexivity.
Defined.

(* --------------------------------------------------------------------- *)
(** *** GET /api/v1/users                                                 *)
(* --------------------------------------------------------------------- *)

(** C4.  Every call of the list operation reaches the store exactly once,
    and the parameters it passes there are bounded by the service: a
    requested limit above 100 is applied as 100, a limit of zero or less
    as 20, a negative offset as 0, so that the applied limit always lies
    in 1..100.  The handler does no clamping of its own: an absent limit
    reaches the service as the default 20, and the store as 20. *)
Theorem ListUsers_bounds_pagination :
  forall (s : users.Service.t) (ctx : context.Context) (limit offset : Z)
         (σ : World),
    (exists arg : db.ListUsersParams,
       storeCalls (snd (users.Service.ListUsers s ctx limit offset σ))
         = storeCalls σ ++ [db.CallListUsers arg]
       /\ (100 < limit -> db.Limit arg = 100)
       /\ (limit <= 0 -> db.Limit arg = 20)
       /\ (offset < 0 -> db.Offset arg = 0)
       /\ 0 < db.Limit arg <= 100)
    /\ (forall (Marshal : users.Payload -> Result error string)
               (lg : slog.Logger) (r : http.Request),
          http.Get (http.URLQuery r) "limit" = "" ->
          queryInt (http.Get (http.URLQuery r) "offset") 0 = Some offset ->
          exists arg : db.ListUsersParams,
            storeCalls
              (snd (http.serve
                      (users.HandleListUsers Marshal
                         (users.NewHandler (users.Service.asInterface s) lg)) r σ))
            = storeCalls σ ++ [db.CallListUsers arg]
            /\ db.Limit arg = 20).
Proof.
  intros s ctx limit offset σ. split.
  - rewrite ListUsers_call. cbn [snd recordCall storeCalls].
    eexists. split; [reflexivity|]. cbn [db.Limit db.Offset].
    unfold appliedLimit, appliedOffset.
    repeat split.
    + intros Hl. destruct (limit <=? 0) eqn:E1; [lia|].
      destruct (100 <? limit) eqn:E2; lia.
    + intros Hl. destruct (limit <=? 0) eqn:E1; lia.
    + intros Ho. destruct (offset <? 0) eqn:E1; [reflexivity | lia].
    + destruct (limit <=? 0) eqn:E1; [lia|].
      destruct (100 <? limit) eqn:E2; lia.
    + destruct (limit <=? 0) eqn:E1; [lia|].
      destruct (100 <? limit) eqn:E2; lia.
  - intros Marshal lg r Hl Ho. rewrite HandleListUsers_serve, Hl, Ho.
    cbn [queryInt String.eqb users.service users.NewHandler
         users.Service.asInterface users.ServiceInterface.ListUsers].
    rewrite ListUsers_call. cbv zeta.
    exists {| db.Limit := 20; db.Offset := appliedOffset offset |}.
    split; [|reflexivity].
    change (appliedLimit 20) with 20.
    destruct (users.Querier.ListUsers _ _); cbn [snd];
      rewrite storeCalls_encodeLog; reflexivity.
Qed.

(** The offset has no upper bound: past the range of [int32] the
    conversion wraps, here to a negative offset at the store. *)
Example ListUsers_offset_wraps :
  storeCalls (snd (users.Service.ListUsers (users.NewService sample.emptyStore)
                     context.Background 20 (2 ^ 31) sample.world))
  = [db.CallListUsers {| db.Limit := 20; db.Offset := - 2 ^ 31 |}].
Proof. reflexivity. Qed.

(** C2, the input on which it fails: scenario C.  The negative offset is
    refused by the handler with a 400, and the store is not called. *)
Example scenarioC_is_refused :
  let res := http.serve (users.HandleListUsers sample.Marshal
                           (server.userHandler sample.srv))
               sample.scenarioC sample.world in
  fst res = Some (jsonReply sample.Marshal http.newResponse http.StatusBadRequest
                    (users.OfError "invalid offset parameter"))
  /\ option_map http.status (fst res) = Some 400
  /\ storeCalls (snd res) = [].
Proof. vm_compute. repeat split; reflexivity. Qed.

(** The echo on a limit above the maximum: the body says 500, the store
    was asked for 100. *)
Example bigLimit_echoes_request :
  let res := http.serve (users.HandleListUsers sample.Marshal
                           (server.userHandler sample.srv))
               sample.bigLimit sample.world in
  fst res = Some (jsonReply sample.Marshal http.newResponse http.StatusOK
                    (users.OfList [] 500 0))
  /\ storeCalls (snd res)
     = [db.CallListUsers {| db.Limit := 100; db.Offset := 0 |}].
Proof. vm_compute. split; reflexivity. Qed.

(** C2 as amended.  A limit or offset that is present and is not a
    non-negative integer is answered 400, without a call to the store
    (so is limit=500 with offset=-5).  Otherwise, when the store answers,
    the response is a 200 whose body encodes the users with the limit and
    the offset as the handler read them from the query (20 and 0 when
    absent), while the store was asked once, for the limit and offset the
    service applies: a limit of 500 is echoed as 500 and applied as
    100. *)
Theorem HandleListUsers_echoes_query_parameters :
  forall (Marshal : users.Payload -> Result error string)
         (s : users.Service.t) (lg : slog.Logger)
         (r : http.Request) (σ : World),
    let h := users.NewHandler (users.Service.asInterface s) lg in
    let limitStr := http.Get (http.URLQuery r) "limit" in
    let offsetStr := http.Get (http.URLQuery r) "offset" in
    (queryInt limitStr 20 = None \/ queryInt offsetStr 0 = None ->
     exists message σ',
       http.serve (users.HandleListUsers Marshal h) r σ
       = (Some (jsonReply Marshal http.newResponse http.StatusBadRequest
                  (users.OfError message)), σ')
       /\ storeCalls σ' = storeCalls σ)
    /\ (forall limit offset rows,
          queryInt limitStr 20 = Some limit ->
          queryInt offsetStr 0 = Some offset ->
          users.Querier.ListUsers (users.Service.queries s)
            {| db.Limit := appliedLimit limit; db.Offset := appliedOffset offset |}
          = Ok rows ->
          exists σ',
            http.serve (users.HandleListUsers Marshal h) r σ
            = (Some (jsonReply Marshal http.newResponse http.StatusOK
                       (users.OfList (map users.toUser rows) limit offset)), σ')
            /\ storeCalls σ'
               = storeCalls σ
                 ++ [db.CallListUsers {| db.Limit := appliedLimit limit;
                                         db.Offset := appliedOffset offset |}])
    /\ queryInt "-5" 0 = None
    /\ queryInt "500" 20 = Some 500
    /\ appliedLimit 500 = 100.
Proof.
  intros Marshal s lg r σ. cbv zeta.
  split; [|split; [|repeat split; reflexivity]].
  - intros Hq. rewrite HandleListUsers_serve.
    destruct (queryInt (http.Get (http.URLQuery r) "limit") 20) as [limit|].
    + destruct Hq as [Hq|Hq]; [discriminate Hq|]. rewrite Hq.
      do 2 eexists. split; [reflexivity | apply storeCalls_encodeLog].
    + do 2 eexists. split; [reflexivity | apply storeCalls_encodeLog].
  - intros limit offset rows Hl Ho Hs. rewrite HandleListUsers_serve, Hl, Ho.
    cbn [users.service users.NewHandler users.Service.asInterface
         users.ServiceInterface.ListUsers].
    rewrite ListUsers_call. cbv zeta. rewrite Hs.
    eexists. split; [reflexivity|].
    rewrite storeCalls_encodeLog. reflexivity.
Qed.

(* --------------------------------------------------------------------- *)
(** *** the middleware chain, stage by stage                              *)
(* --------------------------------------------------------------------- *)

Lemma corsMiddleware_pass (s : server.Server) (next : http.Handler)
    (r : http.Request) (u : http.response) (σ : World) :
  String.eqb (http.Method r) http.MethodOptions = false ->
  server.corsMiddleware s next http.response _ r u σ
  = next http.response _ r (corsHeaders u) σ.
Proof.
  intros Hm. unfold server.corsMiddleware, mbind, http.M_bind, http.setHeader.
  cbn. rewrite Hm. reflexivity.
Qed.

Lemma requestIDMiddleware_run (s : server.Server) (next : http.Handler)
    (r : http.Request) (u : http.response) (σ : World) :
  server.requestIDMiddleware s next http.response _ r u σ
  = next http.response _
      (http.WithContext r
         (context.WithValue (http.Context r) context.RequestIDKey
            (context.OfString (correlationID r σ))))
      (http.response_SetHeader "X-Request-ID" (correlationID r σ) u)
      (afterID r σ).
Proof.
  unfold server.requestIDMiddleware, correlationID, afterID.
  destruct (String.eqb (http.Get (http.Header r) "X-Request-ID") ""); reflexivity.
Qed.

Lemma loggingMiddleware_run (s : server.Server) (next : http.Handler)
    (r : http.Request) (rid : string) (u : http.response) (σ : World) :
  let r1 := http.WithContext r
              (context.WithValue (http.Context r) context.RequestIDKey
                 (context.OfString rid)) in
  server.loggingMiddleware s next http.response _ r1 u σ
  = match next (server.responseWriter http.response) _
            (innerRequest s r rid) (wrap u) σ with
    | (rw, σ2, Return _) =>
        (server.ResponseWriter rw,
         emit (completion (requestLogger s r rid) (server.statusCode rw)
                 (now σ2 - now σ) (server.bytesWritten rw)) σ2, Return tt)
    | (rw, σ2, Panicking v) => (server.ResponseWriter rw, σ2, Panicking v)
    end.
Proof.
  cbv zeta. unfold server.loggingMiddleware, innerRequest, requestLogger, SpanFromContext.
  cbn.
  destruct (config.Enabled _); cbn; [destruct (trace.IsValid _); cbn|];
    try destruct (String.eqb (trace.TraceID _) ""); reflexivity.
Qed.

Lemma recoveryMiddleware_run (s : server.Server) (next : http.Handler)
    (r : http.Request) (rid : string) (rw : server.responseWriter http.response)
    (σ : World) :
  server.recoveryMiddleware s next _ _ (innerRequest s r rid) rw σ
  = match next _ _ (innerRequest s r rid) rw σ with
    | (rw, σ2, Return _) => (rw, σ2, Return tt)
    | (rw, σ2, Panicking v) =>
        http.Error "Internal Server Error" 500 rw
          (emit (panicRecord (requestLogger s r rid) v) σ2)
    end.
Proof.
  unfold server.recoveryMiddleware.
  destruct (next _ _ _ _ _) as [[rw2 σ2] [[]|v]]; reflexivity.
Qed.

Lemma applyMiddleware_run (s : server.Server) f (r : http.Request)
    (u : http.response) (σ : World) :
  String.eqb (http.Method r) http.MethodOptions = false ->
  server.applyMiddleware s (script.handler f) http.response _ r u σ =
  let rid := correlationID r σ in
  let σ1 := afterID r σ in
  let rl := requestLogger s r rid in
  match script.run (f (innerRequest s r rid) σ1) (wrap (greeted rid u)) σ1 with
  | (rw, σ2, Return _) =>
      (server.ResponseWriter rw,
       emit (completion rl (server.statusCode rw) (now σ2 - now σ1)
               (server.bytesWritten rw)) σ2, Return tt)
  | (rw, σ2, Panicking v) =>
      match http.Error "Internal Server Error" 500 rw (emit (panicRecord rl v) σ2) with
      | (rw3, σ3, Return _) =>
          (server.ResponseWriter rw3,
           emit (completion rl (server.statusCode rw3) (now σ3 - now σ1)
                   (server.bytesWritten rw3)) σ3, Return tt)
      | (rw3, σ3, Panicking v') => (server.ResponseWriter rw3, σ3, Panicking v')
      end
  end.
Proof.
  intros Hm. cbv zeta.
  unfold server.applyMiddleware.
  rewrite corsMiddleware_pass by assumption.
  rewrite requestIDMiddleware_run, loggingMiddleware_run, recoveryMiddleware_run.
  unfold script.handler, greeted.
  destruct (script.run _ _ _) as [[rw σ2] [[]|v]]; [reflexivity|].
  destruct (http.Error _ _ _ _) as [[rw3 σ3] [[]|v']]; reflexivity.
Qed.

Section Scripts.
Context {W : Type} `{http.ResponseWriter W}.

Lemma run_cons (a : script.Action) (rest : list script.Action) (w : W) (σ : World) :
  script.run (a :: rest) w σ
  = match script.step a w σ with
    | (w', σ', Return _) => script.run rest w' σ'
    | (w', σ', Panicking v) => (w', σ', Panicking v)
    end.
Proof. reflexivity. Qed.

Lemma step_effect (a : script.Action) (w : W) (σ : World) w1 σ1 o :
  script.step a w σ = (w1, σ1, o) -> σ1 = effect a σ.
Proof.
  destruct a as [k x|code|data|l msg args|c|d|pv]; cbn;
    unfold http.setHeader, http.writeHeader, http.write, http.logWith,
           http.inWorld, http.panic, mbind, http.M_bind; cbn.
  - intros E; inversion E; reflexivity.
  - destruct (http.WriteHeader code w). intros E; inversion E; reflexivity.
  - destruct (http.Write data w). cbn. intros E; inversion E; reflexivity.
  - intros E; inversion E; reflexivity.
  - intros E; inversion E; reflexivity.
  - intros E; inversion E; reflexivity.
  - intros E; inversion E; reflexivity.
Qed.

Lemma effect_logs (a : script.Action) (σ : World) :
  exists es, logs (effect a σ) = logs σ ++ es /\ completions es = []
             /\ slogDefault (effect a σ) = slogDefault σ
             /\ drawn (effect a σ) = drawn σ.
Proof.
  destruct a; cbn; try (exists []; rewrite app_nil_r; auto; fail).
  eexists [_]. auto.
Qed.

(** A behaviour only adds error records to the log, and leaves the
    default logger alone. *)
Lemma run_logs (acts : list script.Action) :
  forall (w : W) (σ : World) w' σ' o,
    script.run acts w σ = (w', σ', o) ->
    exists es, logs σ' = logs σ ++ es /\ completions es = []
               /\ slogDefault σ' = slogDefault σ
               /\ drawn σ' = drawn σ.
Proof.
  induction acts as [|a acts IH]; intros w σ w' σ' o Hrun.
  - inversion Hrun; subst. exists []. rewrite app_nil_r. auto.
  - rewrite run_cons in Hrun.
    destruct (script.step a w σ) as [[w1 σ1] [[]|v]] eqn:Hstep;
      apply step_effect in Hstep; subst σ1;
      destruct (effect_logs a σ) as (e1 & Hl1 & Hc1 & Hd1 & Hn1).
    + apply IH in Hrun as (es & Hl & Hc & Hd & Hn).
      exists (e1 ++ es). rewrite Hl, Hl1, <- app_assoc.
      unfold completions in *.
      rewrite List.filter_app, Hc1, Hc, Hd, Hd1, Hn, Hn1. auto.
    + inversion Hrun; subst; clear Hrun. eauto.
Qed.
End Scripts.

Lemma step_wrapped (a : script.Action) (rw : server.responseWriter http.response)
    (σ : World) rw1 σ1 o :
  script.step a rw σ = (rw1, σ1, o) ->
  match a with
  | script.SetHeader k x =>
      rw1 = server.responseWriter_SetHeader k x rw /\ o = Return tt
  | script.WriteHeader code =>
      server.statusCode rw1 = code
      /\ (server.ResponseWriter rw1, o)
         = http.response_WriteHeader code (server.ResponseWriter rw)
  | script.Write data =>
      server.statusCode rw1 = server.statusCode rw
      /\ server.ResponseWriter rw1
         = fst (http.response_Write data (server.ResponseWriter rw))
      /\ o = Return tt
  | script.Panic v => rw1 = rw /\ o = Panicking v
  | _ => rw1 = rw /\ o = Return tt
  end.
Proof.
  destruct a as [k x|code|data|l msg args|c|d|pv]; cbn;
    unfold http.setHeader, http.writeHeader, http.write, http.logWith,
           http.inWorld, http.panic, mbind, http.M_bind; cbn;
    unfold server.responseWriter_WriteHeader, server.responseWriter_Write;
    cbn; intros E.
  - inversion E; done.
  - destruct (http.response_WriteHeader code _) as [u' o'].
    inversion E; subst; done.
  - destruct (http.response_Write data _) as [u' [n err]]. cbn in E.
    inversion E; subst; done.
  - inversion E; done.
  - inversion E; done.
  - inversion E; done.
  - inversion E; done.
Qed.

Lemma WriteHeader_cases (code : Z) (u u1 : http.response) (o : Outcome unit) :
  (u1, o) = http.response_WriteHeader code u ->
  (http.wroteHeader u = true /\ u1 = u /\ o = Return tt)
  \/ (http.wroteHeader u = false /\ invalidCode code = true /\ u1 = u
      /\ o = Panicking (InvalidWriteHeaderCode code))
  \/ (http.wroteHeader u = false /\ invalidCode code = false
      /\ informational code = true
      /\ http.wroteHeader u1 = false /\ http.status u1 = http.status u
      /\ http.handlerHeader u1 = http.handlerHeader u
      /\ http.sentHeader u1 = http.sentHeader u
      /\ http.body u1 = http.body u /\ o = Return tt)
  \/ (http.wroteHeader u = false /\ invalidCode code = false
      /\ informational code = false
      /\ http.wroteHeader u1 = true /\ http.status u1 = code
      /\ http.handlerHeader u1 = http.handlerHeader u
      /\ http.sentHeader u1 = http.handlerHeader u
      /\ http.body u1 = http.body u /\ o = Return tt).
Proof.
  unfold http.response_WriteHeader, invalidCode, informational.
  destruct (http.wroteHeader u) eqn:Hw.
  { intros E; inversion E; subst. left. done. }
  destruct ((code <? 100) || (999 <? code)) eqn:Hi.
  { intros E; inversion E; subst. right; left. done. }
  destruct ((100 <=? code) && (code <=? 199)
            && negb (code =? http.StatusSwitchingProtocols)) eqn:Hn;
    intros E; inversion E; subst; cbn.
  - right; right; left. done.
  - right; right; right. done.
Qed.

Lemma Write_facts (data : string) (u : http.response) :
  let u1 := fst (http.response_Write data u) in
  http.wroteHeader u1 = true
  /\ http.status u1 = (if http.wroteHeader u then http.status u else http.StatusOK)
  /\ http.handlerHeader u1 = http.handlerHeader u
  /\ http.sentHeader u1
     = (if http.wroteHeader u then http.sentHeader u else http.handlerHeader u).
Proof.
  cbv zeta. unfold http.response_Write, http.response_WriteHeader.
  destruct (http.wroteHeader u) eqn:Hw; cbn;
    destruct (String.eqb data ""); cbn; rewrite ?Hw; try done;
    destruct (http.bodyAllowedForStatus _); cbn; rewrite ?Hw; done.
Qed.

Lemma run_unfolds (acts : list script.Action) :
  forall (rw : server.responseWriter http.response) (σ : World) rw' σ' o,
    script.run acts rw σ = (rw', σ', o) ->
    unfolds (http.wroteHeader (server.ResponseWriter rw)) acts
    = (http.wroteHeader (server.ResponseWriter rw'), raised o)
    /\ (http.wroteHeader (server.ResponseWriter rw') = false ->
        http.body (server.ResponseWriter rw') = http.body (server.ResponseWriter rw)).
Proof.
  induction acts as [|a acts IH]; intros rw σ rw' σ' o Hrun.
  - inversion Hrun; subst. cbn. auto.
  - rewrite run_cons in Hrun.
    destruct (script.step a rw σ) as [[rw1 σ1] o1] eqn:Hstep.
    apply step_wrapped in Hstep.
    destruct a as [k x|code|data|l msg args|c|d|pv]; cbn [unfolds].
    + destruct Hstep as [-> ->]. apply IH in Hrun. exact Hrun.
    + destruct Hstep as [Hc Hw]. fold (invalidCode code).
      apply WriteHeader_cases in Hw
        as [(Hw & Hu & ->)|[(Hw & Hi & Hu & ->)
           |[(Hw & Hi & Hn & Hw1 & _ & _ & _ & Hb & ->)
            |(Hw & Hi & Hn & Hw1 & _ & _ & _ & Hb & ->)]]];
        rewrite Hw, ?Hi, ?Hn.
      * apply IH in Hrun. rewrite Hu, Hw in Hrun. exact Hrun.
      * inversion Hrun; subst. rewrite Hu, Hw. done.
      * apply IH in Hrun. rewrite Hw1, Hb in Hrun. exact Hrun.
      * apply IH in Hrun. rewrite Hw1, Hb in Hrun. exact Hrun.
    + destruct Hstep as (Hc & Hu & ->).
      destruct (Write_facts data (server.ResponseWriter rw)) as (Hw1 & _).
      rewrite <- Hu in Hw1. apply IH in Hrun as [Hr Hb]. rewrite Hw1 in Hr.
      split; [exact Hr|]. intros Hf. rewrite Hf in Hr.
      exfalso. revert Hr. generalize (raised o). clear.
      induction acts as [|[] acts IH]; cbn; intros q Hq;
        try discriminate; eauto.
    + destruct Hstep as [-> ->]. apply IH in Hrun. exact Hrun.
    + destruct Hstep as [-> ->]. apply IH in Hrun. exact Hrun.
    + destruct Hstep as [-> ->]. apply IH in Hrun. exact Hrun.
    + destruct Hstep as [-> ->]. inversion Hrun; subst. done.
Qed.

Lemma finalCode_spec (code : Z) :
  finalCode code = true -> invalidCode code = false /\ informational code = false.
Proof.
  unfold finalCode, invalidCode, informational, http.StatusSwitchingProtocols.
  intros Hf. split; lia.
Qed.

Lemma run_synced (acts : list script.Action) :
  forall (rw : server.responseWriter http.response) (σ : World) rw' σ' o,
    script.run acts rw σ = (rw', σ', o) ->
    disciplined (http.wroteHeader (server.ResponseWriter rw)) acts = true ->
    synced rw ->
    synced rw'
    /\ (forall v, o = Panicking v ->
          http.wroteHeader (server.ResponseWriter rw') = false).
Proof.
  induction acts as [|a acts IH]; intros rw σ rw' σ' o Hrun Hd Hs.
  - inversion Hrun; subst. split; [exact Hs | discriminate].
  - rewrite run_cons in Hrun.
    destruct (script.step a rw σ) as [[rw1 σ1] o1] eqn:Hstep.
    apply step_wrapped in Hstep.
    destruct a as [k x|code|data|l msg args|c|d|pv]; cbn [disciplined] in Hd.
    + destruct Hstep as [-> ->]. eapply IH; eauto.
    + destruct Hstep as [Hc Hw].
      apply andb_true_iff in Hd as [Hd Hd3]. apply andb_true_iff in Hd as [Hd1 Hd2].
      apply negb_true_iff in Hd1. apply finalCode_spec in Hd2 as [Hi Hn].
      apply WriteHeader_cases in Hw
        as [(Hw & _)|[(_ & Hi' & _)
           |[(_ & _ & Hn' & _)
            |(Hw & _ & _ & Hw1 & Hst & _ & _ & _ & ->)]]];
        try congruence.
      eapply IH; eauto.
      * rewrite Hw1. exact Hd3.
      * unfold synced. rewrite Hw1. congruence.
    + destruct Hstep as (Hc & Hu & ->).
      destruct (Write_facts data (server.ResponseWriter rw)) as (Hw1 & Hst & _).
      rewrite <- Hu in Hw1, Hst.
      eapply IH; eauto.
      * rewrite Hw1. exact Hd.
      * unfold synced in *. rewrite Hw1, Hst, Hc.
        destruct (http.wroteHeader (server.ResponseWriter rw)); congruence.
    + destruct Hstep as [-> ->]. eapply IH; eauto.
    + destruct Hstep as [-> ->]. eapply IH; eauto.
    + destruct Hstep as [-> ->]. eapply IH; eauto.
    + destruct Hstep as [-> ->]. inversion Hrun; subst.
      split; [exact Hs|]. intros _ _. now apply negb_true_iff in Hd.
Qed.

Lemma run_pinned (key value : string) (acts : list script.Action) :
  forall (rw : server.responseWriter http.response) (σ : World) rw' σ' o,
    script.run acts rw σ = (rw', σ', o) ->
    setsHeader key acts = false ->
    pinned key value (server.ResponseWriter rw) ->
    pinned key value (server.ResponseWriter rw').
Proof.
  induction acts as [|a acts IH]; intros rw σ rw' σ' o Hrun Hn Hp.
  - inversion Hrun; subst. exact Hp.
  - rewrite run_cons in Hrun.
    destruct (script.step a rw σ) as [[rw1 σ1] o1] eqn:Hstep.
    apply step_wrapped in Hstep.
    cbn [setsHeader existsb] in Hn. apply orb_false_iff in Hn as [Ha Hn].
    fold (setsHeader key acts) in Hn.
    destruct a as [k x|code|data|l msg args|c|d|pv].
    + destruct Hstep as [-> ->]. eapply IH; eauto.
      destruct Hp as [Hh Hs]. split; [|exact Hs]. cbn.
      unfold http.Set_. rewrite lookup_insert_ne; [exact Hh|].
      intros ->. rewrite String.eqb_refl in Ha. discriminate.
    + destruct Hstep as [Hc Hw].
      apply WriteHeader_cases in Hw
        as [(Hw & Hu & ->)|[(Hw & Hi & Hu & ->)
           |[(Hw & Hi & Hn' & Hw1 & _ & Hh & Hs & _ & ->)
            |(Hw & Hi & Hn' & Hw1 & _ & Hh & Hs & _ & ->)]]].
      * eapply IH; eauto. rewrite Hu. exact Hp.
      * inversion Hrun; subst. rewrite Hu. exact Hp.
      * eapply IH; eauto. destruct Hp as [Hph Hps].
        split; [congruence|]. intros E. congruence.
      * eapply IH; eauto. destruct Hp as [Hph Hps].
        split; [congruence|]. intros _. congruence.
    + destruct Hstep as (Hc & Hu & ->).
      destruct (Write_facts data (server.ResponseWriter rw)) as (Hw1 & _ & Hh & Hs).
      rewrite <- Hu in Hw1, Hh, Hs.
      eapply IH; eauto. destruct Hp as [Hph Hps].
      split; [congruence|]. intros _. rewrite Hs.
      destruct (http.wroteHeader (server.ResponseWriter rw)); auto.
    + destruct Hstep as [-> ->]. eapply IH; eauto.
    + destruct Hstep as [-> ->]. eapply IH; eauto.
    + destruct Hstep as [-> ->]. eapply IH; eauto.
    + destruct Hstep as [-> ->]. inversion Hrun; subst. exact Hp.
Qed.

Lemma Error_wrapped_facts (rw : server.responseWriter http.response) (σ : World) :
  exists rw',
    http.Error "Internal Server Error" 500 rw σ = (rw', σ, Return tt)
    /\ server.statusCode rw' = 500
    /\ http.wroteHeader (server.ResponseWriter rw') = true
    /\ (http.wroteHeader (server.ResponseWriter rw) = false ->
        http.status (server.ResponseWriter rw') = 500
        /\ http.body (server.ResponseWriter rw')
           = http.body (server.ResponseWriter rw) +:+ ("Internal Server Error" +:+ nl))
    /\ (http.wroteHeader (server.ResponseWriter rw) = true ->
        http.status (server.ResponseWriter rw') = http.status (server.ResponseWriter rw))
    /\ (forall key value, key <> "Content-Type" -> key <> "X-Content-Type-Options" ->
        pinned key value (server.ResponseWriter rw) ->
        pinned key value (server.ResponseWriter rw')).
Proof.
  destruct rw as [u st n].
  unfold http.Error, mbind, http.M_bind, http.setHeader, http.writeHeader,
         http.write, mret, http.M_ret.
  cbn. unfold server.responseWriter_WriteHeader, server.responseWriter_Write. cbn.
  unfold http.response_WriteHeader, http.response_Write. cbn.
  assert (Hkeep : forall key value (h : gmap string (list string)),
             key <> "Content-Type" -> key <> "X-Content-Type-Options" ->
             h !! key = Some [value] ->
             http.Set_ "X-Content-Type-Options" "nosniff"
               (http.Set_ "Content-Type" "text/plain; charset=utf-8" h) !! key
             = Some [value]).
  { intros key value h H1 H2 Hh. unfold http.Set_.
    rewrite !lookup_insert_ne by done. exact Hh. }
  destruct (http.wroteHeader u) eqn:Hw; cbn; rewrite ?Hw; cbn.
  - destruct (http.bodyAllowedForStatus (http.status u)); cbn;
      (eexists; split; [reflexivity|]); cbn; rewrite ?Hw;
      (split; [reflexivity|]); (split; [reflexivity|]);
      (split; [discriminate|]); (split; [reflexivity|]);
      intros key value H1 H2 [Hh Hs]; (split; [|intros _; auto]); cbn;
      apply Hkeep; assumption.
  - eexists; split; [reflexivity|]. cbn.
    split; [reflexivity|]. split; [reflexivity|].
    split; [intros _; split; reflexivity|]. split; [discriminate|].
    intros key value H1 H2 [Hh Hs]. split; [|intros _]; cbn;
      apply Hkeep; assumption.
Qed.

Lemma String_nonempty (u : uuid.UUID) : uuid.String u <> "".
Proof.
  unfold uuid.String.
  destruct (hex.encode (take 4 u)); cbn; discriminate.
Qed.

Lemma greeted_pinned (rid : string) :
  pinned "X-Request-ID" rid (greeted rid http.newResponse).
Proof. split; [reflexivity | discriminate]. Qed.

(** The chain on a request that is not a pre-flight: the inner handler
    runs once, against the wrapped response, and the response is
    completed. *)
Lemma chain_serve (s : server.Server) (f : http.Request -> World -> list script.Action)
    (r : http.Request) (σ : World) :
  String.eqb (http.Method r) http.MethodOptions = false ->
  let rid := correlationID r σ in
  let σ1 := afterID r σ in
  let rl := requestLogger s r rid in
  exists rw σ2 o u σ',
    script.run (f (innerRequest s r rid) σ1) (wrap (greeted rid http.newResponse)) σ1
      = (rw, σ2, o)
    /\ http.serve (server.applyMiddleware s (script.handler f)) r σ = (Some u, σ')
    /\ match o with
       | Return _ =>
           u = http.finish (server.ResponseWriter rw)
           /\ σ' = emit (completion rl (server.statusCode rw) (now σ2 - now σ1)
                           (server.bytesWritten rw)) σ2
       | Panicking v =>
           exists rw3,
             http.Error "Internal Server Error" 500 rw (emit (panicRecord rl v) σ2)
               = (rw3, emit (panicRecord rl v) σ2, Return tt)
             /\ u = server.ResponseWriter rw3
             /\ σ' = emit (completion rl 500 (now σ2 - now σ1)
                             (server.bytesWritten rw3))
                       (emit (panicRecord rl v) σ2)
       end.
Proof.
  intros Hm. cbv zeta. unfold http.serve.
  rewrite applyMiddleware_run by assumption. cbv zeta.
  destruct (script.run _ _ _) as [[rw σ2] [[]|v]] eqn:Hrun.
  - do 5 eexists. split; [reflexivity|]. split; [reflexivity|]. split; reflexivity.
  - destruct (Error_wrapped_facts rw (emit (panicRecord (requestLogger s r (correlationID r σ)) v) σ2))
      as (rw3 & HE & Hst & Hw & _).
    rewrite HE. do 5 eexists. split; [reflexivity|]. split; [reflexivity|].
    exists rw3. split; [exact HE|]. rewrite Hst.
    split; [|reflexivity]. unfold http.finish. rewrite Hw. reflexivity.
Qed.

Lemma logs_afterID (r : http.Request) (σ : World) : logs (afterID r σ) = logs σ.
Proof. unfold afterID. destruct (String.eqb _ _); reflexivity. Qed.

Lemma synced_finish (rw : server.responseWriter http.response) :
  synced rw -> http.status (http.finish (server.ResponseWriter rw)) = server.statusCode rw.
Proof.
  unfold synced, http.finish, http.response_WriteHeader.
  destruct (http.wroteHeader _) eqn:Hw; [auto|].
  intros ->. reflexivity.
Qed.

(** C1 as amended.  For every request that is not a pre-flight, the
    chain completes the response and the logging stage emits exactly one
    completion record, after everything the inner stages logged.  The
    status it records is the status sent to the client whenever the
    inner handler is disciplined: it sets the status at most once, with a
    final status code (101 or 200 to 999, so not an informational 1xx
    code), before any body data, and does not panic once the response has
    started.  This covers the handler that panics before writing
    anything, where the status is the 500 of the recovery stage. *)
Theorem logging_one_completion_record :
  forall (s : server.Server) (f : http.Request -> World -> list script.Action)
         (r : http.Request) (σ : World),
    String.eqb (http.Method r) http.MethodOptions = false ->
    exists u σ' es st d n,
      http.serve (server.applyMiddleware s (script.handler f)) r σ = (Some u, σ')
      /\ logs σ' = logs σ ++ es
      /\ completions es
         = [completion (requestLogger s r (correlationID r σ)) st d n]
      /\ (disciplined false
            (f (innerRequest s r (correlationID r σ)) (afterID r σ)) = true ->
          st = http.status u).
Proof.
  intros s f r σ Hm.
  destruct (chain_serve s f r σ Hm) as (rw & σ2 & o & u & σ' & Hrun & Hserve & Ho).
  cbv zeta in *.
  destruct (run_logs _ _ _ _ _ _ Hrun) as (es & Hl & Hc & _).
  rewrite logs_afterID in Hl.
  destruct o as [[]|v].
  - destruct Ho as [-> ->].
    do 6 eexists. split; [exact Hserve|]. cbn [logs emit].
    split; [rewrite Hl, <- app_assoc; reflexivity|].
    split.
    + unfold completions in *. rewrite List.filter_app, Hc. reflexivity.
    + intros Hd. symmetry. apply synced_finish.
      eapply run_synced; [exact Hrun | exact Hd | reflexivity].
  - destruct Ho as (rw3 & HE & -> & ->).
    do 6 eexists. split; [exact Hserve|]. cbn [logs emit].
    split; [rewrite Hl, <- !app_assoc; reflexivity|].
    split.
    + unfold completions in *. rewrite List.filter_app, Hc. reflexivity.
    + intros Hd.
      destruct (run_synced _ _ _ _ _ _ Hrun Hd) as [_ Hp]; [reflexivity|].
      specialize (Hp v eq_refl).
      destruct (Error_wrapped_facts rw
                  (emit (panicRecord (requestLogger s r (correlationID r σ)) v) σ2))
        as (rw3' & HE' & _ & _ & H500 & _).
      rewrite HE in HE'. inversion HE'; subst rw3'.
      symmetry. apply H500. exact Hp.
Qed.

Lemma chain_preflight (s : server.Server) (h : http.Handler)
    (r : http.Request) (σ : World) :
  String.eqb (http.Method r) http.MethodOptions = true ->
  http.serve (server.applyMiddleware s h) r σ = (Some preflightReply, σ).
Proof.
  intros Hm. unfold http.serve, server.applyMiddleware, server.corsMiddleware.
  unfold mbind, http.M_bind, http.setHeader. cbn. rewrite Hm. reflexivity.
Qed.

Lemma chain_returns (s : server.Server) (f : http.Request -> World -> list script.Action)
    (r : http.Request) (σ : World) :
  exists u σ', http.serve (server.applyMiddleware s (script.handler f)) r σ = (Some u, σ').
Proof.
  destruct (String.eqb (http.Method r) http.MethodOptions) eqn:Hm.
  - rewrite chain_preflight by assumption. eauto.
  - destruct (chain_serve s f r σ Hm) as (rw & σ2 & o & u & σ' & _ & Hserve & _).
    eauto.
Qed.

(** C5.  Whatever the inner handler does, the chain returns and the
    response is completed: no panic leaves the chain.  When the handler
    panics with a value, the recovery stage logs that value at error
    level through the request logger, and if the response had not
    started it sends status 500 with the body "Internal Server Error".
    Hence every request of a sequence served by one instance gets its
    response, whatever happened to the requests before it. *)
Theorem recovery_contains_panics :
  forall (s : server.Server) (f : http.Request -> World -> list script.Action)
         (r : http.Request) (σ : World),
    (exists u σ',
       http.serve (server.applyMiddleware s (script.handler f)) r σ = (Some u, σ')
       /\ forall started v,
            String.eqb (http.Method r) http.MethodOptions = false ->
            unfolds false (f (innerRequest s r (correlationID r σ)) (afterID r σ))
              = (started, Some v) ->
            In (panicRecord (requestLogger s r (correlationID r σ)) v) (logs σ')
            /\ (started = false ->
                http.status u = http.StatusInternalServerError
                /\ http.body u = "Internal Server Error" +:+ nl))
    /\ (forall rs σ0,
          Forall is_Some
            (fst (http.serveAll (server.applyMiddleware s (script.handler f)) rs σ0))).
Proof.
  intros s f r σ. split.
  - destruct (String.eqb (http.Method r) http.MethodOptions) eqn:Hm.
    { rewrite chain_preflight by assumption. do 2 eexists.
      split; [reflexivity|]. intros started v Hf. discriminate Hf. }
    destruct (chain_serve s f r σ Hm) as (rw & σ2 & o & u & σ' & Hrun & Hserve & Ho).
    cbv zeta in *. exists u, σ'. split; [exact Hserve|].
    intros started v _ Hu.
    destruct (run_unfolds _ _ _ _ _ _ Hrun) as [Hu' Hb].
    cbn [wrap greeted server.ResponseWriter http.wroteHeader http.response_SetHeader
         corsHeaders http.newResponse] in Hu'.
    rewrite Hu in Hu'. injection Hu' as Hs Hr.
    destruct o as [[]|v']; [discriminate Hr|]. cbn in Hr. injection Hr as <-.
    destruct Ho as (rw3 & HE & -> & ->).
    split.
    + cbn [logs emit]. rewrite !in_app_iff. left. right. left. reflexivity.
    + intros Hf. rewrite Hf in Hs. symmetry in Hs.
      destruct (Error_wrapped_facts rw
                  (emit (panicRecord (requestLogger s r (correlationID r σ)) v) σ2))
        as (rw3' & HE' & _ & _ & H500 & _).
      rewrite HE in HE'. inversion HE'; subst rw3'.
      destruct (H500 Hs) as [H1 H2].
      split; [exact H1|]. rewrite H2, (Hb Hs). reflexivity.
  - intros rs. induction rs as [|r0 rs IH]; intros σ0; cbn.
    + constructor.
    + destruct (chain_returns s f r0 σ0) as (u & σ' & Hserve).
      rewrite Hserve. specialize (IH σ').
      destruct (http.serveAll _ rs σ') as [os σ'']. cbn in *.
      constructor; [eauto | exact IH].
Qed.

Lemma drawn_afterID (r : http.Request) (σ : World) :
  drawn (afterID r σ)
  = if String.eqb (http.Get (http.Header r) "X-Request-ID") "" then S (drawn σ)
    else drawn σ.
Proof. unfold afterID. destruct (String.eqb _ _); reflexivity. Qed.

(** The header of a completed response that is not a pre-flight answer,
    for an inner handler that leaves X-Request-ID alone. *)
Lemma chain_request_id (s : server.Server)
    (f : http.Request -> World -> list script.Action) (r : http.Request) (σ : World) :
  String.eqb (http.Method r) http.MethodOptions = false ->
  setsHeader "X-Request-ID"
    (f (innerRequest s r (correlationID r σ)) (afterID r σ)) = false ->
  exists u σ',
    http.serve (server.applyMiddleware s (script.handler f)) r σ = (Some u, σ')
    /\ http.sentHeader u !! "X-Request-ID" = Some [correlationID r σ]
    /\ drawn σ' = drawn (afterID r σ).
Proof.
  intros Hm Hn.
  destruct (chain_serve s f r σ Hm) as (rw & σ2 & o & u & σ' & Hrun & Hserve & Ho).
  cbv zeta in *. exists u, σ'. split; [exact Hserve|].
  pose proof (run_pinned _ _ _ _ _ _ _ _ Hrun Hn (greeted_pinned _)) as [Hh Hs].
  destruct (run_logs _ _ _ _ _ _ Hrun) as (es & _ & _ & _ & Hd).
  split.
  - destruct o as [[]|v].
    + destruct Ho as [-> _]. unfold http.finish, http.response_WriteHeader.
      destruct (http.wroteHeader (server.ResponseWriter rw)) eqn:Hw; [auto|].
      cbn. exact Hh.
    + destruct Ho as (rw3 & HE & -> & _).
      destruct (Error_wrapped_facts rw
                  (emit (panicRecord (requestLogger s r (correlationID r σ)) v) σ2))
        as (rw3' & HE' & _ & Hw & _ & _ & Hk).
      rewrite HE in HE'. inversion HE'; subst rw3'.
      destruct (Hk "X-Request-ID" (correlationID r σ)) as [_ Hs3];
        [discriminate | discriminate | split; assumption |].
      auto.
  - destruct o as [[]|v].
    + destruct Ho as [_ ->]. exact Hd.
    + destruct Ho as (rw3 & _ & _ & ->). exact Hd.
Qed.

(** C6 as amended.  For a request that is not a pre-flight (and an inner
    handler that leaves X-Request-ID alone, as the handlers of the service
    do): when the X-Request-ID request header has a non-empty value, the
    response carries exactly that value and no identifier is generated;
    when it is absent or empty, the response carries the next generated
    identifier, which is not empty. *)
Theorem requestID_round_trip :
  forall (s : server.Server) (f : http.Request -> World -> list script.Action)
         (r : http.Request) (σ : World),
    String.eqb (http.Method r) http.MethodOptions = false ->
    setsHeader "X-Request-ID"
      (f (innerRequest s r (correlationID r σ)) (afterID r σ)) = false ->
    exists u σ',
      http.serve (server.applyMiddleware s (script.handler f)) r σ = (Some u, σ')
      /\ http.sentHeader u !! "X-Request-ID" = Some [correlationID r σ]
      /\ (http.Get (http.Header r) "X-Request-ID" <> "" ->
          correlationID r σ = http.Get (http.Header r) "X-Request-ID"
          /\ drawn σ' = drawn σ)
      /\ (http.Get (http.Header r) "X-Request-ID" = "" ->
          correlationID r σ = uuid.String (entropy σ (drawn σ))
          /\ correlationID r σ <> ""
          /\ drawn σ' = S (drawn σ)).
Proof.
  intros s f r σ Hm Hn.
  destruct (chain_request_id s f r σ Hm Hn) as (u & σ' & Hserve & Hh & Hd).
  exists u, σ'. split; [exact Hserve|]. split; [exact Hh|].
  rewrite Hd, drawn_afterID. unfold correlationID.
  destruct (String.eqb_spec (http.Get (http.Header r) "X-Request-ID") "") as [E|E].
  - split; [intros Hne; contradiction|]. intros _.
    split; [reflexivity|]. split; [apply String_nonempty | reflexivity].
  - split; [intros _; split; reflexivity | intros He; contradiction].
Qed.

(** C7 as amended.  Every request gets a completed response.  The answer
    to an OPTIONS pre-flight is a 204 with no body, the cross-origin
    headers and no X-Request-ID header: the origin-policy stage is the
    outermost one and returns before the identifier is assigned.  Every
    other response carries an X-Request-ID header equal to the
    correlation identifier the inner handler finds in its context
    (for an inner handler that leaves that header alone). *)
Theorem response_carries_request_id :
  forall (s : server.Server) (f : http.Request -> World -> list script.Action)
         (r : http.Request) (σ : World),
    exists u σ',
      http.serve (server.applyMiddleware s (script.handler f)) r σ = (Some u, σ')
      /\ (String.eqb (http.Method r) http.MethodOptions = true ->
          http.status u = http.StatusNoContent
          /\ http.body u = ""
          /\ http.sentHeader u !! "Access-Control-Allow-Origin" = Some ["*"]
          /\ http.sentHeader u !! "X-Request-ID" = None
          /\ σ' = σ)
      /\ (String.eqb (http.Method r) http.MethodOptions = false ->
          setsHeader "X-Request-ID"
            (f (innerRequest s r (correlationID r σ)) (afterID r σ)) = false ->
          http.sentHeader u !! "X-Request-ID" = Some [correlationID r σ]
          /\ context.Value (http.Context (innerRequest s r (correlationID r σ)))
               context.RequestIDKey
             = Some (context.OfString (correlationID r σ))).
Proof.
  intros s f r σ.
  destruct (String.eqb (http.Method r) http.MethodOptions) eqn:Hm.
  - rewrite chain_preflight by assumption. do 2 eexists.
    split; [reflexivity|]. split; [|discriminate].
    intros _. repeat split; reflexivity.
  - destruct (chain_returns s f r σ) as (u & σ' & Hserve).
    exists u, σ'. split; [exact Hserve|]. split; [discriminate|].
    intros _ Hn.
    destruct (chain_request_id s f r σ Hm Hn) as (u1 & σ1 & Hserve1 & Hh & _).
    rewrite Hserve in Hserve1. inversion Hserve1; subst.
    split; [exact Hh | reflexivity].
Qed.

(* --------------------------------------------------------------------- *)
(** *** the routes of the service, as behaviours                          *)
(* --------------------------------------------------------------------- *)

Section OnTheWrapper.
Variable Marshal : users.Payload -> Result error string.

Lemma respondWithJSON_script (h : users.Handler) (code : Z) (payload : users.Payload)
    (rw : server.responseWriter http.response) (σ : World) :
  http.wroteHeader (server.ResponseWriter rw) = false ->
  finalCode code = true ->
  http.bodyAllowedForStatus code = true ->
  users.respondWithJSON Marshal h code payload rw σ
  = script.run (jsonScript Marshal (users.logger h) code payload) rw σ.
Proof.
  intros Hw Hc Hb. destruct rw as [u st n]. cbn in Hw.
  destruct (finalCode_spec code Hc) as [Hi Hn].
  unfold invalidCode in Hi. unfold informational in Hn.
  unfold users.respondWithJSON, jsonScript.
  destruct (Marshal payload) as [text|err]; cbn [app script.run script.step];
    unfold mbind, http.M_bind, http.setHeader, http.writeHeader, http.write,
           http.logWith, mret, http.M_ret;
    cbn; unfold server.responseWriter_WriteHeader, server.responseWriter_Write;
    cbn; unfold http.response_WriteHeader; cbn; rewrite Hw, Hi, Hn; cbn.
  - unfold http.response_Write. cbn.
    destruct (String.eqb (text +:+ nl) ""); [reflexivity|].
    rewrite Hb. reflexivity.
  - reflexivity.
Qed.

Ltac respond_script :=
  unfold users.respondWithError;
  rewrite respondWithJSON_script by (assumption || reflexivity).

Lemma HandleGetUser_script (s : users.Service.t) (lg : slog.Logger)
    (r : http.Request) (rw : server.responseWriter http.response) (σ : World) :
  http.wroteHeader (server.ResponseWriter rw) = false ->
  users.HandleGetUser Marshal (users.NewHandler (users.Service.asInterface s) lg)
    _ _ r rw σ
  = script.run (getUserScript Marshal s lg r) rw σ.
Proof.
  intros Hw. unfold users.HandleGetUser, getUserScript.
  destruct (String.eqb (http.PathValue r "id") ""); [respond_script; reflexivity|].
  destruct (uuid.Parse (http.PathValue r "id")) as [userID|] eqn:Hp;
    [|respond_script; reflexivity].
  unfold mbind, http.M_bind, users.call.
  cbn [users.service users.NewHandler users.Service.asInterface
       users.ServiceInterface.GetUserByID].
  rewrite GetUserByID_call by (eapply Parse_length; eassumption). cbv zeta.
  rewrite run_cons. cbn [script.step]. unfold http.inWorld.
  destruct (users.Querier.GetUserByID _ _) as [dbUser|err].
  { unfold http.StatusOK. rewrite respondWithJSON_script by (assumption || reflexivity).
    reflexivity. }
  destruct (errors.Is err errors.PgxErrNoRows); cbn [orb].
  { cbn [errors.Is errors.error_eqb users.ErrUserNotFound orb].
    respond_script. reflexivity. }
  destruct (errors.Is err users.ErrUserNotFound); [respond_script; reflexivity|].
  rewrite run_cons. cbn [script.step]. unfold http.logWith. cbn [logVia].
  respond_script. reflexivity.
Qed.

Lemma HandleListUsers_script (s : users.Service.t) (lg : slog.Logger)
    (r : http.Request) (rw : server.responseWriter http.response) (σ : World) :
  http.wroteHeader (server.ResponseWriter rw) = false ->
  users.HandleListUsers Marshal (users.NewHandler (users.Service.asInterface s) lg)
    _ _ r rw σ
  = script.run (listUsersScript Marshal s lg r) rw σ.
Proof.
  intros Hw. unfold users.HandleListUsers, listUsersScript, queryInt.
  repeat first
    [ match goal with
      | |- context [match strconv.Atoi ?s with _ => _ end] =>
          destruct (strconv.Atoi s)
      end
    | match goal with
      | |- context [if String.eqb ?a ?b then _ else _] => destruct (String.eqb a b)
      end
    | match goal with
      | |- context [if ?a <? 0 then _ else _] => destruct (a <? 0)
      end ];
    try (respond_script; reflexivity);
    (unfold mbind, http.M_bind, users.call;
     cbn [users.service users.NewHandler users.Service.asInterface
          users.ServiceInterface.ListUsers];
     rewrite ListUsers_call; cbv zeta;
     rewrite run_cons; cbn [script.step]; unfold http.inWorld;
     destruct (users.Querier.ListUsers _ _) as [rows|err];
     [ unfold http.StatusOK;
       rewrite respondWithJSON_script by (assumption || reflexivity); reflexivity
     | rewrite run_cons; cbn [script.step]; unfold http.logWith; cbn [logVia];
       respond_script; reflexivity ]).
Qed.

End OnTheWrapper.


Section RoutesAsBehaviours.
Variable Marshal : users.Payload -> Result error string.

Lemma jsonScript_disciplined (lg : slog.Logger) (code : Z) (payload : users.Payload) :
  finalCode code = true ->
  disciplined false (jsonScript Marshal lg code payload) = true
  /\ setsHeader "X-Request-ID" (jsonScript Marshal lg code payload) = false.
Proof.
  intros Hc. unfold jsonScript.
  destruct (Marshal payload); cbn; rewrite Hc; split; reflexivity.
Qed.

Lemma getUserScript_disciplined (s : users.Service.t) (lg : slog.Logger)
    (r : http.Request) :
  disciplined false (getUserScript Marshal s lg r) = true
  /\ setsHeader "X-Request-ID" (getUserScript Marshal s lg r) = false.
Proof.
  unfold getUserScript.
  repeat first
    [ apply jsonScript_disciplined; reflexivity
    | match goal with
      | |- context [if ?b then _ else _] => destruct b
      | |- context [match uuid.Parse ?x with _ => _ end] => destruct (uuid.Parse x)
      | |- context [match users.Querier.GetUserByID ?q ?x with _ => _ end] =>
          destruct (users.Querier.GetUserByID q x)
      end
    | progress cbn [disciplined setsHeader existsb orb] ].
Qed.

Lemma listUsersScript_disciplined (s : users.Service.t) (lg : slog.Logger)
    (r : http.Request) :
  disciplined false (listUsersScript Marshal s lg r) = true
  /\ setsHeader "X-Request-ID" (listUsersScript Marshal s lg r) = false.
Proof.
  unfold listUsersScript.
  repeat first
    [ apply jsonScript_disciplined; reflexivity
    | match goal with
      | |- context [match queryInt ?x ?d with _ => _ end] => destruct (queryInt x d)
      | |- context [match users.Querier.ListUsers ?q ?x with _ => _ end] =>
          destruct (users.Querier.ListUsers q x)
      end
    | progress cbn [disciplined setsHeader existsb orb] ].
Qed.

(** A handler that does on the wrapped response what a behaviour says is
    served by the chain as that behaviour is. *)
Lemma chain_agrees (srv : server.Server) (h : http.Handler)
    (f : http.Request -> World -> list script.Action) (r : http.Request) (σ : World) :
  (forall r' rw σ', http.wroteHeader (server.ResponseWriter rw) = false ->
                    h _ _ r' rw σ' = script.run (f r' σ') rw σ') ->
  http.serve (server.applyMiddleware srv h) r σ
  = http.serve (server.applyMiddleware srv (script.handler f)) r σ.
Proof.
  intros Hag.
  destruct (String.eqb (http.Method r) http.MethodOptions) eqn:Hm.
  { rewrite !chain_preflight by assumption. reflexivity. }
  unfold http.serve, server.applyMiddleware.
  rewrite !corsMiddleware_pass by assumption.
  rewrite !requestIDMiddleware_run, !loggingMiddleware_run, !recoveryMiddleware_run.
  rewrite Hag by reflexivity. reflexivity.
Qed.

Lemma handleHealthCheck_script (s : server.Server) {W : Type}
    `{http.ResponseWriter W} (r : http.Request) (w : W) (σ : World) :
  server.handleHealthCheck s W _ r w σ = script.run (healthScript s) w σ.
Proof.
  unfold server.handleHealthCheck, healthScript.
  cbn [script.run script.step].
  unfold mbind, http.M_bind, http.setHeader, http.writeHeader, http.write,
         mret, http.M_ret.
  destruct (http.WriteHeader http.StatusOK _) as [w1 [[]|v]]; [|reflexivity].
  destruct (http.Write _ w1) as [w2 res]. reflexivity.
Qed.

(** The routes of the service are disciplined behaviours that leave
    X-Request-ID alone, so the properties of the chain stated for such
    behaviours hold for them. *)
Theorem routes_are_disciplined :
  forall (srv : server.Server) (s : users.Service.t) (lg : slog.Logger)
         (r : http.Request) (σ : World),
    let h := users.NewHandler (users.Service.asInterface s) lg in
    http.serve (server.applyMiddleware srv (server.handleHealthCheck srv)) r σ
    = http.serve (server.applyMiddleware srv
                    (script.handler (fun _ _ => healthScript srv))) r σ
    /\ disciplined false (healthScript srv) = true
    /\ setsHeader "X-Request-ID" (healthScript srv) = false
    /\ http.serve (server.applyMiddleware srv (users.HandleGetUser Marshal h)) r σ
    = http.serve (server.applyMiddleware srv
                    (script.handler (fun r' _ => getUserScript Marshal s lg r'))) r σ
    /\ http.serve (server.applyMiddleware srv (users.HandleListUsers Marshal h)) r σ
       = http.serve (server.applyMiddleware srv
                       (script.handler (fun r' _ => listUsersScript Marshal s lg r'))) r σ
    /\ (forall r', disciplined false (getUserScript Marshal s lg r') = true
                   /\ setsHeader "X-Request-ID" (getUserScript Marshal s lg r') = false)
    /\ (forall r', disciplined false (listUsersScript Marshal s lg r') = true
                   /\ setsHeader "X-Request-ID" (listUsersScript Marshal s lg r') = false).
Proof.
  intros srv s lg r σ. cbv zeta. repeat split.
  - apply chain_agrees. intros r' rw σ' Hw. apply handleHealthCheck_script.
  - apply chain_agrees. intros r' rw σ' Hw. now apply HandleGetUser_script.
  - apply chain_agrees. intros r' rw σ' Hw. now apply HandleListUsers_script.
  - apply getUserScript_disciplined.
  - apply getUserScript_disciplined.
  - apply listUsersScript_disciplined.
  - apply listUsersScript_disciplined.
Qed.

End RoutesAsBehaviours.

(* --------------------------------------------------------------------- *)
(** *** the chain on concrete requests                                    *)
(* --------------------------------------------------------------------- *)

(** C1, the input on which it fails: an OPTIONS request goes through the
    chain, is answered by the origin-policy stage, and no completion
    record is written for it. *)
Example preflight_leaves_no_completion_record :
  let res := http.serve (server.applyMiddleware sample.srv
                           (script.handler sample.hello))
               sample.preflight sample.world in
  option_map http.status (fst res) = Some 204
  /\ logs (snd res) = logs sample.world
  /\ completions (logs (snd res)) = [].
Proof.
  cbv zeta. rewrite chain_preflight by reflexivity.
  repeat split; reflexivity.
Qed.

(** C1 as amended, on GET /health with a handler that answers 200. *)
Lemma logging_one_completion_record_hello :
  String.eqb (http.Method sample.withID) http.MethodOptions = false
  /\ exists u σ' es st d n,
       http.serve (server.applyMiddleware sample.srv (script.handler sample.hello))
         sample.withID sample.world = (Some u, σ')
       /\ logs σ' = logs sample.world ++ es
       /\ completions es
          = [completion (requestLogger sample.srv sample.withID
                           (correlationID sample.withID sample.world)) st d n]
       /\ (disciplined false
             (sample.hello
                (innerRequest sample.srv sample.withID
                   (correlationID sample.withID sample.world))
                (afterID sample.withID sample.world)) = true ->
           st = http.status u).
Proof.
  split; [reflexivity|].
  apply (logging_one_completion_record sample.srv sample.hello sample.withID
           sample.world).
  reflexivity.
Defined.

(** The status the amended C1 leaves out: a handler that panics after it
    has sent a 200 leaves a completion record with status 500, while the
    client has received the 200. *)
Example late_panic_logs_another_status :
  let res := http.serve (server.applyMiddleware sample.srv
                           (script.handler sample.lateCrash))
               sample.withID sample.world in
  option_map http.status (fst res) = Some 200
  /\ completions (logs (snd res))
     = [completion (requestLogger sample.srv sample.withID "abc") 500 0 29].
Proof. vm_compute. split; reflexivity. Qed.

(** C5 on a handler that panics at once, followed by a second request. *)
Example crash_then_next_request :
  let h := server.applyMiddleware sample.srv (script.handler sample.crash) in
  let res := http.serveAll h [sample.withID; sample.withID] sample.world in
  map (option_map http.status) (fst res) = [Some 500; Some 500]
  /\ map (option_map http.body) (fst res)
     = [Some ("Internal Server Error" +:+ nl); Some ("Internal Server Error" +:+ nl)]
  /\ In (panicRecord (requestLogger sample.srv sample.withID "abc")
           (PanicString "boom")) (logs (snd res)).
Proof. vm_compute. repeat split; auto. Qed.

(** C6, the inputs on which it fails: a pre-flight request that carries
    an identifier gets no X-Request-ID header back, and a request whose
    X-Request-ID header is present but empty gets a generated identifier
    instead of its own value. *)
Example request_id_not_echoed :
  http.Header sample.preflight !! "X-Request-ID" = Some ["abc"]
  /\ option_map (fun u => http.sentHeader u !! "X-Request-ID")
       (fst (http.serve (server.applyMiddleware sample.srv
                           (script.handler sample.hello))
               sample.preflight sample.world))
     = Some None
  /\ http.Header sample.emptyID !! "X-Request-ID" = Some [""]
  /\ option_map (fun u => http.sentHeader u !! "X-Request-ID")
       (fst (http.serve (server.applyMiddleware sample.srv
                           (script.handler sample.hello))
               sample.emptyID sample.world))
     = Some (Some ["00000000-0000-0000-0000-000000000000"]).
Proof. vm_compute. repeat split; reflexivity. Qed.

(** C6 as amended, on GET /health with the identifier abc. *)
Lemma requestID_round_trip_abc :
  String.eqb (http.Method sample.withID) http.MethodOptions = false
  /\ setsHeader "X-Request-ID"
       (sample.hello
          (innerRequest sample.srv sample.withID
             (correlationID sample.withID sample.world))
          (afterID sample.withID sample.world)) = false
  /\ exists u σ',
       http.serve (server.applyMiddleware sample.srv (script.handler sample.hello))
         sample.withID sample.world = (Some u, σ')
       /\ http.sentHeader u !! "X-Request-ID" = Some ["abc"].
Proof.
  split; [reflexivity|]. split; [reflexivity|].
  destruct (requestID_round_trip sample.srv sample.hello sample.withID sample.world
              eq_refl eq_refl) as (u & σ' & Hserve & Hh & _).
  exists u, σ'. split; [exact Hserve | exact Hh].
Defined.

(** C7, the input on which it fails: the 204 answer to a pre-flight
    request carries the cross-origin headers and no X-Request-ID. *)
Example preflight_has_no_request_id :
  option_map (fun u => (http.status u, http.sentHeader u !! "X-Request-ID"))
    (fst (http.serve (server.applyMiddleware sample.srv
                        (script.handler sample.hello))
            sample.preflightBare sample.world))
  = Some (204, None).
Proof. vm_compute. reflexivity. Qed.

(** Scenario B through the whole chain, on the store without users: a
    404 that carries the identifier, and one completion record with
    that status. *)
Example scenarioB_through_the_chain :
  let h := users.HandleGetUser sample.Marshal (server.userHandler sample.srv) in
  let res := http.serve (server.applyMiddleware sample.srv h)
               sample.scenarioB sample.world in
  option_map http.status (fst res) = Some 404
  /\ option_map (fun u => http.sentHeader u !! "X-Request-ID") (fst res)
     = Some (Some ["00000000-0000-0000-0000-000000000000"])
  /\ map (fun e => slog.attrs e !! 4%nat) (completions (logs (snd res)))
     = [Some ("status", slog.IntValue 404)]
  /\ storeCalls (snd res)
     = [db.CallGetUserByID {| pgtype.Bytes := sample.id; pgtype.Valid := true |}].
Proof. vm_compute. repeat split; reflexivity. Qed.

(** A store that fails otherwise: a 500 with the fixed message, the
    cause only in the log. *)
Example broken_store_is_internal :
  let h := users.NewHandler
             (users.Service.asInterface (users.NewService sample.brokenStore))
             sample.base in
  let res := http.serve (users.HandleGetUser sample.Marshal h)
               sample.scenarioB sample.world in
  fst res = Some (jsonReply sample.Marshal http.newResponse
                    http.StatusInternalServerError
                    (users.OfError "internal server error"))
  /\ logs (snd res)
     = [slog.entry sample.base slog.LevelError "failed to get user"
          [("error", slog.ErrorValue (errors.Other "connection refused"));
           ("user_id", slog.BytesValue sample.id)]].
Proof. vm_compute. split; reflexivity. Qed.

(* ===================================================================== *)
(** ** Further properties of the chain, the handlers, the process and the
       configuration                                                      *)
(* ===================================================================== *)

Lemma length_append (a b : string) :
  String.length (a +:+ b) = (String.length a + String.length b)%nat.
Proof.
  induction a as [|c a IH]; [reflexivity|].
  change (String c a +:+ b) with (String c (a +:+ b)).
  cbn [String.length]. rewrite IH. reflexivity.
Qed.

Lemma Write_length (data : string) (u : http.response) :
  Z.of_nat (String.length (http.body (fst (http.response_Write data u))))
  = Z.of_nat (String.length (http.body u)) + fst (snd (http.response_Write data u)).
Proof.
  unfold http.response_Write, http.response_WriteHeader.
  destruct (http.wroteHeader u) eqn:Hw; cbn;
    destruct (String.eqb data ""); cbn; try lia;
    try destruct (http.bodyAllowedForStatus (http.status u)); cbn;
    rewrite ?length_append; lia.
Qed.

Lemma step_inner (a : script.Action) (rw : server.responseWriter http.response)
    (σ : World) rw1 σ1 o :
  script.step a rw σ = (rw1, σ1, o) ->
  script.step a (server.ResponseWriter rw) σ = (server.ResponseWriter rw1, σ1, o)
  /\ server.bytesWritten rw1 - server.bytesWritten rw
     = Z.of_nat (String.length (http.body (server.ResponseWriter rw1)))
       - Z.of_nat (String.length (http.body (server.ResponseWriter rw))).
Proof.
  destruct a as [k x|code|data|l msg args|c|d|pv]; cbn;
    unfold http.setHeader, http.writeHeader, http.write, http.logWith,
           http.inWorld, http.panic, mbind, http.M_bind; cbn;
    unfold server.responseWriter_WriteHeader, server.responseWriter_Write;
    cbn; intros E.
  - inversion E; subst; cbn. split; [reflexivity | lia].
  - destruct (http.response_WriteHeader code _) as [u' o'] eqn:Hw.
    inversion E; subst; cbn. split; [reflexivity|].
    symmetry in Hw. apply WriteHeader_cases in Hw
      as [(_ & -> & _)|[(_ & _ & -> & _)
         |[(_ & _ & _ & _ & _ & _ & _ & -> & _)
          |(_ & _ & _ & _ & _ & _ & _ & -> & _)]]]; lia.
  - pose proof (Write_length data (server.ResponseWriter rw)) as Hl.
    destruct (http.response_Write data _) as [u' [n err]]. cbn in E, Hl.
    inversion E; subst; cbn. split; [reflexivity | lia].
  - inversion E; subst; cbn. split; [reflexivity | lia].
  - inversion E; subst; cbn. split; [reflexivity | lia].
  - inversion E; subst; cbn. split; [reflexivity | lia].
  - inversion E; subst; cbn. split; [reflexivity | lia].
Qed.

Lemma run_inner (acts : list script.Action) :
  forall (rw : server.responseWriter http.response) (σ : World) rw' σ' o,
    script.run acts rw σ = (rw', σ', o) ->
    script.run acts (server.ResponseWriter rw) σ = (server.ResponseWriter rw', σ', o)
    /\ server.bytesWritten rw' - server.bytesWritten rw
       = Z.of_nat (String.length (http.body (server.ResponseWriter rw')))
         - Z.of_nat (String.length (http.body (server.ResponseWriter rw))).
Proof.
  induction acts as [|a acts IH]; intros rw σ rw' σ' o Hrun.
  - inversion Hrun; subst. split; [reflexivity | lia].
  - rewrite run_cons in Hrun. rewrite run_cons.
    destruct (script.step a rw σ) as [[rw1 σ1] [[]|v]] eqn:Hstep;
      apply step_inner in Hstep as [Hs Hb]; rewrite Hs.
    + apply IH in Hrun as [Hr Hb']. split; [exact Hr | lia].
    + inversion Hrun; subst. split; [reflexivity | exact Hb].
Qed.

Lemma Error_script {W : Type} `{http.ResponseWriter W} (err : string) (code : Z)
    (w : W) (σ : World) :
  http.Error err code w σ
  = script.run [script.SetHeader "Content-Type" "text/plain; charset=utf-8";
                script.SetHeader "X-Content-Type-Options" "nosniff";
                script.WriteHeader code; script.Write (err +:+ nl)] w σ.
Proof.
  unfold http.Error. cbn.
  unfold mbind, http.M_bind, http.setHeader, http.writeHeader, http.write,
         mret, http.M_ret.
  destruct (http.WriteHeader code _) as [w1 [[]|v]]; [|reflexivity].
  destruct (http.Write _ _) as [w2 [n e]]. reflexivity.
Qed.

Lemma now_afterID (r : http.Request) (σ : World) : now (afterID r σ) = now σ.
Proof. unfold afterID. destruct (String.eqb _ _); reflexivity. Qed.

Lemma storeCalls_afterID (r : http.Request) (σ : World) :
  storeCalls (afterID r σ) = storeCalls σ.
Proof. unfold afterID. destruct (String.eqb _ _); reflexivity. Qed.

Lemma body_finish (u : http.response) : http.body (http.finish u) = http.body u.
Proof.
  unfold http.finish, http.response_WriteHeader.
  destruct (http.wroteHeader u); reflexivity.
Qed.

(** The chain on a request that is not a pre-flight, in full: the inner
    handler runs against the response that carries the headers of the
    outer stages; what it leaves is finished, or completed by the recovery
    stage; the logging stage adds one completion record. *)
Lemma chain_facts (s : server.Server) (f : http.Request -> World -> list script.Action)
    (r : http.Request) (σ : World) :
  String.eqb (http.Method r) http.MethodOptions = false ->
  let rid := correlationID r σ in
  let σ1 := afterID r σ in
  let rl := requestLogger s r rid in
  exists rw σ2 o u σ' es,
    script.run (f (innerRequest s r rid) σ1) (wrap (greeted rid http.newResponse)) σ1
      = (rw, σ2, o)
    /\ script.run (f (innerRequest s r rid) σ1) (greeted rid http.newResponse) σ1
      = (server.ResponseWriter rw, σ2, o)
    /\ http.serve (server.applyMiddleware s (script.handler f)) r σ = (Some u, σ')
    /\ logs σ' = logs σ ++ es
    /\ completions es
       = [completion rl (match o with Return _ => server.statusCode rw | _ => 500 end)
            (now σ' - now σ) (Z.of_nat (String.length (http.body u)))]
    /\ match o with
       | Return _ =>
           u = http.finish (server.ResponseWriter rw)
           /\ σ' = emit (completion rl (server.statusCode rw) (now σ' - now σ)
                           (Z.of_nat (String.length (http.body u)))) σ2
       | Panicking v =>
           u = fst (fst (http.Error "Internal Server Error" 500
                           (server.ResponseWriter rw) (emit (panicRecord rl v) σ2)))
           /\ σ' = emit (completion rl 500 (now σ' - now σ)
                           (Z.of_nat (String.length (http.body u))))
                     (emit (panicRecord rl v) σ2)
       end.
Proof.
  intros Hm.
  destruct (chain_serve s f r σ Hm) as (rw & σ2 & o & u & σ' & Hrun & Hserve & Ho).
  cbv zeta in *.
  destruct (run_logs _ _ _ _ _ _ Hrun) as (es & Hl & Hc & _).
  destruct (run_inner _ _ _ _ _ _ Hrun) as [Hin Hb].
  rewrite logs_afterID in Hl.
  change (server.ResponseWriter (wrap (greeted (correlationID r σ) http.newResponse)))
    with (greeted (correlationID r σ) http.newResponse) in Hin, Hb.
  change (server.bytesWritten (wrap (greeted (correlationID r σ) http.newResponse)))
    with 0 in Hb.
  change (http.body (greeted (correlationID r σ) http.newResponse)) with "" in Hb.
  cbn [String.length] in Hb.
  exists rw, σ2, o, u, σ'.
  destruct o as [[]|v].
  - destruct Ho as [Hu Hσ].
    assert (Hn : server.bytesWritten rw = Z.of_nat (String.length (http.body u)))
      by (rewrite Hu, body_finish; lia).
    assert (Ht : now σ2 - now (afterID r σ) = now σ' - now σ)
      by (rewrite Hσ, now_afterID; reflexivity).
    rewrite Hn, Ht in Hσ.
    eexists. split; [exact Hrun|]. split; [exact Hin|]. split; [exact Hserve|].
    split; [rewrite Hσ at 1; cbn [logs emit]; rewrite Hl, <- app_assoc; reflexivity|].
    split; [|split; assumption].
    unfold completions in *. rewrite List.filter_app, Hc. reflexivity.
  - destruct Ho as (rw3 & HE & Hu & Hσ).
    rewrite Error_script in HE.
    destruct (run_inner _ _ _ _ _ _ HE) as [HEin HEb].
    rewrite <- Error_script in HEin.
    assert (Hn : server.bytesWritten rw3 = Z.of_nat (String.length (http.body u)))
      by (rewrite Hu; lia).
    assert (Ht : now σ2 - now (afterID r σ) = now σ' - now σ)
      by (rewrite Hσ, now_afterID; reflexivity).
    rewrite Hn, Ht in Hσ.
    eexists. split; [exact Hrun|]. split; [exact Hin|]. split; [exact Hserve|].
    split; [rewrite Hσ at 1; cbn [logs emit]; rewrite Hl, <- !app_assoc; reflexivity|].
    split; [|split; [rewrite HEin; exact Hu | exact Hσ]].
    unfold completions in *. rewrite List.filter_app, Hc. reflexivity.
Qed.

Lemma chain_keeps_header (s : server.Server)
    (f : http.Request -> World -> list script.Action) (r : http.Request) (σ : World)
    (key value : string) :
  String.eqb (http.Method r) http.MethodOptions = false ->
  setsHeader key (f (innerRequest s r (correlationID r σ)) (afterID r σ)) = false ->
  key <> "Content-Type" -> key <> "X-Content-Type-Options" ->
  pinned key value (greeted (correlationID r σ) http.newResponse) ->
  exists u σ',
    http.serve (server.applyMiddleware s (script.handler f)) r σ = (Some u, σ')
    /\ http.sentHeader u !! key = Some [value].
Proof.
  intros Hm Hn Hk1 Hk2 Hp.
  destruct (chain_serve s f r σ Hm) as (rw & σ2 & o & u & σ' & Hrun & Hserve & Ho).
  cbv zeta in *. exists u, σ'. split; [exact Hserve|].
  pose proof (run_pinned _ _ _ _ _ _ _ _ Hrun Hn Hp) as [Hh Hs].
  destruct o as [[]|v].
  - destruct Ho as [-> _]. unfold http.finish, http.response_WriteHeader.
    destruct (http.wroteHeader (server.ResponseWriter rw)) eqn:Hw; [auto|].
    cbn. exact Hh.
  - destruct Ho as (rw3 & HE & -> & _).
    destruct (Error_wrapped_facts rw
                (emit (panicRecord (requestLogger s r (correlationID r σ)) v) σ2))
      as (rw3' & HE' & _ & Hw & _ & _ & Hk).
    rewrite HE in HE'. inversion HE'; subst rw3'.
    destruct (Hk key value) as [_ Hs3]; [assumption | assumption | split; assumption |].
    auto.
Qed.

Lemma Error_started (u : http.response) (σ : World) :
  http.wroteHeader u = true ->
  let u' := fst (fst (http.Error "Internal Server Error" 500 u σ)) in
  http.wroteHeader u' = true
  /\ http.status u' = http.status u
  /\ http.sentHeader u' = http.sentHeader u
  /\ http.body u'
     = http.body u +:+ (if http.bodyAllowedForStatus (http.status u)
                        then "Internal Server Error" +:+ nl else "").
Proof.
  intros Hw. cbv zeta.
  unfold http.Error, mbind, http.M_bind, http.setHeader, http.writeHeader,
         http.write, mret, http.M_ret.
  cbn. unfold http.response_WriteHeader, http.response_Write. cbn.
  rewrite Hw. cbn. rewrite Hw. cbn.
  destruct (http.bodyAllowedForStatus (http.status u)); cbn;
    rewrite ?append_empty_r; done.
Qed.

(** X1.  The chain hands the handler's response on unaltered.  For a request
    that is not a pre-flight and a handler that returns (a handler being
    what a behaviour describes: it sets headers, writes the status, writes
    data, logs, queries the store): the client gets exactly what the
    handler produces when it runs directly on a response carrying the CORS
    and X-Request-ID headers, in the world where the correlation
    identifier has been assigned; and the world afterwards is the
    handler's plus one completion record. *)
Theorem chain_passes_response_through :
  forall (s : server.Server) (f : http.Request -> World -> list script.Action)
         (r : http.Request) (σ : World) (u0 : http.response) (σ2 : World),
    String.eqb (http.Method r) http.MethodOptions = false ->
    script.run (f (innerRequest s r (correlationID r σ)) (afterID r σ))
      (greeted (correlationID r σ) http.newResponse) (afterID r σ)
    = (u0, σ2, Return tt) ->
    exists st d n,
      http.serve (server.applyMiddleware s (script.handler f)) r σ
      = (Some (http.finish u0),
         emit (completion (requestLogger s r (correlationID r σ)) st d n) σ2).
Proof.
  intros s f r σ u0 σ2 Hm Hdirect.
  destruct (chain_facts s f r σ Hm)
    as (rw & σ2' & o & u & σ' & es & _ & Hin & Hserve & _ & _ & Ho).
  cbv zeta in *. rewrite Hdirect in Hin.
  injection Hin as Hu Hσ Hout. subst u0 σ2' o.
  destruct Ho as [-> Hσ']. do 3 eexists. rewrite Hserve, Hσ' at 1. reflexivity.
Qed.

Lemma chain_passes_response_through_hello :
  String.eqb (http.Method sample.withID) http.MethodOptions = false
  /\ script.run (sample.hello sample.withID sample.world)
       (greeted "abc" http.newResponse) sample.world
     = (cases.helloReply, sample.world, Return tt)
  /\ exists st d n,
       http.serve (server.applyMiddleware sample.srv (script.handler sample.hello))
         sample.withID sample.world
       = (Some (http.finish cases.helloReply),
          emit (completion (requestLogger sample.srv sample.withID "abc") st d n)
            sample.world).
Proof.
  split; [reflexivity|]. split; [reflexivity|].
  exact (chain_passes_response_through sample.srv sample.hello sample.withID
           sample.world cases.helloReply sample.world eq_refl eq_refl).
Defined.

(** X2.  The measurements of the completion record are those of the response:
    its byte count is the length of the body written to the response, the
    plain-text body of the recovery stage included (net/http is modelled
    without the special case of a HEAD request, whose body is counted but
    not sent), and its duration is the time that passed while the request
    was served. *)
Theorem completion_record_measures_response :
  forall (s : server.Server) (f : http.Request -> World -> list script.Action)
         (r : http.Request) (σ : World),
    String.eqb (http.Method r) http.MethodOptions = false ->
    exists u σ' es st,
      http.serve (server.applyMiddleware s (script.handler f)) r σ = (Some u, σ')
      /\ logs σ' = logs σ ++ es
      /\ completions es
         = [completion (requestLogger s r (correlationID r σ)) st
              (now σ' - now σ) (Z.of_nat (String.length (http.body u)))].
Proof.
  intros s f r σ Hm.
  destruct (chain_facts s f r σ Hm)
    as (rw & σ2 & o & u & σ' & es & _ & _ & Hserve & Hl & Hc & _).
  cbv zeta in *. eauto 8.
Qed.

Lemma completion_record_measures_response_hello :
  String.eqb (http.Method sample.withID) http.MethodOptions = false
  /\ exists u σ' es st,
       http.serve (server.applyMiddleware sample.srv (script.handler sample.hello))
         sample.withID sample.world = (Some u, σ')
       /\ logs σ' = logs sample.world ++ es
       /\ completions es
          = [completion (requestLogger sample.srv sample.withID
                           (correlationID sample.withID sample.world)) st
               (now σ' - now sample.world) (Z.of_nat (String.length (http.body u)))].
Proof.
  split; [reflexivity|].
  apply (completion_record_measures_response sample.srv sample.hello sample.withID
           sample.world); reflexivity.
Defined.

(** X3.  The attributes of the completion record, in order: those of the
    server's logger, the request's correlation identifier, method, path
    and remote address, the trace and span identifiers exactly when
    telemetry is enabled and the request carries a valid span with a
    non-empty trace identifier, then status, duration and bytes. *)
Theorem completion_record_attributes :
  forall (s : server.Server) (f : http.Request -> World -> list script.Action)
         (r : http.Request) (σ : World),
    String.eqb (http.Method r) http.MethodOptions = false ->
    let span := SpanFromContext (http.Context r) in
    exists u σ' es rec st d n,
      http.serve (server.applyMiddleware s (script.handler f)) r σ = (Some u, σ')
      /\ logs σ' = logs σ ++ es
      /\ completions es = [rec]
      /\ slog.attrs rec
         = slog.fixed (server.logger s)
           ++ [("request_id", slog.StringValue (correlationID r σ));
               ("method", slog.StringValue (http.Method r));
               ("path", slog.StringValue (http.URLPath r));
               ("remote_addr", slog.StringValue (http.RemoteAddr r))]
           ++ (if config.Enabled (config.Telemetry (server.config s))
                  && trace.IsValid span
                  && negb (String.eqb (trace.TraceID span) "")
               then [("trace_id", slog.StringValue (trace.TraceID span));
                     ("span_id", slog.StringValue (trace.SpanID span))]
               else [])
           ++ [("status", slog.IntValue st); ("duration", slog.DurationValue d);
               ("bytes", slog.IntValue n)].
Proof.
  intros s f r σ Hm span.
  destruct (chain_facts s f r σ Hm)
    as (rw & σ2 & o & u & σ' & es & _ & _ & Hserve & Hl & Hc & _).
  cbv zeta in *.
  do 7 eexists. split; [exact Hserve|]. split; [exact Hl|]. split; [exact Hc|].
  unfold completion, requestLogger, slog.entry, slog.With. fold span.
  destruct (config.Enabled _ && trace.IsValid span && _); cbn;
    rewrite <- ?app_assoc; reflexivity.
Qed.

Lemma completion_record_attributes_hello :
  String.eqb (http.Method sample.withID) http.MethodOptions = false
  /\ exists u σ' es rec st d n,
       http.serve (server.applyMiddleware sample.srv (script.handler sample.hello))
         sample.withID sample.world = (Some u, σ')
       /\ logs σ' = logs sample.world ++ es
       /\ completions es = [rec]
       /\ slog.attrs rec
          = [("request_id", slog.StringValue "abc");
             ("method", slog.StringValue "GET");
             ("path", slog.StringValue "/health");
             ("remote_addr", slog.StringValue "192.0.2.1:4711");
             ("status", slog.IntValue st); ("duration", slog.DurationValue d);
             ("bytes", slog.IntValue n)].
Proof.
  split; [reflexivity|].
  apply (completion_record_attributes sample.srv sample.hello sample.withID
           sample.world); reflexivity.
Defined.

(** X4.  Every response of the chain carries the four CORS headers with the
    values the origin-policy stage sets, pre-flight or not, whatever the
    handler does short of setting them itself. *)
Theorem cors_headers_on_every_response :
  forall (s : server.Server) (f : http.Request -> World -> list script.Action)
         (r : http.Request) (σ : World),
    (String.eqb (http.Method r) http.MethodOptions = false ->
     forall key, In key ["Access-Control-Allow-Origin"; "Access-Control-Allow-Methods";
                         "Access-Control-Allow-Headers"; "Access-Control-Max-Age"] ->
       setsHeader key (f (innerRequest s r (correlationID r σ)) (afterID r σ)) = false) ->
    exists u σ',
      http.serve (server.applyMiddleware s (script.handler f)) r σ = (Some u, σ')
      /\ http.sentHeader u !! "Access-Control-Allow-Origin" = Some ["*"]
      /\ http.sentHeader u !! "Access-Control-Allow-Methods"
         = Some ["GET, POST, PUT, DELETE, OPTIONS"]
      /\ http.sentHeader u !! "Access-Control-Allow-Headers"
         = Some ["Content-Type, X-User-Email, X-Request-ID"]
      /\ http.sentHeader u !! "Access-Control-Max-Age" = Some ["3600"].
Proof.
  intros s f r σ Hf.
  destruct (String.eqb (http.Method r) http.MethodOptions) eqn:Hm.
  - exists preflightReply, σ. split; [apply chain_preflight; exact Hm|].
    repeat split; reflexivity.
  - specialize (Hf eq_refl).
    assert (Hone : forall key value,
              In key ["Access-Control-Allow-Origin"; "Access-Control-Allow-Methods";
                      "Access-Control-Allow-Headers"; "Access-Control-Max-Age"] ->
              pinned key value (greeted (correlationID r σ) http.newResponse) ->
              exists u σ',
                http.serve (server.applyMiddleware s (script.handler f)) r σ = (Some u, σ')
                /\ http.sentHeader u !! key = Some [value]).
    { intros key value Hin Hp.
      apply chain_keeps_header; [exact Hm | apply Hf; exact Hin | | | exact Hp];
        cbn in Hin; intuition (subst; discriminate). }
    destruct (chain_returns s f r σ) as (u & σ' & Hserve).
    exists u, σ'. split; [exact Hserve|].
    assert (Hget : forall key value,
              In key ["Access-Control-Allow-Origin"; "Access-Control-Allow-Methods";
                      "Access-Control-Allow-Headers"; "Access-Control-Max-Age"] ->
              pinned key value (greeted (correlationID r σ) http.newResponse) ->
              http.sentHeader u !! key = Some [value]).
    { intros key value Hin Hp.
      destruct (Hone key value Hin Hp) as (u1 & σ1 & Hs1 & Hh).
      rewrite Hserve in Hs1. injection Hs1 as <- _. exact Hh. }
    repeat split; apply Hget; cbn; auto 6;
      (split; [reflexivity | discriminate]).
Qed.

Lemma cors_headers_on_every_response_hello :
  (forall key, In key ["Access-Control-Allow-Origin"; "Access-Control-Allow-Methods";
                       "Access-Control-Allow-Headers"; "Access-Control-Max-Age"] ->
     setsHeader key (sample.hello sample.withID sample.world) = false)
  /\ exists u σ',
       http.serve (server.applyMiddleware sample.srv (script.handler sample.hello))
         sample.withID sample.world = (Some u, σ')
       /\ http.sentHeader u !! "Access-Control-Allow-Origin" = Some ["*"]
       /\ http.sentHeader u !! "Access-Control-Allow-Methods"
          = Some ["GET, POST, PUT, DELETE, OPTIONS"]
       /\ http.sentHeader u !! "Access-Control-Allow-Headers"
          = Some ["Content-Type, X-User-Email, X-Request-ID"]
       /\ http.sentHeader u !! "Access-Control-Max-Age" = Some ["3600"].
Proof.
  assert (H : forall key,
             In key ["Access-Control-Allow-Origin"; "Access-Control-Allow-Methods";
                     "Access-Control-Allow-Headers"; "Access-Control-Max-Age"] ->
             setsHeader key (sample.hello sample.withID sample.world) = false).
  { intros key Hin. cbn in Hin. destruct Hin as [<-|[<-|[<-|[<-|[]]]]]; reflexivity. }
  split; [exact H|].
  apply (cors_headers_on_every_response sample.srv sample.hello sample.withID
           sample.world).
  intros _. exact H.
Defined.

(** X5.  A panic after the response has started cannot take the status back.
    When the handler panics once the status line is out, the recovery
    stage still logs the panic and the completion record reports 500, but
    the client keeps the status and the headers the handler sent, and the
    text of the recovery stage is appended to the body already written
    (when the status allows a body). *)
Theorem late_panic_keeps_sent_status :
  forall (s : server.Server) (f : http.Request -> World -> list script.Action)
         (r : http.Request) (σ : World) (u0 : http.response) (σ2 : World)
         (v : PanicVal),
    String.eqb (http.Method r) http.MethodOptions = false ->
    script.run (f (innerRequest s r (correlationID r σ)) (afterID r σ))
      (greeted (correlationID r σ) http.newResponse) (afterID r σ)
    = (u0, σ2, Panicking v) ->
    http.wroteHeader u0 = true ->
    exists u σ' d n,
      http.serve (server.applyMiddleware s (script.handler f)) r σ = (Some u, σ')
      /\ http.status u = http.status u0
      /\ http.sentHeader u = http.sentHeader u0
      /\ http.body u
         = http.body u0 +:+ (if http.bodyAllowedForStatus (http.status u0)
                             then "Internal Server Error" +:+ nl else "")
      /\ logs σ'
         = logs σ2 ++ [panicRecord (requestLogger s r (correlationID r σ)) v;
                       completion (requestLogger s r (correlationID r σ)) 500 d n].
Proof.
  intros s f r σ u0 σ2 v Hm Hdirect Hw.
  destruct (chain_facts s f r σ Hm)
    as (rw & σ2' & o & u & σ' & es & _ & Hin & Hserve & _ & _ & Ho).
  cbv zeta in *. rewrite Hdirect in Hin.
  injection Hin as Hu Hσ Hout. subst u0 σ2' o.
  destruct Ho as [Hu Hσ'].
  destruct (Error_started (server.ResponseWriter rw)
              (emit (panicRecord (requestLogger s r (correlationID r σ)) v) σ2) Hw)
    as (_ & Hst & Hsent & Hbody).
  cbv zeta in *. rewrite <- Hu in Hst, Hsent, Hbody.
  exists u, σ'. do 2 eexists. split; [exact Hserve|].
  split; [exact Hst|]. split; [exact Hsent|]. split; [exact Hbody|].
  rewrite Hσ' at 1. cbn [logs emit]. rewrite <- app_assoc. reflexivity.
Qed.

Lemma late_panic_keeps_sent_status_lateCrash :
  String.eqb (http.Method sample.withID) http.MethodOptions = false
  /\ script.run (sample.lateCrash sample.withID sample.world)
       (greeted "abc" http.newResponse) sample.world
     = (cases.partialReply, sample.world, Panicking (PanicString "boom"))
  /\ http.wroteHeader cases.partialReply = true
  /\ exists u σ' d n,
       http.serve (server.applyMiddleware sample.srv (script.handler sample.lateCrash))
         sample.withID sample.world = (Some u, σ')
       /\ http.status u = 200
       /\ http.sentHeader u = http.sentHeader cases.partialReply
       /\ http.body u = "partial" +:+ ("Internal Server Error" +:+ nl)
       /\ logs σ'
          = [panicRecord (requestLogger sample.srv sample.withID "abc")
               (PanicString "boom");
             completion (requestLogger sample.srv sample.withID "abc") 500 d n].
Proof.
  split; [reflexivity|]. split; [reflexivity|]. split; [reflexivity|].
  exact (late_panic_keeps_sent_status sample.srv sample.lateCrash sample.withID
           sample.world cases.partialReply sample.world (PanicString "boom")
           eq_refl eq_refl eq_refl).
Defined.

(** X6.  [RequestIDFromContext] gives a handler the correlation identifier of
    its request.  It returns the string stored under the server's key,
    the empty string for a context without one or with a value that is not
    a string, and is blind to the other keys; in the chain, the request the
    handler receives carries the correlation identifier, next to the
    request logger. *)
Theorem RequestIDFromContext_reads_the_chain_id :
  forall (s : server.Server) (f : http.Request -> World -> list script.Action)
         (r : http.Request) (σ : World),
    RequestIDFromContext context.Background = ""
    /\ (forall ctx id,
          RequestIDFromContext
            (context.WithValue ctx context.RequestIDKey (context.OfString id)) = id)
    /\ (forall ctx l,
          RequestIDFromContext
            (context.WithValue ctx context.RequestIDKey (context.OfLogger l)) = "")
    /\ (forall ctx l,
          RequestIDFromContext (logger.WithContext ctx l) = RequestIDFromContext ctx)
    /\ (String.eqb (http.Method r) http.MethodOptions = false ->
        exists r',
          http.serve (server.applyMiddleware s (script.handler f)) r σ
          = http.serve (server.applyMiddleware s
                          (script.handler (fun _ σ1 => f r' σ1))) r σ
          /\ RequestIDFromContext (http.Context r') = correlationID r σ
          /\ logger.FromContext σ (http.Context r')
             = Some (requestLogger s r (correlationID r σ))).
Proof.
  intros s f r σ.
  split; [reflexivity|]. split; [reflexivity|]. split; [reflexivity|].
  split; [reflexivity|].
  intros Hm. exists (innerRequest s r (correlationID r σ)).
  split; [|split; reflexivity].
  unfold http.serve. rewrite !applyMiddleware_run by assumption. reflexivity.
Qed.

(** A disciplined handler that returns after it has started the response:
    the client gets what the handler leaves, and the completion record
    reports that status and the length of that body. *)
Lemma chain_reply (srv : server.Server)
    (f : http.Request -> World -> list script.Action) (r : http.Request) (σ : World)
    (u0 : http.response) (σ2 : World) :
  String.eqb (http.Method r) http.MethodOptions = false ->
  disciplined false (f (innerRequest srv r (correlationID r σ)) (afterID r σ)) = true ->
  script.run (f (innerRequest srv r (correlationID r σ)) (afterID r σ))
    (greeted (correlationID r σ) http.newResponse) (afterID r σ)
  = (u0, σ2, Return tt) ->
  http.wroteHeader u0 = true ->
  exists σ' es d,
    http.serve (server.applyMiddleware srv (script.handler f)) r σ = (Some u0, σ')
    /\ logs σ' = logs σ ++ es
    /\ completions es
       = [completion (requestLogger srv r (correlationID r σ)) (http.status u0) d
            (Z.of_nat (String.length (http.body u0)))]
    /\ logs σ'
       = logs σ2 ++ [completion (requestLogger srv r (correlationID r σ))
                       (http.status u0) d (Z.of_nat (String.length (http.body u0)))]
    /\ storeCalls σ' = storeCalls σ2.
Proof.
  intros Hm Hd Hdirect Hw.
  destruct (chain_facts srv f r σ Hm)
    as (rw & σ2' & o & u & σ' & es & Hrun & Hin & Hserve & Hl & Hc & Ho).
  cbv zeta in *. rewrite Hdirect in Hin.
  injection Hin as Hu Hσ Hout. subst σ2' o.
  destruct Ho as [Hfin Hσ'].
  destruct (run_synced _ _ _ _ _ _ Hrun Hd) as [Hs _]; [reflexivity|].
  apply synced_finish in Hs. rewrite <- Hfin in Hs.
  assert (Hu0 : u = u0).
  { rewrite Hfin, <- Hu. unfold http.finish. rewrite Hw. reflexivity. }
  clear Hfin. subst u. rewrite <- Hs in Hc, Hσ'.
  exists σ', es. eexists. split; [exact Hserve|]. split; [exact Hl|].
  split; [exact Hc|]. split; rewrite Hσ' at 1; reflexivity.
Qed.

(* --------------------------------------------------------------------- *)
(** *** the routes of the service behind the chain                        *)
(* --------------------------------------------------------------------- *)

Section RoutesBehindTheChain.
Variable Marshal : users.Payload -> Result error string.

Lemma jsonScript_run (lg : slog.Logger) (code : Z) (payload : users.Payload)
    (u : http.response) (σ : World) :
  http.wroteHeader u = false -> finalCode code = true ->
  http.bodyAllowedForStatus code = true ->
  exists σ2,
    script.run (jsonScript Marshal lg code payload) u σ
    = (jsonReply Marshal u code payload, σ2, Return tt)
    /\ storeCalls σ2 = storeCalls σ.
Proof.
  intros Hw Hc Hb.
  destruct (finalCode_spec code Hc) as [Hi Hn].
  unfold invalidCode in Hi. unfold informational in Hn.
  unfold jsonScript, jsonReply.
  destruct (Marshal payload) as [text|err]; cbn [app script.run script.step];
    unfold mbind, http.M_bind, http.setHeader, http.writeHeader, http.write,
           http.logWith, mret, http.M_ret;
    cbn; unfold http.response_WriteHeader; cbn; rewrite Hw, Hi, Hn; cbn.
  - unfold http.response_Write. cbn. rewrite append_nl_nonempty, Hb. cbn.
    eexists. split; reflexivity.
  - rewrite append_empty_r. eexists. split; reflexivity.
Qed.

Lemma getUserScript_run (s : users.Service.t) (lg : slog.Logger) (r : http.Request)
    (u : http.response) (σ : World) :
  http.wroteHeader u = false ->
  exists code payload σ2,
    script.run (getUserScript Marshal s lg r) u σ
    = (jsonReply Marshal u code payload, σ2, Return tt)
    /\ In code [200; 400; 404; 500].
Proof.
  intros Hw. unfold getUserScript.
  destruct (String.eqb (http.PathValue r "id") "").
  { destruct (jsonScript_run lg 400 (users.OfError "user ID is required") u σ)
      as (σ2 & -> & _); try done. do 3 eexists. split; [reflexivity|]. cbn. auto. }
  destruct (uuid.Parse (http.PathValue r "id")) as [userID|].
  2:{ destruct (jsonScript_run lg 400 (users.OfError "invalid user ID format") u σ)
        as (σ2 & -> & _); try done. do 3 eexists. split; [reflexivity|]. cbn. auto. }
  cbv zeta. rewrite run_cons. cbn [script.step]. unfold http.inWorld.
  destruct (users.Querier.GetUserByID _ _) as [dbUser|err].
  { edestruct (jsonScript_run lg 200) as (σ2 & -> & _); try done.
    do 3 eexists. split; [reflexivity|]. cbn. auto. }
  destruct (errors.Is err errors.PgxErrNoRows || errors.Is err users.ErrUserNotFound).
  { edestruct (jsonScript_run lg 404) as (σ2 & -> & _); try done.
    do 3 eexists. split; [reflexivity|]. cbn. auto. }
  rewrite run_cons. cbn [script.step]. unfold http.logWith. cbn [logVia].
  edestruct (jsonScript_run lg 500) as (σ2 & -> & _); try done.
  do 3 eexists. split; [reflexivity|]. cbn. auto.
Qed.

Lemma listUsersScript_run (s : users.Service.t) (lg : slog.Logger) (r : http.Request)
    (u : http.response) (σ : World) :
  http.wroteHeader u = false ->
  exists code payload σ2,
    script.run (listUsersScript Marshal s lg r) u σ
    = (jsonReply Marshal u code payload, σ2, Return tt)
    /\ In code [200; 400; 500].
Proof.
  intros Hw. unfold listUsersScript.
  destruct (queryInt (http.Get (http.URLQuery r) "limit") 20) as [limit|].
  2:{ edestruct (jsonScript_run lg 400) as (σ2 & -> & _); try done.
      do 3 eexists. split; [reflexivity|]. cbn. auto. }
  destruct (queryInt (http.Get (http.URLQuery r) "offset") 0) as [offset|].
  2:{ edestruct (jsonScript_run lg 400) as (σ2 & -> & _); try done.
      do 3 eexists. split; [reflexivity|]. cbn. auto. }
  cbv zeta. rewrite run_cons. cbn [script.step]. unfold http.inWorld.
  destruct (users.Querier.ListUsers _ _) as [rows|err].
  { edestruct (jsonScript_run lg 200) as (σ2 & -> & _); try done.
    do 3 eexists. split; [reflexivity|]. cbn. auto. }
  rewrite run_cons. cbn [script.step]. unfold http.logWith. cbn [logVia].
  edestruct (jsonScript_run lg 500) as (σ2 & -> & _); try done.
  do 3 eexists. split; [reflexivity|]. cbn. auto.
Qed.

(** X7.  The two routes of the API behind the chain.  Every request that is not
    a pre-flight is answered with a JSON reply laid over the headers of
    the chain: the status is one of 200, 400, 404, 500 (200, 400, 500 for
    the list), the content type is application/json, the correlation
    identifier and the CORS origin header are there, and the one
    completion record reports the status the client receives. *)
Theorem api_routes_answer_json :
  forall (srv : server.Server) (s : users.Service.t) (lg : slog.Logger)
         (r : http.Request) (σ : World),
    String.eqb (http.Method r) http.MethodOptions = false ->
    let h := users.NewHandler (users.Service.asInterface s) lg in
    let rid := correlationID r σ in
    (exists code payload σ' es d n,
       http.serve (server.applyMiddleware srv (users.HandleGetUser Marshal h)) r σ
       = (Some (jsonReply Marshal (greeted rid http.newResponse) code payload), σ')
       /\ In code [200; 400; 404; 500]
       /\ logs σ' = logs σ ++ es
       /\ completions es = [completion (requestLogger srv r rid) code d n])
    /\ (exists code payload σ' es d n,
          http.serve (server.applyMiddleware srv (users.HandleListUsers Marshal h)) r σ
          = (Some (jsonReply Marshal (greeted rid http.newResponse) code payload), σ')
          /\ In code [200; 400; 500]
          /\ logs σ' = logs σ ++ es
          /\ completions es = [completion (requestLogger srv r rid) code d n])
    /\ (forall code payload,
          let u := jsonReply Marshal (greeted rid http.newResponse) code payload in
          http.status u = code
          /\ http.sentHeader u !! "Content-Type" = Some ["application/json"]
          /\ http.sentHeader u !! "X-Request-ID" = Some [rid]
          /\ http.sentHeader u !! "Access-Control-Allow-Origin" = Some ["*"]).
Proof.
  intros srv s lg r σ Hm. cbv zeta.
  destruct (routes_are_disciplined Marshal srv s lg r σ)
    as (_ & _ & _ & Hget & Hlist & Hdget & Hdlist).
  cbv zeta in *. split; [|split].
  - rewrite Hget.
    destruct (getUserScript_run s lg (innerRequest srv r (correlationID r σ))
                (greeted (correlationID r σ) http.newResponse) (afterID r σ) eq_refl)
      as (code & payload & σ2 & Hrun & Hcode).
    destruct (chain_reply srv (fun r' _ => getUserScript Marshal s lg r') r σ
                _ σ2 Hm (proj1 (Hdget _)) Hrun eq_refl)
      as (σ' & es & d & Hserve & Hl & Hc & _).
    exists code, payload, σ', es, d. eexists. eauto.
  - rewrite Hlist.
    destruct (listUsersScript_run s lg (innerRequest srv r (correlationID r σ))
                (greeted (correlationID r σ) http.newResponse) (afterID r σ) eq_refl)
      as (code & payload & σ2 & Hrun & Hcode).
    destruct (chain_reply srv (fun r' _ => listUsersScript Marshal s lg r') r σ
                _ σ2 Hm (proj1 (Hdlist _)) Hrun eq_refl)
      as (σ' & es & d & Hserve & Hl & Hc & _).
    exists code, payload, σ', es, d. eexists. eauto.
  - intros code payload. repeat split; reflexivity.
Qed.

End RoutesBehindTheChain.

Lemma api_routes_answer_json_scenarioB :
  String.eqb (http.Method sample.scenarioB) http.MethodOptions = false
  /\ (exists code payload σ' es d n,
        http.serve (server.applyMiddleware sample.srv
                      (users.HandleGetUser sample.Marshal
                         (server.userHandler sample.srv)))
          sample.scenarioB sample.world
        = (Some (jsonReply sample.Marshal
                   (greeted (correlationID sample.scenarioB sample.world)
                      http.newResponse) code payload), σ')
        /\ In code [200; 400; 404; 500]
        /\ logs σ' = logs sample.world ++ es
        /\ completions es
           = [completion (requestLogger sample.srv sample.scenarioB
                            (correlationID sample.scenarioB sample.world)) code d n]).
Proof.
  split; [reflexivity|].
  apply (api_routes_answer_json sample.Marshal sample.srv
           (users.NewService sample.emptyStore) sample.base sample.scenarioB
           sample.world eq_refl).
Defined.

Lemma healthScript_run (s : server.Server) (u : http.response) (σ : World) :
  http.wroteHeader u = false ->
  script.run (healthScript s) u σ
  = ({| http.handlerHeader :=
          http.Set_ "Content-Type" "application/json" (http.handlerHeader u);
        http.wroteHeader := true; http.status := 200;
        http.sentHeader :=
          http.Set_ "Content-Type" "application/json" (http.handlerHeader u);
        http.interim := http.interim u;
        http.body := http.body u +:+ healthBody s |}, σ, Return tt).
Proof.
  intros Hw. unfold healthScript. fold (healthBody s).
  assert (Hne : String.eqb (healthBody s) "" = false) by reflexivity.
  cbn [script.run script.step].
  unfold mbind, http.M_bind, http.setHeader, http.writeHeader, http.write,
         mret, http.M_ret.
  cbn. unfold http.response_WriteHeader. cbn. rewrite Hw. cbn.
  unfold http.response_Write. cbn. rewrite Hne. reflexivity.
Qed.

(** X8.  The health check behind the chain.  Any request that is neither a
    pre-flight nor a HEAD request (for which net/http sends no body, a
    case the model of net/http does not have) is answered 200 with the
    JSON content type and a body that names the service and its version;
    the store is not consulted, and the only record written is the
    completion record, with status 200 and the length of that body. *)
Theorem health_check_reply :
  forall (s : server.Server) (r : http.Request) (σ : World),
    String.eqb (http.Method r) http.MethodOptions = false ->
    String.eqb (http.Method r) "HEAD" = false ->
    exists u σ' d,
      http.serve (server.applyMiddleware s (server.handleHealthCheck s)) r σ
      = (Some u, σ')
      /\ http.status u = http.StatusOK
      /\ http.sentHeader u !! "Content-Type" = Some ["application/json"]
      /\ http.sentHeader u !! "X-Request-ID" = Some [correlationID r σ]
      /\ http.body u = healthBody s
      /\ storeCalls σ' = storeCalls σ
      /\ logs σ'
         = logs σ ++ [completion (requestLogger s r (correlationID r σ)) 200 d
                        (Z.of_nat (String.length (healthBody s)))].
Proof.
  intros s r σ Hm _.
  destruct (routes_are_disciplined (fun _ => Ok "") s
              (users.NewService (server.queries s)) (server.logger s) r σ)
    as (Hhealth & Hd & _).
  rewrite Hhealth.
  destruct (chain_reply s (fun _ _ => healthScript s) r σ _ (afterID r σ) Hm Hd
              (healthScript_run s (greeted (correlationID r σ) http.newResponse)
                 (afterID r σ) eq_refl) eq_refl)
    as (σ' & es & d & Hserve & _ & _ & Hl & Hst).
  rewrite logs_afterID in Hl. rewrite storeCalls_afterID in Hst.
  eexists. exists σ', d. split; [exact Hserve|].
  split; [reflexivity|]. split; [reflexivity|]. split; [reflexivity|].
  split; [reflexivity|]. split; [exact Hst | exact Hl].
Qed.

Lemma health_check_reply_withID :
  String.eqb (http.Method sample.withID) http.MethodOptions = false
  /\ String.eqb (http.Method sample.withID) "HEAD" = false
  /\ exists u σ' d,
       http.serve (server.applyMiddleware sample.srv
                     (server.handleHealthCheck sample.srv))
         sample.withID sample.world = (Some u, σ')
       /\ http.status u = http.StatusOK
       /\ http.sentHeader u !! "Content-Type" = Some ["application/json"]
       /\ http.sentHeader u !! "X-Request-ID" = Some ["abc"]
       /\ http.body u = healthBody sample.srv
       /\ storeCalls σ' = storeCalls sample.world
       /\ logs σ'
          = logs sample.world
            ++ [completion (requestLogger sample.srv sample.withID "abc") 200 d
                  (Z.of_nat (String.length (healthBody sample.srv)))].
Proof.
  split; [reflexivity|]. split; [reflexivity|].
  exact (health_check_reply sample.srv sample.withID sample.world eq_refl eq_refl).
Defined.

(* --------------------------------------------------------------------- *)
(** *** the handlers of the users, the other paths                        *)
(* --------------------------------------------------------------------- *)

Lemma logs_encodeLog Marshal h payload σ :
  exists es, logs (encodeLog Marshal h payload σ) = logs σ ++ es.
Proof.
  unfold encodeLog. destruct (Marshal payload).
  - exists []. rewrite app_nil_r. reflexivity.
  - eexists. reflexivity.
Qed.

(** X9.  A user that is found.  On a server built by [server.New] over a store,
    a request whose identifier parses and for which the store returns a
    row is answered 200 with the user made from that row, after exactly
    one lookup under that identifier; the identifier of the user is the
    one requested when the store returns the row it was asked for, and
    the zero identifier when the row's identifier is not valid. *)
Theorem HandleGetUser_found :
  forall (Marshal : users.Payload -> Result error string)
         (cfg : config.Config) (lg : slog.Logger) (queries : users.Querier.t)
         (r : http.Request) (id : uuid.UUID) (row : db.GetUserByIDRow) (σ : World),
    uuid.Parse (http.PathValue r "id") = Some id ->
    let pgID := {| pgtype.Bytes := id; pgtype.Valid := true |} in
    users.Querier.GetUserByID queries pgID = Ok row ->
    exists σ',
      http.serve (users.HandleGetUser Marshal
                    (server.userHandler (server.New cfg lg queries))) r σ
      = (Some (jsonReply Marshal http.newResponse http.StatusOK
                 (users.OfUser (users.toUser row))), σ')
      /\ storeCalls σ' = storeCalls σ ++ [db.CallGetUserByID pgID]
      /\ (db.ID row = pgID -> users.ID (users.toUser row) = id)
      /\ (pgtype.Valid (db.ID row) = false -> users.ID (users.toUser row) = uuid.Nil)
      /\ users.Email (users.toUser row) = db.Email row
      /\ users.Name (users.toUser row) = db.Name row.
Proof.
  intros Marshal cfg lg queries r id row σ Hp pgID Hq.
  rewrite HandleGetUser_serve. cbv zeta.
  destruct (String.eqb (http.PathValue r "id") "") eqn:He.
  { apply String.eqb_eq in He. rewrite He in Hp. discriminate Hp. }
  rewrite Hp.
  cbn [server.userHandler server.New users.service users.NewHandler
       users.Service.asInterface users.ServiceInterface.GetUserByID].
  rewrite GetUserByID_call by (eapply Parse_length; exact Hp). cbv zeta.
  cbn [users.Service.queries users.NewService]. fold pgID. rewrite Hq.
  eexists. split; [reflexivity|].
  split; [rewrite storeCalls_encodeLog; reflexivity|].
  unfold users.toUser. cbn.
  split; [intros ->; reflexivity|]. split; [intros ->; reflexivity|].
  split; reflexivity.
Qed.

Lemma HandleGetUser_found_alice :
  uuid.Parse (http.PathValue sample.scenarioB "id") = Some sample.id
  /\ users.Querier.GetUserByID cases.oneUser
       {| pgtype.Bytes := sample.id; pgtype.Valid := true |} = Ok cases.alice
  /\ exists σ',
       http.serve (users.HandleGetUser sample.Marshal
                     (server.userHandler
                        (server.New sample.cfg sample.base cases.oneUser)))
         sample.scenarioB sample.world
       = (Some (jsonReply sample.Marshal http.newResponse http.StatusOK
                  (users.OfUser (users.toUser cases.alice))), σ')
       /\ storeCalls σ'
          = [db.CallGetUserByID {| pgtype.Bytes := sample.id; pgtype.Valid := true |}]
       /\ users.ID (users.toUser cases.alice) = sample.id.
Proof.
  split; [reflexivity|]. split; [reflexivity|].
  destruct (HandleGetUser_found sample.Marshal sample.cfg sample.base cases.oneUser
              sample.scenarioB sample.id cases.alice sample.world eq_refl eq_refl)
    as (σ' & Hserve & Hcalls & Hid & _).
  exists σ'. split; [exact Hserve|]. split; [exact Hcalls|].
  apply Hid. reflexivity.
Defined.

(** X10.  A store failure while listing.  When the query parameters are accepted
    and the store returns an error, the answer is 500 with the fixed
    message "internal server error", the same whatever the error is; the
    error goes to the log of the handler, and the store was called once
    with the applied limit and offset. *)
Theorem HandleListUsers_store_failure :
  forall (Marshal : users.Payload -> Result error string)
         (cfg : config.Config) (lg : slog.Logger) (queries : users.Querier.t)
         (r : http.Request) (limit offset : Z) (err : error) (σ : World),
    queryInt (http.Get (http.URLQuery r) "limit") 20 = Some limit ->
    queryInt (http.Get (http.URLQuery r) "offset") 0 = Some offset ->
    let arg := {| db.Limit := appliedLimit limit; db.Offset := appliedOffset offset |} in
    users.Querier.ListUsers queries arg = Err err ->
    exists σ',
      http.serve (users.HandleListUsers Marshal
                    (server.userHandler (server.New cfg lg queries))) r σ
      = (Some (jsonReply Marshal http.newResponse http.StatusInternalServerError
                 (users.OfError "internal server error")), σ')
      /\ In (slog.entry lg slog.LevelError "failed to list users"
               [("error", slog.ErrorValue err)]) (logs σ')
      /\ storeCalls σ' = storeCalls σ ++ [db.CallListUsers arg].
Proof.
  intros Marshal cfg lg queries r limit offset err σ Hl Ho arg Hq.
  rewrite HandleListUsers_serve, Hl, Ho.
  cbn [server.userHandler server.New users.service users.NewHandler
       users.Service.asInterface users.ServiceInterface.ListUsers].
  rewrite ListUsers_call. cbv zeta.
  cbn [users.Service.queries users.NewService]. fold arg. rewrite Hq.
  eexists. split; [reflexivity|]. split.
  - match goal with
    | |- In _ (logs (encodeLog ?M ?h ?p ?w)) =>
        destruct (logs_encodeLog M h p w) as (es & ->)
    end.
    cbn [logs emit users.logger]. rewrite !in_app_iff. left; right. left. reflexivity.
  - rewrite storeCalls_encodeLog. reflexivity.
Qed.

Lemma HandleListUsers_store_failure_broken :
  queryInt (http.Get (http.URLQuery sample.bigLimit) "limit") 20 = Some 500
  /\ queryInt (http.Get (http.URLQuery sample.bigLimit) "offset") 0 = Some 0
  /\ users.Querier.ListUsers sample.brokenStore
       {| db.Limit := appliedLimit 500; db.Offset := appliedOffset 0 |}
     = Err (errors.Other "connection refused")
  /\ exists σ',
       http.serve (users.HandleListUsers sample.Marshal
                     (server.userHandler
                        (server.New sample.cfg sample.base sample.brokenStore)))
         sample.bigLimit sample.world
       = (Some (jsonReply sample.Marshal http.newResponse
                  http.StatusInternalServerError
                  (users.OfError "internal server error")), σ')
       /\ In (slog.entry sample.base slog.LevelError "failed to list users"
                [("error", slog.ErrorValue (errors.Other "connection refused"))])
            (logs σ')
       /\ storeCalls σ'
          = [db.CallListUsers {| db.Limit := 100; db.Offset := 0 |}].
Proof.
  split; [reflexivity|]. split; [reflexivity|]. split; [reflexivity|].
  exact (HandleListUsers_store_failure sample.Marshal sample.cfg sample.base
           sample.brokenStore sample.bigLimit 500 0
           (errors.Other "connection refused") sample.world
           eq_refl eq_refl eq_refl).
Defined.

(** X11.  A payload that cannot be encoded.  [respondWithJSON] sends the status
    line and the JSON content type before it encodes; when encoding fails
    the client is left with that status and no body at all, the failure
    is logged, and the handler returns normally. *)
Theorem respondWithJSON_encoding_failure :
  forall (Marshal : users.Payload -> Result error string) (h : users.Handler)
         (code : Z) (payload : users.Payload) (err : error)
         (u : http.response) (σ : World),
    http.wroteHeader u = false ->
    finalCode code = true ->
    Marshal payload = Err err ->
    exists u',
      users.respondWithJSON Marshal h code payload u σ
      = (u', emit (slog.entry (users.logger h) slog.LevelError
                     "failed to encode response" [("error", slog.ErrorValue err)]) σ,
         Return tt)
      /\ http.wroteHeader u' = true
      /\ http.status u' = code
      /\ http.sentHeader u' !! "Content-Type" = Some ["application/json"]
      /\ http.body u' = http.body u.
Proof.
  intros Marshal h code payload err u σ Hw Hc Hm.
  destruct (finalCode_spec code Hc) as [Hi Hn].
  unfold invalidCode in Hi. unfold informational in Hn.
  unfold users.respondWithJSON. rewrite Hm.
  unfold mbind, http.M_bind, http.setHeader, http.writeHeader, http.logWith.
  cbn. unfold http.response_WriteHeader. cbn. rewrite Hw, Hi, Hn. cbn.
  eexists. split; [reflexivity|]. cbn.
  split; [reflexivity|]. split; [reflexivity|]. split; [|reflexivity].
  unfold http.Set_. apply lookup_insert_eq.
Qed.

Lemma respondWithJSON_encoding_failure_negative :
  http.wroteHeader http.newResponse = false
  /\ finalCode 200 = true
  /\ sample.Marshal (users.OfList [] (-1) 0) = Err (errors.Other "negative")
  /\ exists u',
       users.respondWithJSON sample.Marshal (server.userHandler sample.srv) 200
         (users.OfList [] (-1) 0) http.newResponse sample.world
       = (u', emit (slog.entry sample.base slog.LevelError
                      "failed to encode response"
                      [("error", slog.ErrorValue (errors.Other "negative"))])
                sample.world,
          Return tt)
       /\ http.wroteHeader u' = true
       /\ http.status u' = 200
       /\ http.sentHeader u' !! "Content-Type" = Some ["application/json"]
       /\ http.body u' = "".
Proof.
  split; [reflexivity|]. split; [reflexivity|]. split; [reflexivity|].
  exact (respondWithJSON_encoding_failure sample.Marshal
           (server.userHandler sample.srv) 200 (users.OfList [] (-1) 0)
           (errors.Other "negative") http.newResponse sample.world
           eq_refl eq_refl eq_refl).
Defined.

(** X12.  The offset the store receives.  [ListUsers] converts the offset to
    [int32]: an offset below 2^31 reaches the store as it is, one from
    2^31 up to 2^32 - 1 reaches it reduced by 2^32, so negative; in every
    case the store receives an offset within the range of [int32]. *)
Theorem ListUsers_offset_conversion :
  forall (s : users.Service.t) (ctx : context.Context) (limit offset : Z)
         (σ : World),
    exists arg : db.ListUsersParams,
      storeCalls (snd (users.Service.ListUsers s ctx limit offset σ))
        = storeCalls σ ++ [db.CallListUsers arg]
      /\ (0 <= offset < 2 ^ 31 -> db.Offset arg = offset)
      /\ (2 ^ 31 <= offset < 2 ^ 32 ->
          db.Offset arg = offset - 2 ^ 32 /\ db.Offset arg < 0)
      /\ - 2 ^ 31 <= db.Offset arg < 2 ^ 31.
Proof.
  intros s ctx limit offset σ.
  rewrite ListUsers_call. cbv zeta.
  eexists. split; [reflexivity|]. cbn [db.Offset].
  unfold appliedOffset, int32.
  split; [|split].
  - intros H. destruct (offset <? 0) eqn:Hn; [lia|].
    rewrite Z.mod_small by lia. lia.
  - intros H. destruct (offset <? 0) eqn:Hn; [lia|].
    assert (Hm : (offset + 2 ^ 31) mod 2 ^ 32 = offset - 2 ^ 31).
    { symmetry. apply (Z.mod_unique_pos _ _ 1); lia. }
    rewrite Hm. lia.
  - pose proof (Z.mod_pos_bound ((if offset <? 0 then 0 else offset) + 2 ^ 31)
                  (2 ^ 32)) as Hb.
    lia.
Qed.

(* --------------------------------------------------------------------- *)
(** *** the process, from start to exit                                   *)
(* --------------------------------------------------------------------- *)

(** X13.  A failed start.  When the configuration does not load, telemetry
    does not initialize or the database does not connect, the process
    logs that failure at Error and exits with status 1 at once.  The
    steps after the failed one are not attempted, whatever they would
    answer; the server is not started and no signal is awaited; and no
    deferred call runs, not even the tracer shutdown that is already
    deferred when it is the database that fails. *)
Theorem main_startup_failure :
  forall env : main.Env,
    startsServing env = false ->
    exists steps rest msg,
      main.main env = steps ++ [main.Log slog.LevelError msg; main.Exit 1]
      /\ steps ++ rest
         = [main.SetDefault; main.ConfigLoad; main.TelemetryInit;
            main.DatabaseConnect]
      /\ msg = match main.configLoad env, main.telemetryInit env with
               | Err _, _ => "failed to load configuration"
               | Ok _, Some _ => "failed to initialize telemetry"
               | Ok _, None => "failed to connect to database"
               end
      /\ (In main.TelemetryInit steps
          <-> exists cfg, main.configLoad env = Ok cfg)
      /\ (In main.DatabaseConnect steps
          <-> (exists cfg, main.configLoad env = Ok cfg)
              /\ main.telemetryInit env = None)
      /\ ~ In main.shutdown (main.main env)
      /\ ~ In main.PoolClose (main.main env)
      /\ ~ In main.AwaitSignal (main.main env)
      /\ (forall address, ~ In (main.GoStart address) (main.main env)).
Proof.
  intros env Hs.
  exists (removelast (removelast (main.main env))).
  destruct env as [[cfg|e] [t|] [d|] [sh|]]; try discriminate Hs; clear Hs;
    cbn [main.configLoad main.telemetryInit main.databaseConnect];
    eexists; eexists;
    (split; [vm_compute; reflexivity|]);
    (split; [vm_compute; reflexivity|]);
    (split; [reflexivity|]);
    vm_compute;
    (split; [split; [intros Hin; intuition (try discriminate); eauto
                    | intros [c Hc]; try discriminate Hc; auto 10]|]);
    (split; [split; [intros Hin; intuition (try discriminate); eauto
                    | intros [[c Hc] Ht]; try discriminate Hc; try discriminate Ht;
                      auto 10]|]);
    (split; [intros Hin; intuition discriminate|]);
    (split; [intros Hin; intuition discriminate|]);
    (split; [intros Hin; intuition discriminate|]);
    intros a Hin; intuition discriminate.
Qed.

Lemma main_startup_failure_databaseDown :
  startsServing cases.databaseDown = false
  /\ main.main cases.databaseDown
     = [main.SetDefault; main.ConfigLoad; main.TelemetryInit; main.DatabaseConnect;
        main.Log slog.LevelError "failed to connect to database"; main.Exit 1]
  /\ ~ In main.shutdown (main.main cases.databaseDown).
Proof.
  split; [reflexivity|]. split; [reflexivity|].
  destruct (main_startup_failure cases.databaseDown eq_refl)
    as (steps & rest & msg & _ & _ & _ & _ & _ & Hno & _).
  exact Hno.
Defined.

(* --------------------------------------------------------------------- *)
(** *** the configuration                                                 *)
(* --------------------------------------------------------------------- *)

Lemma error_eqb_refl (e : error) : errors.error_eqb e e = true.
Proof.
  induction e as [| |m|m inner IH]; cbn; rewrite ?String.eqb_refl, ?IH; reflexivity.
Qed.

Lemma Is_wrapped (m : string) (e : error) : errors.Is (errors.Wrap m e) e = true.
Proof.
  cbn [errors.Is]. destruct e; cbn [errors.Is]; rewrite error_eqb_refl;
    cbn; rewrite ?orb_true_r; reflexivity.
Qed.

Lemma Getenv_insert (env : os.Environ) (key value : string) :
  os.Getenv (<[key := value]> env) key = value.
Proof. unfold os.Getenv, os.Environ in *. rewrite lookup_insert_eq. reflexivity. Qed.

Lemma getEnv_nonempty (env : os.Environ) (key defaultValue : string) :
  defaultValue <> "" -> configuration.getEnv env key defaultValue <> "".
Proof.
  intros Hd. unfold configuration.getEnv.
  destruct (String.eqb_spec (os.Getenv env key) ""); cbn; assumption.
Qed.

Section Configuration.
Variable Sscanf_d : string -> option Z.
Variable ParseDuration : string -> option Z.
Variable godotenv_Load : os.Environ -> os.Environ * option error.
Variable IsNotExist : error -> bool.

(** X14.  What the helpers of [Load] fall back to.  A variable set to the empty
    string counts as not set, for all four helpers; a value that does not
    read as a number or as a duration gives the default, without an
    error; a boolean is true for the values true, 1 and yes only, and
    false for any other value that is not empty, whatever the default. *)
Theorem config_helpers_fall_back :
  forall (env : os.Environ) (key : string),
    (forall d, configuration.getEnv (<[key := ""]> env) key d = d)
    /\ (forall d, configuration.getIntEnv Sscanf_d (<[key := ""]> env) key d = d)
    /\ (forall d, configuration.getBoolEnv (<[key := ""]> env) key d = d)
    /\ (forall d, configuration.getDuration ParseDuration (<[key := ""]> env) key d = d)
    /\ (forall d, configuration.getEnv (delete key env) key d = d)
    /\ (forall value d, value <> "" ->
          configuration.getEnv (<[key := value]> env) key d = value)
    /\ (forall value d, Sscanf_d value = None ->
          configuration.getIntEnv Sscanf_d (<[key := value]> env) key d = d)
    /\ (forall value d, ParseDuration value = None ->
          configuration.getDuration ParseDuration (<[key := value]> env) key d = d)
    /\ (forall value d, value <> "" ->
          (configuration.getBoolEnv (<[key := value]> env) key d = true
           <-> In value ["true"; "1"; "yes"])).
Proof.
  intros env key.
  unfold configuration.getEnv, configuration.getIntEnv, configuration.getBoolEnv,
         configuration.getDuration.
  do 4 (split; [intros d; rewrite Getenv_insert; reflexivity|]).
  split.
  { intros d. unfold os.Getenv, os.Environ in *. rewrite lookup_delete_eq.
    reflexivity. }
  split.
  { intros value d Hv. rewrite Getenv_insert.
    destruct (String.eqb_spec value ""); [contradiction | reflexivity]. }
  split.
  { intros value d Hv. rewrite Getenv_insert, Hv.
    destruct (String.eqb value ""); reflexivity. }
  split.
  { intros value d Hv. rewrite Getenv_insert, Hv.
    destruct (String.eqb value ""); reflexivity. }
  intros value d Hv. rewrite Getenv_insert.
  destruct (String.eqb_spec value ""); [contradiction|]. cbn. split.
  - intros Hb. apply orb_prop in Hb as [Hb|Hb]; [apply orb_prop in Hb as [Hb|Hb]|];
      apply String.eqb_eq in Hb; subst; auto.
  - intros [<-|[<-|[<-|[]]]]; reflexivity.
Qed.

(** X15.  [Load] fails for one reason only: [godotenv.Load] returns an error
    that is not the error of a missing file.  The error it returns then
    wraps that cause, under the message "error loading .env file".  No
    value of the environment, malformed as it may be, makes it fail. *)
Theorem Load_fails_on_dotenv_only :
  forall env : os.Environ,
    match configuration.Load Sscanf_d ParseDuration godotenv_Load IsNotExist env with
    | Err e =>
        exists cause,
          snd (godotenv_Load env) = Some cause
          /\ IsNotExist cause = false
          /\ errors.Is e cause = true
          /\ errors.Error e = "error loading .env file: " +:+ errors.Error cause
    | Ok _ =>
        snd (godotenv_Load env) = None
        \/ exists err, snd (godotenv_Load env) = Some err /\ IsNotExist err = true
    end.
Proof.
  intros env. unfold configuration.Load.
  destruct (godotenv_Load env) as [env' [err|]]; cbn [snd].
  - destruct (IsNotExist err) eqn:Hn; cbn [negb].
    + right. eauto.
    + exists err. split; [reflexivity|]. split; [exact Hn|].
      split; [apply Is_wrapped | reflexivity].
  - left. reflexivity.
Qed.

(** X16.  The text fields of a loaded configuration are never empty, whatever
    the environment holds: service name and version, server address,
    database host, port, user, name and SSL mode, and the OTLP endpoint
    (the database password is the one text field that may be empty). *)
Theorem Load_text_fields_nonempty :
  forall (env : os.Environ) (c : configuration.Config),
    configuration.Load Sscanf_d ParseDuration godotenv_Load IsNotExist env = Ok c ->
    config.Name (configuration.Service c) <> ""
    /\ config.Version (configuration.Service c) <> ""
    /\ configuration.Address (configuration.Server c) <> ""
    /\ configuration.Host (configuration.Database c) <> ""
    /\ configuration.Port (configuration.Database c) <> ""
    /\ configuration.User (configuration.Database c) <> ""
    /\ configuration.Database_ (configuration.Database c) <> ""
    /\ configuration.SSLMode (configuration.Database c) <> ""
    /\ configuration.OTLPEndpoint (configuration.Telemetry c) <> "".
Proof.
  intros env c. unfold configuration.Load.
  destruct (godotenv_Load env) as [env' loadErr].
  destruct (match loadErr with
            | Some err => if negb (IsNotExist err) then Some _ else None
            | None => None
            end); [discriminate|].
  intros Hc. injection Hc as <-. cbn.
  repeat split; apply getEnv_nonempty; discriminate.
Qed.

End Configuration.

Lemma Load_text_fields_nonempty_vars :
  exists c,
    configuration.Load cases.unreadable cases.unreadable cases.noFile cases.IsNotExist
      cases.vars = Ok c
    /\ configuration.Address (configuration.Server c) = ":9090"
    /\ configuration.Host (configuration.Database c) = "localhost"
    /\ config.Name (configuration.Service c) <> ""
    /\ configuration.Host (configuration.Database c) <> "".
Proof.
  eexists. split; [reflexivity|]. split; [reflexivity|]. split; [reflexivity|].
  destruct (Load_text_fields_nonempty cases.unreadable cases.unreadable cases.noFile
              cases.IsNotExist cases.vars _ eq_refl) as (Hn & _ & _ & Hh & _).
  split; [exact Hn | exact Hh].
Defined.

(* --------------------------------------------------------------------- *)
(** *** the condition on the status, on a concrete handler                *)
(* --------------------------------------------------------------------- *)

(** Why the status of a disciplined handler is a final one: a handler
    that sends the informational status 103 and returns leaves a
    completion record with status 103, while the client receives 200. *)
Example informational_status_is_logged_not_sent :
  let res := http.serve (server.applyMiddleware sample.srv
                           (script.handler cases.earlyHints))
               sample.withID sample.world in
  option_map http.status (fst res) = Some 200
  /\ completions (logs (snd res))
     = [completion (requestLogger sample.srv sample.withID "abc") 103 0 0]
  /\ disciplined false (cases.earlyHints sample.withID sample.world) = false.
Proof. vm_compute. repeat split; reflexivity. Qed.
